(** * nbp: iSCSI session helper and OpenSDS service-broker controller

    A shallow embedding of
      - client/iscsi/helper.go                 (package iscsi)
      - service-broker/controller/controller.go (package controller)
    and the properties of the device-path poll, the connect protocol, the
    volume preparation steps and the instance registry.

    Go code is embedded as functions in a small state monad whose state is the
    history of the interactions with the outside world (the host for package
    iscsi, the storage control-plane client for package controller).  A
    computation ends in one of three ways: it returns, it terminates the
    process ([log.Fatal*], i.e. a log line followed by [os.Exit(1)]), or it
    panics. *)

From Stdlib Require Import ZArith Ascii DecimalString Lia.
From stdpp Require Import gmap strings list.

(* ===================================================================== *)
(** * The Go run time, as far as the two packages use it *)
(* ===================================================================== *)

Module Go.

(** ** Errors

    The dynamic error values that reach the code: the sentinel
    [os.ErrNotExist], an [*os.PathError] around a [syscall.Errno], the
    [*exec.ExitError] / [*exec.Error] of a failed command, and the
    [*errors.errorString] built by [errors.New] and [fmt.Errorf]. *)
Inductive error : Type :=
| ErrNotExist
| PathError (op path : string) (errno : Z)
| ExitError (status : Z)
| ExecError (name : string) (msg : string)
| errorString (s : string).

Definition ENOENT : Z := 2.

(** [os.IsNotExist]: the sentinel itself, or ENOENT under a PathError. *)
Definition os_IsNotExist (err : error) : bool :=
  match err with
  | ErrNotExist => true
  | PathError _ _ errno => (errno =? ENOENT)%Z
  | _ => false
  end.

Definition errors_New (s : string) : error := errorString s.

(** ** Slices: a nil slice is not an empty slice. *)
Inductive slice (A : Type) : Type :=
| nil_slice
| mk_slice (elems : list A).
Arguments nil_slice {A}.
Arguments mk_slice {A} elems.

(** ** Outcomes and the monad *)
Inductive Outcome (A : Type) : Type :=
| Ret (a : A)             (* the function returned [a] *)
| Fatal (format : string) (* log.Fatal*: message logged, then os.Exit(1) *)
| Panic (msg : string).   (* run-time panic *)
Arguments Ret {A} a.
Arguments Fatal {A} format.
Arguments Panic {A} msg.

Definition M (S A : Type) : Type := S -> Outcome A * S.

Definition ret {S A} (a : A) : M S A := fun s => (Ret a, s).

Definition bind {S A B} (m : M S A) (k : A -> M S B) : M S B :=
  fun s =>
    match m s with
    | (Ret a, s') => k a s'
    | (Fatal f, s') => (Fatal f, s')
    | (Panic p, s') => (Panic p, s')
    end.

(** [log.Fatalf(format, ...)] and [log.Fatalln(...)]: the process ends
    here; whatever follows the call in the source is never run.  The
    outcome keeps the constant part of the message. *)
Definition log_Fatalf {S A} (format : string) : M S A :=
  fun s => (Fatal format, s).

Definition panic {S A} (msg : string) : M S A :=
  fun s => (Panic msg, s).

#[global] Instance M_ret S : MRet (M S) := fun A => @ret S A.
#[global] Instance M_bind S : MBind (M S) := fun A B k m => @bind S A B m k.

(** ** package strings, package strconv *)

Fixpoint strings_HasPrefix (s prefix : string) : bool :=
  match prefix, s with
  | EmptyString, _ => true
  | String p prefix', String c s' => Ascii.eqb c p && strings_HasPrefix s' prefix'
  | String _ _, EmptyString => false
  end.

(** [strings.Contains(s, substr)] *)
Fixpoint strings_Contains (s substr : string) : bool :=
  strings_HasPrefix s substr ||
  match s with
  | EmptyString => false
  | String _ s' => strings_Contains s' substr
  end.

(** [strings.Split(s, sep)] for a non-empty [sep]: the pieces between the
    leftmost non-overlapping occurrences of [sep].  [skip] counts the bytes
    of a matched separator that are still to be dropped, [cur] is the piece
    being read. *)
Fixpoint split_from (sep : string) (skip : nat) (cur s : string) : list string :=
  match s with
  | EmptyString => [cur]
  | String c s' =>
      match skip with
      | S k => split_from sep k cur s'
      | O =>
          if strings_HasPrefix s sep
          then cur :: split_from sep (String.length sep - 1) EmptyString s'
          else split_from sep 0 (cur +:+ String c EmptyString) s'
      end
  end.

Definition strings_Split (s sep : string) : list string :=
  split_from sep 0 EmptyString s.

(** [strings.Join(elems, sep)] *)
Fixpoint strings_Join (elems : list string) (sep : string) : string :=
  match elems with
  | [] => EmptyString
  | [x] => x
  | x :: rest => x +:+ sep +:+ strings_Join rest sep
  end.

(** [strings.Replace(s, old, new, -1)] for a non-empty [old]: every
    non-overlapping occurrence of [old], leftmost first, becomes [new]. *)
Definition strings_ReplaceAll (s old new : string) : string :=
  strings_Join (strings_Split s old) new.

(** [strconv.Itoa] *)
Definition strconv_Itoa (i : Z) : string :=
  NilZero.string_of_int (Z.to_int i).

(** [time.Second], a [time.Duration] in nanoseconds. *)
Definition time_Second : Z := 1000000000.

End Go.

Import Go.


(* ===================================================================== *)
(** * The imported types (opensds model, interface values) *)
(* ===================================================================== *)

(** The structs of github.com/opensds/opensds/pkg/model that the code reads
    and writes, with the fields it touches.  A Go map field may be nil:
    [None] is the nil map. *)
Module model.

Record VolumeSpec : Type := {
  vs_Id : string;
  vs_Name : string;
  vs_Description : string;
  vs_Size : Z;
  vs_Metadata : option (gmap string string)
}.

Record HostInfo : Type := {
  hi_Host : string;
  hi_Initiator : string
}.

(** The connection info of an attachment; the broker only hands it on. *)
Record ConnectionInfo : Type := {
  ci_DriverVolumeType : string;
  ci_ConnectionData : list (string * string)
}.

Record VolumeAttachmentSpec : Type := {
  va_Id : string;
  va_VolumeId : string;
  va_HostInfo : option HostInfo;
  va_Metadata : option (gmap string string);
  va_ConnectionInfo : ConnectionInfo
}.

(** [new(model.VolumeSpec)]: every field has its zero value. *)
Definition new_VolumeSpec : VolumeSpec :=
  {| vs_Id := ""; vs_Name := ""; vs_Description := ""; vs_Size := 0;
     vs_Metadata := None |}.

Definition zero_HostInfo : HostInfo := {| hi_Host := ""; hi_Initiator := "" |}.

Definition zero_ConnectionInfo : ConnectionInfo :=
  {| ci_DriverVolumeType := ""; ci_ConnectionData := [] |}.

Definition GetId (vol : VolumeSpec) : string := vs_Id vol.
Definition GetName (vol : VolumeSpec) : string := vs_Name vol.
Definition atc_GetId (atc : VolumeAttachmentSpec) : string := va_Id atc.

End model.

(** A value held in an [interface{}], by dynamic type. *)
Inductive value : Type :=
| VNil
| VBool (b : bool)
| VInt (i : Z)
| VInt64 (i : Z)
| VFloat64 (repr : string)
| VString (s : string)
| VConnectionInfo (ci : model.ConnectionInfo).

(** The type assertions [x.(string)] and [x.(int64)]: a value of another
    dynamic type panics. *)
Definition assert_string {S} (x : value) : M S string :=
  match x with
  | VString s => mret s
  | _ => panic "interface conversion: interface {} is not string"
  end.

Definition assert_int64 {S} (x : value) : M S Z :=
  match x with
  | VInt64 i => mret i
  | _ => panic "interface conversion: interface {} is not int64"
  end.


(* ===================================================================== *)
(** * package iscsi (client/iscsi/helper.go) *)
(* ===================================================================== *)

Module iscsi.

(** IscsiConnectorInfo *)
Record IscsiConnectorInfo : Type := {
  AccessMode : string;
  AuthUser   : string;
  AuthPass   : string;
  AuthMethod : string;
  TgtDisco   : bool;
  TgtIQN     : string;
  TgtPortal  : string;
  VolumeID   : string;
  TgtLun     : Z;
  Encrypted  : bool
}.

Definition ISCSITranslateTCP : string := "tcp".

(** ** The host

    What the package asks of the operating system, each with the answer it
    got; the history is kept most recent event first. *)
Inductive Event : Type :=
| EvStat (name : string) (err : option error)
| EvGlob (pattern : string) (matches : slice string) (err : option error)
| EvSleep (d : Z)
| EvExec (name : string) (arg : list string) (out : string) (err : option error).

(** The host answers from everything that happened so far, so the same
    question may get different answers at different times. *)
Record Host : Type := {
  host_Stat : list Event -> string -> option error;
  host_Glob : list Event -> string -> slice string * option error;
  host_CombinedOutput : list Event -> string -> list string -> string * option error
}.

Abbreviation IO := (M (list Event)).

(** statFunc (the [os.FileInfo] is never looked at) and globFunc *)
Definition statFunc : Type := string -> IO (option error).
Definition globFunc : Type := string -> IO (slice string * option error).

Definition os_Stat (host : Host) : statFunc :=
  fun name h => let err := host_Stat host h name in (Ret err, EvStat name err :: h).

Definition filepath_Glob (host : Host) : globFunc :=
  fun pattern h =>
    let r := host_Glob host h pattern in (Ret r, EvGlob pattern r.1 r.2 :: h).

Definition time_Sleep (d : Z) : IO unit :=
  fun h => (Ret tt, EvSleep d :: h).

(** execCmd: [exec.Command(name, arg...).CombinedOutput()] *)
Definition execCmd (host : Host) (name : string) (arg : list string)
  : IO (string * option error) :=
  fun h =>
    let r := host_CombinedOutput host h name arg in
    (Ret r, EvExec name arg r.1 r.2 :: h).

(** ** waitForPathToExistInternal

    [devicePath] is a [*string]: [None] is the nil pointer; the string it
    points to at the end is returned next to the result.  The loop
    [for i := 0; i < maxRetries; i++] runs on the number of iterations that
    are left, [remaining = maxRetries - i]. *)
Fixpoint waitForPathToExist_loop (remaining : nat) (i maxRetries : Z)
    (devicePath deviceTransport : string)
    (osStat : statFunc) (filepathGlob : globFunc) {struct remaining}
  : IO (bool * string) :=
  match remaining with
  | O => mret (false, devicePath)
  | S remaining' =>
      '(err, devicePath) ←
        (if String.eqb deviceTransport ISCSITranslateTCP then
           err ← osStat devicePath;
           mret (err, devicePath)
         else
           '(fpath, _) ← filepathGlob devicePath;
           match fpath with
           | nil_slice => mret (Some ErrNotExist, devicePath)
           | mk_slice [] => panic "index out of range [0] with length 0"
           | mk_slice (p :: _) => mret (None, p)
           end);
      match err with
      | None => mret (true, devicePath)
      | Some e =>
          if negb (os_IsNotExist e) then mret (false, devicePath)
          else if (i =? maxRetries - 1)%Z then mret (false, devicePath)
          else
            _ ← time_Sleep time_Second;
            waitForPathToExist_loop remaining' (i + 1)%Z maxRetries
              devicePath deviceTransport osStat filepathGlob
      end
  end.

Definition waitForPathToExistInternal (devicePath : option string)
    (maxRetries : Z) (deviceTransport : string)
    (osStat : statFunc) (filepathGlob : globFunc)
  : IO (bool * option string) :=
  match devicePath with
  | None => mret (false, None)
  | Some p =>
      '(b, p') ← waitForPathToExist_loop (Z.to_nat maxRetries) 0%Z maxRetries
                   p deviceTransport osStat filepathGlob;
      mret (b, Some p')
  end.

Definition waitForPathToExist (host : Host) (devicePath : option string)
    (maxRetries : Z) (deviceTransport : string) : IO (bool * option string) :=
  waitForPathToExistInternal devicePath maxRetries deviceTransport
    (os_Stat host) (filepath_Glob host).

(** ** iscsiadm *)

Definition Discovery (host : Host) (portal : string) : IO (option error) :=
  '(_, err) ← execCmd host "iscsiadm"
                ["-m"; "discovery"; "-t"; "sendtargets"; "-p"; portal];
  match err with
  | Some _ => log_Fatalf "Error encountered in sendtargets: %v"
  | None => mret None
  end.

Definition SetAuth (host : Host) (portal targetiqn name passwd : string)
  : IO (option error) :=
  '(_, err) ← execCmd host "iscsiadm"
                ["-m"; "node"; "-p"; portal; "-T"; targetiqn; "--op=update";
                 "--name"; "node.session.auth.username"; "--value"; name];
  match err with
  | Some _ => log_Fatalf "Received error on set income username: %v, %v"
  | None =>
      '(_, err) ← execCmd host "iscsiadm"
                    ["-m"; "node"; "-p"; portal; "-T"; targetiqn; "--op=update";
                     "--name"; "node.session.auth.password"; "--value"; passwd];
      match err with
      | Some _ => log_Fatalf "Received error on set income password: %v, %v"
      | None => mret None
      end
  end.

Definition Login (host : Host) (portal targetiqn : string) : IO (option error) :=
  '(_, err) ← execCmd host "iscsiadm"
                ["-m"; "node"; "-p"; portal; "-T"; targetiqn; "--login"];
  match err with
  | Some _ => log_Fatalf "Received error on login attempt"
  | None => mret None
  end.

Definition Logout (host : Host) (portal targetiqn : string) : IO (option error) :=
  '(_, err) ← execCmd host "iscsiadm"
                ["-m"; "node"; "-p"; portal; "-T"; targetiqn; "--logout"];
  match err with
  | Some _ => log_Fatalf "Received error on logout attempt"
  | None => mret None
  end.

Definition Delete (host : Host) (targetiqn : string) : IO (option error) :=
  '(_, err) ← execCmd host "iscsiadm"
                ["-m"; "node"; "-o"; "delete"; "-T"; targetiqn];
  match err with
  | Some _ => log_Fatalf "Received error on Delete attempt: %v"
  | None => mret None
  end.

(** ** Connect, Disconnect *)

Section Connect.

(** [mapstructure.Decode] of the attribute map into the zero
    [IscsiConnectorInfo]; ParseIscsiConnectInfo drops its error. *)
Variable mapstructure_Decode : gmap string value -> IscsiConnectorInfo.

Definition ParseIscsiConnectInfo (connectInfo : gmap string value)
  : IscsiConnectorInfo :=
  mapstructure_Decode connectInfo.

Definition Connect (host : Host) (connMap : gmap string value)
  : IO (string * option error) :=
  let conn := ParseIscsiConnectInfo connMap in
  let portal := TgtPortal conn in
  let targetiqn := TgtIQN conn in
  let targetlun := strconv_Itoa (TgtLun conn) in
  let devicePath :=
    strings_Join ["/dev/disk/by-path/ip"; portal; "iscsi"; targetiqn;
                  "lun"; targetlun] "-" in
  '(isexist, p) ← waitForPathToExist host (Some devicePath) 1 ISCSITranslateTCP;
  let devicePath := default devicePath p in
  if negb isexist then
    (* Discovery *)
    err ← Discovery host portal;
    match err with
    | Some e => mret ("", Some e)
    | None =>
        _ ← (if negb (String.length (AuthMethod conn) =? 0)%nat
             then SetAuth host portal targetiqn (AuthUser conn) (AuthPass conn)
             else mret None);
        (* Login *)
        err ← Login host portal targetiqn;
        match err with
        | Some e => mret ("", Some e)
        | None =>
            '(isexist, p) ← waitForPathToExist host (Some devicePath) 10
                              ISCSITranslateTCP;
            let devicePath := default devicePath p in
            if negb isexist then
              mret ("", Some (errors_New "Could not connect volume: Timeout after 10s"))
            else mret (devicePath, None)
        end
    end
  else mret (devicePath, None).

End Connect.

Definition Disconnect (host : Host) (portal targetiqn : string)
  : IO (option error) :=
  (* Logout *)
  err ← Logout host portal targetiqn;
  match err with
  | Some e => mret (Some e)
  | None =>
      (* Delete *)
      err ← Delete host targetiqn;
      match err with
      | Some e => mret (Some e)
      | None => mret None
      end
  end.

(** ** Volume preparation *)

Definition quote : string := String (ascii_of_nat 34) EmptyString.

(** [strings.Split(v, "=")[1]] *)
Definition index1 (l : list string) : IO string :=
  match l !! 1%nat with
  | Some x => mret x
  | None => panic "index out of range [1]"
  end.

(** The [for _, v := range strings.Split(res, " ")] loop of GetFSType. *)
Fixpoint GetFSType_range (fields : list string) (fsType : string) : IO string :=
  match fields with
  | [] => mret fsType
  | v :: fields' =>
      if strings_Contains v "TYPE=" then
        fsType ← index1 (strings_Split v "=");
        let fsType := strings_ReplaceAll fsType quote "" in
        GetFSType_range fields' fsType
      else GetFSType_range fields' fsType
  end.

Definition GetFSType (host : Host) (device : string) : IO string :=
  let fsType := "" in
  '(res, err) ← execCmd host "blkid" [device];
  match err with
  | Some _ => mret fsType
  | None =>
      if strings_Contains res "TYPE="
      then GetFSType_range (strings_Split res " ") fsType
      else mret fsType
  end.

Definition Format (host : Host) (device fstype : string) : IO (option error) :=
  (* Get current File System Type *)
  curFSType ← GetFSType host device;
  if String.eqb curFSType "" then
    (* Default File Sysem Type is ext4 *)
    let fstype := if String.eqb fstype "" then "ext4" else fstype in
    '(_, err) ← execCmd host "mkfs" ["-t"; fstype; "-F"; device];
    match err with
    | Some _ => log_Fatalf "failed to Format: %v"
    | None => mret None
    end
  else mret None.

Definition Mount (host : Host) (device mountpoint : string) : IO (option error) :=
  '(_, err) ← execCmd host "mkdir" ["-p"; mountpoint];
  _ ← match err with
      | Some _ => log_Fatalf "failed to mkdir: %v"
      | None => mret tt
      end;
  '(_, err) ← execCmd host "mount" [device; mountpoint];
  match err with
  | Some _ => log_Fatalf "failed to mount: %v"
  | None => mret None
  end.

Definition FormatAndMount (host : Host) (device fstype mountpoint : string)
  : IO (option error) :=
  (* Format *)
  err ← Format host device fstype;
  match err with
  | Some e => mret (Some e)
  | None =>
      (* Mount *)
      err ← Mount host device mountpoint;
      match err with
      | Some e => mret (Some e)
      | None => mret None
      end
  end.

Definition Umount (host : Host) (mountpoint : string) : IO (option error) :=
  '(_, err) ← execCmd host "umount" [mountpoint];
  match err with
  | Some _ => log_Fatalf "failed to Umount: %v"
  | None => mret None
  end.

(** ** GetInitiator *)

Definition newline : string := String (ascii_of_nat 10) EmptyString.

(** The [for _, l := range lines] loop of GetInitiator. *)
Fixpoint GetInitiator_range (lines : list string) (iqns : list string)
  : IO (list string) :=
  match lines with
  | [] => mret iqns
  | l :: lines' =>
      if strings_Contains l "InitiatorName=" then
        iqn ← index1 (strings_Split l "=");
        GetInitiator_range lines' (iqns ++ [iqn])
      else GetInitiator_range lines' iqns
  end.

Definition GetInitiator (host : Host) : IO (slice string * option error) :=
  '(res, err) ← execCmd host "cat" ["/etc/iscsi/initiatorname.iscsi"];
  let iqns := [] in
  match err with
  | Some _ => mret (mk_slice iqns, None)
  | None =>
      let lines := strings_Split res newline in
      iqns ← GetInitiator_range lines iqns;
      mret (mk_slice iqns, None)
  end.

(** ** GetHostIp

    [net.InterfaceAddrs] answers with a list of [net.Addr] and an error; an
    address is a [*net.IPNet] or something else.  [IP.IsLoopback] and
    [IP.String] belong to package net and are taken as they come. *)
Section GetHostIp.

Variable IP : Type.
Variable IsLoopback : IP -> bool.
Variable IP_String : IP -> string.

Inductive Addr : Type :=
| IPNet (ip : IP) (mask : list Z)
| OtherAddr (network address : string).

(** The [for _, address := range addrs] loop. *)
Fixpoint GetHostIp_range (addrs : list Addr) : string :=
  match addrs with
  | [] => "127.0.0.1"
  | IPNet ip _ :: addrs' =>
      if negb (IsLoopback ip) then IP_String ip else GetHostIp_range addrs'
  | OtherAddr _ _ :: addrs' => GetHostIp_range addrs'
  end.

Definition GetHostIp (net_InterfaceAddrs : list Addr * option error) : string :=
  let '(addrs, err) := net_InterfaceAddrs in
  match err with
  | Some _ => "127.0.0.1"
  | None => GetHostIp_range addrs
  end.

End GetHostIp.

End iscsi.

(* ===================================================================== *)
(** * package controller (service-broker/controller/controller.go) *)
(* ===================================================================== *)

(** The request and response structs of the service-catalog brokerapi
    package, and [Credential], a [map[string]interface{}]. *)
Module brokerapi.

Record CreateServiceInstanceRequest : Type := {
  csi_Parameters : gmap string value
}.

Record BindingRequest : Type := {
  br_Parameters : gmap string value
}.

Record CreateServiceInstanceResponse : Type := {
  DashboardURL : string;
  Operation : string
}.

Record DeleteServiceInstanceResponse : Type := {
  dsi_Operation : string
}.

Record CreateServiceBindingResponse : Type := {
  Credentials : gmap string value
}.

Record ServicePlan : Type := {
  sp_Name : string;
  sp_ID : string;
  sp_Description : string;
  sp_Metadata : gmap string value;
  sp_Free : bool
}.

Record Service : Type := {
  svc_Name : string;
  svc_ID : string;
  svc_Description : string;
  svc_Plans : list ServicePlan;
  svc_Bindable : bool
}.

Record Catalog : Type := {
  Services : list Service
}.

End brokerapi.

Module controller.

Import model brokerapi.

Record openSDSServiceInstance : Type := {
  Name : string;
  Credential : gmap string value
}.

(** openSDSController.  The calls are taken one at a time, so [rwMutex]
    (locked on entry, released by [defer] on every way out) holds nothing
    back and is left out. *)
Record openSDSController : Type := {
  Endpoint : string;
  instanceMap : gmap string openSDSServiceInstance
}.

(** CreateController *)
Definition CreateController (edp : string) : openSDSController :=
  {| Endpoint := edp; instanceMap := ∅ |}.

(** ** The storage control-plane client

    [sdsController.GetClient(endpoint)] (package client/opensds, taken here
    as a parameter of the controller) and the four calls made on it, each
    recorded with its answer, most recent first.  A call returns a pointer
    and an error; [None] in the first place is the nil pointer.  The client
    answers from the calls made so far, so it may answer the same call
    differently at different times. *)
Inductive Call : Type :=
| CallCreateVolume (endpoint : string) (spec : VolumeSpec)
    (vol : option VolumeSpec) (err : option error)
| CallDeleteVolume (endpoint : string) (volID : string) (err : option error)
| CallCreateVolumeAttachment (endpoint : string) (spec : VolumeAttachmentSpec)
    (atc : option VolumeAttachmentSpec) (err : option error)
| CallDeleteVolumeAttachment (endpoint : string) (atcID : string)
    (err : option error).

Record Client : Type := {
  client_CreateVolume :
    list Call -> VolumeSpec -> option VolumeSpec * option error;
  client_DeleteVolume : list Call -> string -> option error;
  client_CreateVolumeAttachment :
    list Call -> VolumeAttachmentSpec -> option VolumeAttachmentSpec * option error;
  client_DeleteVolumeAttachment : list Call -> string -> option error
}.

(** The state a call runs in: the controller and the calls made so far. *)
Record State : Type := {
  ctrl : openSDSController;
  calls : list Call
}.

Abbreviation Broker := (M State).

Definition get_instanceMap : Broker (gmap string openSDSServiceInstance) :=
  fun s => (Ret (instanceMap (ctrl s)), s).

Definition set_instanceMap (m : gmap string openSDSServiceInstance) : Broker unit :=
  fun s => (Ret tt, {| ctrl := {| Endpoint := Endpoint (ctrl s); instanceMap := m |};
                       calls := calls s |}).

(** Reading through a pointer. *)
Definition deref {A} (p : option A) : Broker A :=
  match p with
  | Some a => mret a
  | None => panic "invalid memory address or nil pointer dereference"
  end.

(** [m[k] = v] on a map field that may be nil. *)
Definition map_assign (m : option (gmap string string)) (k v : string)
  : Broker (option (gmap string string)) :=
  match m with
  | Some m => mret (Some (<[k := v]> m))
  | None => panic "assignment to entry in nil map"
  end.

Section Controller.

Variable GetClient : string -> Client.

Definition CreateVolume (spec : VolumeSpec)
  : Broker (option VolumeSpec * option error) :=
  fun s =>
    let edp := Endpoint (ctrl s) in
    let r := client_CreateVolume (GetClient edp) (calls s) spec in
    (Ret r, {| ctrl := ctrl s;
               calls := CallCreateVolume edp spec r.1 r.2 :: calls s |}).

Definition DeleteVolume (volID : string) : Broker (option error) :=
  fun s =>
    let edp := Endpoint (ctrl s) in
    let r := client_DeleteVolume (GetClient edp) (calls s) volID in
    (Ret r, {| ctrl := ctrl s;
               calls := CallDeleteVolume edp volID r :: calls s |}).

Definition CreateVolumeAttachment (spec : VolumeAttachmentSpec)
  : Broker (option VolumeAttachmentSpec * option error) :=
  fun s =>
    let edp := Endpoint (ctrl s) in
    let r := client_CreateVolumeAttachment (GetClient edp) (calls s) spec in
    (Ret r, {| ctrl := ctrl s;
               calls := CallCreateVolumeAttachment edp spec r.1 r.2 :: calls s |}).

Definition DeleteVolumeAttachment (atcID : string) : Broker (option error) :=
  fun s =>
    let edp := Endpoint (ctrl s) in
    let r := client_DeleteVolumeAttachment (GetClient edp) (calls s) atcID in
    (Ret r, {| ctrl := ctrl s;
               calls := CallDeleteVolumeAttachment edp atcID r :: calls s |}).

(** GetServiceInstanceLastOperation *)
Definition GetServiceInstanceLastOperation
    (instanceID serviceID planID operation : string)
  : Broker (option unit * option error) :=
  mret (None, Some (errorString "Not implemented!")).

(** CreateServiceInstance *)
Definition CreateServiceInstance (instanceID : string)
    (req : option CreateServiceInstanceRequest)
  : Broker (option CreateServiceInstanceResponse * option error) :=
  req ← deref req;
  let spec := new_VolumeSpec in
  name ← match csi_Parameters req !! "name" with
         | Some nameInterface => assert_string nameInterface
         | None => mret (vs_Name spec)
         end;
  description ← match csi_Parameters req !! "description" with
                | Some despInterface => assert_string despInterface
                | None => mret (vs_Description spec)
                end;
  size ← match csi_Parameters req !! "capacity" with
         | Some capInterface => assert_int64 capInterface
         | None => mret (vs_Size spec)
         end;
  metadata ← match csi_Parameters req !! "lvPath" with
             | Some lvInterface =>
                 lv ← assert_string lvInterface;
                 map_assign (vs_Metadata spec) "lvPath" lv
             | None => mret (vs_Metadata spec)
             end;
  let spec := {| vs_Id := vs_Id spec; vs_Name := name;
                 vs_Description := description; vs_Size := size;
                 vs_Metadata := metadata |} in
  '(vol, err) ← CreateVolume spec;
  match err with
  | Some e => mret (None, Some e)
  | None =>
      vol ← deref vol;
      m ← get_instanceMap;
      _ ← set_instanceMap
            (<[instanceID :=
                 {| Name := instanceID;
                    Credential :=
                      <["image" := VString ("OPENSDS:" +:+ GetName vol +:+ ":" +:+ GetId vol)]>
                        (<["volumeId" := VString (GetId vol)]> ∅) |}]> m);
      mret (Some {| DashboardURL := ""; Operation := "" |}, None)
  end.

(** RemoveServiceInstance *)
Definition RemoveServiceInstance (instanceID serviceID planID : string)
    (acceptsIncomplete : bool)
  : Broker (option DeleteServiceInstanceResponse * option error) :=
  m ← get_instanceMap;
  match m !! instanceID with
  | None =>
      mret (None, Some (errorString ("No such instance " +:+ instanceID +:+ " exited!")))
  | Some instance =>
      match Credential instance !! "volumeId" with
      | None =>
          mret (None, Some (errorString "Volume id not provided in credential info!"))
      | Some volInterface =>
          volID ← assert_string volInterface;
          err ← DeleteVolume volID;
          match err with
          | Some e => mret (None, Some e)
          | None =>
              m ← get_instanceMap;
              _ ← set_instanceMap (delete instanceID m);
              mret (Some {| dsi_Operation := "" |}, None)
          end
      end
  end.

(** Bind.  [instance.Credential] is written in place, so the registry
    entry carries the two new keys afterwards. *)
Definition Bind (instanceID bindingID : string) (req : option BindingRequest)
  : Broker (option CreateServiceBindingResponse * option error) :=
  m ← get_instanceMap;
  match m !! instanceID with
  | None =>
      mret (None, Some (errorString ("No such instance " +:+ instanceID +:+ " exited!")))
  | Some instance =>
      match Credential instance !! "volumeId" with
      | None =>
          mret (None, Some (errorString "Volume id not provided in credential info!"))
      | Some volInterface =>
          volID ← assert_string volInterface;
          let spec := {| va_Id := ""; va_VolumeId := volID;
                         va_HostInfo := Some zero_HostInfo;
                         va_Metadata := None;
                         va_ConnectionInfo := zero_ConnectionInfo |} in
          req ← deref req;
          metadata ← match br_Parameters req !! "lvPath" with
                     | Some lvInterface =>
                         lv ← assert_string lvInterface;
                         map_assign (va_Metadata spec) "lvPath" lv
                     | None => mret (va_Metadata spec)
                     end;
          let spec := {| va_Id := va_Id spec; va_VolumeId := va_VolumeId spec;
                         va_HostInfo := va_HostInfo spec;
                         va_Metadata := metadata;
                         va_ConnectionInfo := va_ConnectionInfo spec |} in
          '(atc, err) ← CreateVolumeAttachment spec;
          match err with
          | Some e => mret (None, Some e)
          | None =>
              atc ← deref atc;
              let cred :=
                <["connectionInfo" := VConnectionInfo (va_ConnectionInfo atc)]>
                  (<["attachmentId" := VString (atc_GetId atc)]>
                     (Credential instance)) in
              m ← get_instanceMap;
              _ ← set_instanceMap
                    (<[instanceID := {| Name := Name instance; Credential := cred |}]> m);
              mret (Some {| Credentials := cred |}, None)
          end
      end
  end.

(** UnBind *)
Definition UnBind (instanceID bindingID serviceID planID : string)
  : Broker (option error) :=
  m ← get_instanceMap;
  match m !! instanceID with
  | None =>
      mret (Some (errorString ("No such instance " +:+ instanceID +:+ " exited!")))
  | Some instance =>
      match Credential instance !! "attachmentId" with
      | None =>
          mret (Some (errorString "Volume attachment id not provided in credential info!"))
      | Some atcInterface =>
          atcID ← assert_string atcInterface;
          err ← DeleteVolumeAttachment atcID;
          match err with
          | Some e => mret (Some e)
          | None =>
              m ← get_instanceMap;
              _ ← set_instanceMap
                    (<[instanceID := {| Name := Name instance; Credential := ∅ |}]> m);
              mret None
          end
      end
  end.

End Controller.

(** ** Catalog

    [ListProfiles] of the client answers with a slice of [*model.ProfileSpec]
    ([None] is a nil pointer) and an error; the profile carries an id, a
    name, a description and the [Extra] map. *)
Record ProfileSpec : Type := {
  prf_Id : string;
  prf_Name : string;
  prf_Description : string;
  prf_Extra : gmap string value
}.

Section Catalog.

Variable ListProfiles : string -> list Call -> list (option ProfileSpec) * option error.

(** The [for _, prf := range prfs] loop. *)
Fixpoint Catalog_range (prfs : list (option ProfileSpec)) (plans : list ServicePlan)
  : Broker (list ServicePlan) :=
  match prfs with
  | [] => mret plans
  | prf :: prfs' =>
      prf ← deref prf;
      let plan := {| sp_Name := prf_Name prf;
                     sp_ID := prf_Id prf;
                     sp_Description := prf_Description prf;
                     sp_Metadata := prf_Extra prf;
                     sp_Free := true |} in
      Catalog_range prfs' (plans ++ [plan])
  end.

Definition Catalog : Broker (option brokerapi.Catalog * option error) :=
  fun s =>
    let '(prfs, err) := ListProfiles (Endpoint (ctrl s)) (calls s) in
    match err with
    | Some e => (Ret (None, Some e), s)
    | None =>
        (plans ← Catalog_range prfs [];
         mret (Some {| Services :=
                         [ {| svc_Name := "opensds-service";
                              svc_ID := "4f6e6cf6-ffdd-425f-a2c7-3c9258ad2468";
                              svc_Description := "Policy based storage service";
                              svc_Plans := plans;
                              svc_Bindable := true |} ] |}, None)) s
    end.

End Catalog.

End controller.

(* ===================================================================== *)
(** * Words for the statements *)
(* ===================================================================== *)

Module Observe.

Import iscsi.

(** What one event tells about the device path. *)
Inductive Probe : Type :=
| PExists       (* the path is there *)
| PNotFound     (* "does not exist": the one retryable answer *)
| POtherError   (* any other I/O error *)
| PBroken       (* a glob answer that is neither nil nor has a first entry *)
| PNone.        (* not a probe: a sleep or a command *)

Definition classify (ev : Event) : Probe :=
  match ev with
  | EvStat _ None => PExists
  | EvStat _ (Some e) => if os_IsNotExist e then PNotFound else POtherError
  | EvGlob _ nil_slice _ => PNotFound
  | EvGlob _ (mk_slice []) _ => PBroken
  | EvGlob _ (mk_slice (_ :: _)) _ => PExists
  | EvSleep _ => PNone
  | EvExec _ _ _ _ => PNone
  end.

(** The probe of [devicePath] that the transport calls for. *)
Definition probe_of (deviceTransport devicePath : string) (ev : Event) : Prop :=
  if String.eqb deviceTransport ISCSITranslateTCP
  then exists err, ev = EvStat devicePath err
  else exists fpath err, ev = EvGlob devicePath fpath err.

(** The path the pointer holds after the probe [ev]. *)
Definition resolved (devicePath : string) (ev : Event) : string :=
  match ev with
  | EvGlob _ (mk_slice (p :: _)) _ => p
  | _ => devicePath
  end.

(** What the poll answers when [ev] was its last probe. *)
Definition poll_result (devicePath : string) (ev : Event) : Outcome (bool * string) :=
  match classify ev with
  | PExists => Ret (true, resolved devicePath ev)
  | PBroken => Panic "index out of range [0] with length 0"
  | _ => Ret (false, devicePath)
  end.

(** The events of the attempts that were retried, most recent first: each
    failed probe is followed by, and only by, the one-second sleep. *)
Definition retried (failed : list Event) : list Event :=
  flat_map (fun ev => [EvSleep time_Second; ev]) failed.

(** The result seen through the [*string]. *)
Definition through_pointer (o : Outcome (bool * string)) : Outcome (bool * option string) :=
  match o with
  | Ret (b, p) => Ret (b, Some p)
  | Fatal f => Fatal f
  | Panic m => Panic m
  end.

(** ** The connect protocol *)

(** The device path that Connect computes from the descriptor. *)
Definition device_path (conn : IscsiConnectorInfo) : string :=
  strings_Join ["/dev/disk/by-path/ip"; TgtPortal conn; "iscsi"; TgtIQN conn;
                "lun"; strconv_Itoa (TgtLun conn)] "-".

Definition discovery_cmd (portal : string) : list string :=
  ["-m"; "discovery"; "-t"; "sendtargets"; "-p"; portal].

Definition auth_username_cmd (portal targetiqn name : string) : list string :=
  ["-m"; "node"; "-p"; portal; "-T"; targetiqn; "--op=update";
   "--name"; "node.session.auth.username"; "--value"; name].

Definition auth_password_cmd (portal targetiqn passwd : string) : list string :=
  ["-m"; "node"; "-p"; portal; "-T"; targetiqn; "--op=update";
   "--name"; "node.session.auth.password"; "--value"; passwd].

Definition login_cmd (portal targetiqn : string) : list string :=
  ["-m"; "node"; "-p"; portal; "-T"; targetiqn; "--login"].

Definition logout_cmd (portal targetiqn : string) : list string :=
  ["-m"; "node"; "-p"; portal; "-T"; targetiqn; "--logout"].

Definition timeout_error : error :=
  errors_New "Could not connect volume: Timeout after 10s".

(** The events of the two auth updates when both went through, most recent
    first; there are none when the descriptor has no auth method. *)
Definition auth_done (conn : IscsiConnectorInfo) (auth : list Event) : Prop :=
  if (String.length (AuthMethod conn) =? 0)%nat then auth = []
  else exists o1 o2,
      auth = [EvExec "iscsiadm"
                (auth_password_cmd (TgtPortal conn) (TgtIQN conn) (AuthPass conn)) o2 None;
              EvExec "iscsiadm"
                (auth_username_cmd (TgtPortal conn) (TgtIQN conn) (AuthUser conn)) o1 None].

(** What Connect answers when [last] was the last probe of its poll. *)
Definition connect_result (conn : IscsiConnectorInfo) (last : Event)
  : Outcome (string * option error) :=
  match classify last with
  | PExists => Ret (device_path conn, None)
  | _ => Ret ("", Some timeout_error)
  end.

(** The ways a call of Connect can go: its outcome and the events it adds to
    the history, most recent first. *)
Inductive ConnectRun (conn : IscsiConnectorInfo)
  : Outcome (string * option error) -> list Event -> Prop :=
| run_already_there :
    ConnectRun conn (Ret (device_path conn, None))
      [EvStat (device_path conn) None]
| run_discovery_failed e0 o e :
    ConnectRun conn (Fatal "Error encountered in sendtargets: %v")
      [EvExec "iscsiadm" (discovery_cmd (TgtPortal conn)) o (Some e);
       EvStat (device_path conn) (Some e0)]
| run_username_failed e0 o0 o e :
    (String.length (AuthMethod conn) =? 0)%nat = false ->
    ConnectRun conn (Fatal "Received error on set income username: %v, %v")
      [EvExec "iscsiadm"
         (auth_username_cmd (TgtPortal conn) (TgtIQN conn) (AuthUser conn)) o (Some e);
       EvExec "iscsiadm" (discovery_cmd (TgtPortal conn)) o0 None;
       EvStat (device_path conn) (Some e0)]
| run_password_failed e0 o0 o1 o e :
    (String.length (AuthMethod conn) =? 0)%nat = false ->
    ConnectRun conn (Fatal "Received error on set income password: %v, %v")
      [EvExec "iscsiadm"
         (auth_password_cmd (TgtPortal conn) (TgtIQN conn) (AuthPass conn)) o (Some e);
       EvExec "iscsiadm"
         (auth_username_cmd (TgtPortal conn) (TgtIQN conn) (AuthUser conn)) o1 None;
       EvExec "iscsiadm" (discovery_cmd (TgtPortal conn)) o0 None;
       EvStat (device_path conn) (Some e0)]
| run_login_failed e0 o0 auth o e :
    auth_done conn auth ->
    ConnectRun conn (Fatal "Received error on login attempt")
      (EvExec "iscsiadm" (login_cmd (TgtPortal conn) (TgtIQN conn)) o (Some e)
       :: auth ++
       [EvExec "iscsiadm" (discovery_cmd (TgtPortal conn)) o0 None;
        EvStat (device_path conn) (Some e0)])
| run_polled e0 o0 auth o failed last :
    auth_done conn auth ->
    Forall (fun ev => classify ev = PNotFound) failed ->
    Forall (fun ev => exists err, ev = EvStat (device_path conn) err) (last :: failed) ->
    (length failed < 10)%nat ->
    (classify last = PNotFound -> length failed = 9%nat) ->
    ConnectRun conn (connect_result conn last)
      (last :: retried failed ++
       EvExec "iscsiadm" (login_cmd (TgtPortal conn) (TgtIQN conn)) o None
       :: auth ++
       [EvExec "iscsiadm" (discovery_cmd (TgtPortal conn)) o0 None;
        EvStat (device_path conn) (Some e0)]).

Definition delete_cmd (targetiqn : string) : list string :=
  ["-m"; "node"; "-o"; "delete"; "-T"; targetiqn].

(** The commands Connect may run. *)
Definition connect_cmd (conn : IscsiConnectorInfo) (arg : list string) : Prop :=
  arg = discovery_cmd (TgtPortal conn)
  \/ arg = auth_username_cmd (TgtPortal conn) (TgtIQN conn) (AuthUser conn)
  \/ arg = auth_password_cmd (TgtPortal conn) (TgtIQN conn) (AuthPass conn)
  \/ arg = login_cmd (TgtPortal conn) (TgtIQN conn).

(** ** Steps that leave the state alone *)

(** A step that does nothing to the state: it returns, or it panics. *)
Definition steady {S A : Type} (m : M S A) : Prop :=
  forall s, (exists a, m s = (Ret a, s)) \/ (exists msg, m s = (Panic msg, s)).

(** The parameters have the dynamic types that the type assertions of the
    controller ask for. *)
Definition well_typed (parameters : gmap string value) : Prop :=
  (forall v, parameters !! "name" = Some v -> exists s, v = VString s)
  /\ (forall v, parameters !! "description" = Some v -> exists s, v = VString s)
  /\ (forall v, parameters !! "capacity" = Some v -> exists i, v = VInt64 i)
  /\ (forall v, parameters !! "lvPath" = Some v -> exists s, v = VString s).

(** ** Counting the events of a run *)

Definition is_stat (ev : Event) : bool :=
  match ev with EvStat _ _ => true | _ => false end.

Definition is_sleep (ev : Event) : bool :=
  match ev with EvSleep _ => true | _ => false end.

Definition is_exec (ev : Event) : bool :=
  match ev with EvExec _ _ _ _ => true | _ => false end.

Definition count_events (f : Event -> bool) (evs : list Event) : nat :=
  length (filter (fun ev => f ev = true) evs).

(** The second piece of a line or field cut at "=", as GetFSType and
    GetInitiator take it. *)
Definition after_equals (v : string) : option string :=
  strings_Split v "=" !! 1%nat.

(** ** The registry *)

(** Every instance is registered under its own name. *)
Definition names_match (m : gmap string controller.openSDSServiceInstance) : Prop :=
  forall id instance, m !! id = Some instance -> controller.Name instance = id.

(** What a call about [id] may do to the registry: nothing, drop the entry
    of [id], or put an entry in its place that is named [id] or as the entry
    before it. *)
Definition registry_step (id : string)
    (m m' : gmap string controller.openSDSServiceInstance) : Prop :=
  m' = m
  \/ m' = delete id m
  \/ exists instance',
      m' = <[id := instance']> m
      /\ (controller.Name instance' = id
          \/ exists instance, m !! id = Some instance
                              /\ controller.Name instance' = controller.Name instance).

(** One step of a call: the endpoint stays, at most one call is made to the
    client, and the registry changes at the given id only. *)
Definition call_step (id : string) (s s' : controller.State) : Prop :=
  controller.Endpoint (controller.ctrl s') = controller.Endpoint (controller.ctrl s)
  /\ (controller.calls s' = controller.calls s
      \/ exists c, controller.calls s' = c :: controller.calls s)
  /\ registry_step id (controller.instanceMap (controller.ctrl s))
       (controller.instanceMap (controller.ctrl s')).

(** The volume spec that CreateServiceInstance builds from parameters that
    have no "lvPath". *)
Definition spec_of_parameters (parameters : gmap string value) : model.VolumeSpec :=
  {| model.vs_Id := "";
     model.vs_Name := match parameters !! "name" with
                      | Some (VString s) => s | _ => "" end;
     model.vs_Description := match parameters !! "description" with
                             | Some (VString s) => s | _ => "" end;
     model.vs_Size := match parameters !! "capacity" with
                      | Some (VInt64 i) => i | _ => 0%Z end;
     model.vs_Metadata := None |}.

(** The attachment spec that Bind builds for a volume, without "lvPath". *)
Definition attachment_spec (volID : string) : model.VolumeAttachmentSpec :=
  {| model.va_Id := ""; model.va_VolumeId := volID;
     model.va_HostInfo := Some model.zero_HostInfo;
     model.va_Metadata := None;
     model.va_ConnectionInfo := model.zero_ConnectionInfo |}.

(** The plan that Catalog makes of a profile. *)
Definition plan_of (prf : controller.ProfileSpec) : brokerapi.ServicePlan :=
  {| brokerapi.sp_Name := controller.prf_Name prf;
     brokerapi.sp_ID := controller.prf_Id prf;
     brokerapi.sp_Description := controller.prf_Description prf;
     brokerapi.sp_Metadata := controller.prf_Extra prf;
     brokerapi.sp_Free := true |}.

End Observe.

Import Observe.


(* ===================================================================== *)
(** * Hosts and clients to run the code on *)
(* ===================================================================== *)

Module Scenario.

Import iscsi model brokerapi controller.

(** Every command goes through, nothing matches a glob. *)
Definition quiet_exec : list Event -> string -> list string -> string * option error :=
  fun _ _ _ => ("", None).

Definition no_glob : list Event -> string -> slice string * option error :=
  fun _ _ => (nil_slice, None).

(** The device node shows up at the third look. *)
Definition host_slow_device : Host :=
  {| host_Stat := fun h _ => if (length h <? 4)%nat then Some ErrNotExist else None;
     host_Glob := no_glob;
     host_CombinedOutput := quiet_exec |}.

(** The second look at the device node is refused (EACCES). *)
Definition host_denied : Host :=
  {| host_Stat := fun h name =>
       if (length h =? 0)%nat then Some ErrNotExist
       else Some (PathError "stat" name 13);
     host_Glob := no_glob;
     host_CombinedOutput := quiet_exec |}.

(** The device node is there from the start. *)
Definition host_device_present : Host :=
  {| host_Stat := fun _ _ => None;
     host_Glob := no_glob;
     host_CombinedOutput := quiet_exec |}.

(** The device node never shows up; every command goes through. *)
Definition host_no_device : Host :=
  {| host_Stat := fun _ name => Some (PathError "stat" name ENOENT);
     host_Glob := no_glob;
     host_CombinedOutput := quiet_exec |}.

(** As [host_no_device], but the update of the session password fails. *)
Definition host_bad_password : Host :=
  {| host_Stat := fun _ name => Some (PathError "stat" name ENOENT);
     host_Glob := no_glob;
     host_CombinedOutput := fun _ _ arg =>
       match arg !! 8%nat with
       | Some "node.session.auth.password" =>
           ("iscsiadm: no records found", Some (ExitError 21))
       | _ => ("", None)
       end |}.

(** As [host_no_device], but the update of the session username fails. *)
Definition host_bad_username : Host :=
  {| host_Stat := fun _ name => Some (PathError "stat" name ENOENT);
     host_Glob := no_glob;
     host_CombinedOutput := fun _ _ arg =>
       match arg !! 8%nat with
       | Some "node.session.auth.username" =>
           ("iscsiadm: no records found", Some (ExitError 21))
       | _ => ("", None)
       end |}.

(** blkid finds an xfs signature. *)
Definition host_formatted : Host :=
  {| host_Stat := fun _ _ => None;
     host_Glob := no_glob;
     host_CombinedOutput := fun _ name _ =>
       if String.eqb name "blkid"
       then ("/dev/sdb: UUID=" +:+ quote +:+ "6d1e" +:+ quote
             +:+ " TYPE=" +:+ quote +:+ "xfs" +:+ quote, None)
       else ("", None) |}.

(** blkid fails (exit status 2: nothing recognised); mkfs goes through. *)
Definition host_blank_disk : Host :=
  {| host_Stat := fun _ _ => None;
     host_Glob := no_glob;
     host_CombinedOutput := fun _ name _ =>
       if String.eqb name "blkid" then ("", Some (ExitError 2)) else ("", None) |}.

(** mkdir fails; a mount would go through. *)
Definition host_readonly_root : Host :=
  {| host_Stat := fun _ _ => None;
     host_Glob := no_glob;
     host_CombinedOutput := fun _ name _ =>
       if String.eqb name "mkdir"
       then ("mkdir: cannot create directory: Read-only file system",
             Some (ExitError 1))
       else ("", None) |}.

(** A descriptor with CHAP, and one without auth. *)
Definition conn_chap : IscsiConnectorInfo :=
  {| AccessMode := "rw"; AuthUser := "user"; AuthPass := "secret";
     AuthMethod := "chap"; TgtDisco := false;
     TgtIQN := "iqn.2017-01.demo:vol1"; TgtPortal := "10.0.0.1:3260";
     VolumeID := "vol1"; TgtLun := 0; Encrypted := false |}.

Definition conn_plain : IscsiConnectorInfo :=
  {| AccessMode := "rw"; AuthUser := ""; AuthPass := "";
     AuthMethod := ""; TgtDisco := false;
     TgtIQN := "iqn.2017-01.demo:vol1"; TgtPortal := "10.0.0.1:3260";
     VolumeID := "vol1"; TgtLun := 0; Encrypted := false |}.

(** A control plane that creates every volume under the id [volID] and
    every attachment under the id "atc-1", and deletes what it is asked to. *)
Definition client_ok (volID : string) : Client :=
  {| client_CreateVolume := fun _ spec =>
       (Some {| vs_Id := volID; vs_Name := vs_Name spec;
                vs_Description := vs_Description spec; vs_Size := vs_Size spec;
                vs_Metadata := vs_Metadata spec |}, None);
     client_DeleteVolume := fun _ _ => None;
     client_CreateVolumeAttachment := fun _ spec =>
       (Some {| va_Id := "atc-1"; va_VolumeId := va_VolumeId spec;
                va_HostInfo := va_HostInfo spec; va_Metadata := va_Metadata spec;
                va_ConnectionInfo :=
                  {| ci_DriverVolumeType := "iscsi";
                     ci_ConnectionData := [("targetPortal", "10.0.0.1:3260")] |} |},
        None);
     client_DeleteVolumeAttachment := fun _ _ => None |}.

(** A fresh controller that made no call yet. *)
Definition fresh : State :=
  {| ctrl := CreateController "http://127.0.0.1:50040"; calls := [] |}.

Definition req_named (name : string) : option CreateServiceInstanceRequest :=
  Some {| csi_Parameters := {[ "name" := VString name ]} |}.

Definition req_with_lvPath : CreateServiceInstanceRequest :=
  {| csi_Parameters :=
       <["lvPath" := VString "/dev/vg0/lv0"]> {[ "name" := VString "data" ]} |}.

Definition bind_plain : option BindingRequest :=
  Some {| br_Parameters := ∅ |}.

Definition bind_with_lvPath : BindingRequest :=
  {| br_Parameters := {[ "lvPath" := VString "/dev/vg0/lv0" ]} |}.

(** The controller after "inst-1" was created on [client_ok "vol-1"]. *)
Definition provisioned : State :=
  snd (CreateServiceInstance (fun _ => client_ok "vol-1") "inst-1" (req_named "data") fresh).

(** Create "inst-1", bind it, unbind it, then ask to remove it and to bind
    it again; the answers of the last four calls and the registry entry at
    the end. *)
Definition bind_unbind_remove (GetClient : string -> Client) :=
  (_ ← CreateServiceInstance GetClient "inst-1" (req_named "data");
   bound ← Bind GetClient "inst-1" "binding-1" bind_plain;
   unbound ← UnBind GetClient "inst-1" "binding-1" "svc" "plan";
   m ← get_instanceMap;
   removed ← RemoveServiceInstance GetClient "inst-1" "svc" "plan" false;
   rebound ← Bind GetClient "inst-1" "binding-2" bind_plain;
   mret (bound.2, unbound, Credential <$> (m !! "inst-1"), removed, rebound)) fresh.

(** A glob answers with a slice that is not nil but has no entry. *)
Definition host_glob_empty : Host :=
  {| host_Stat := fun _ _ => None;
     host_Glob := fun _ _ => (mk_slice [], None);
     host_CombinedOutput := quiet_exec |}.

(** Two PCI links show the same target. *)
Definition host_two_links : Host :=
  {| host_Stat := fun _ _ => None;
     host_Glob := fun _ _ =>
       (mk_slice ["/dev/disk/by-path/pci-0000:00:03.0-ip-10.0.0.1:3260-iscsi-iqn-lun-0";
                  "/dev/disk/by-path/pci-0000:00:04.0-ip-10.0.0.1:3260-iscsi-iqn-lun-0"],
        None);
     host_CombinedOutput := quiet_exec |}.

(** Discovery fails (first command), resp. login fails (second command of a
    descriptor without auth). *)
Definition host_no_portal : Host :=
  {| host_Stat := fun _ name => Some (PathError "stat" name ENOENT);
     host_Glob := no_glob;
     host_CombinedOutput := fun _ _ arg =>
       match arg !! 1%nat with
       | Some "discovery" => ("iscsiadm: connection timed out", Some (ExitError 4))
       | _ => ("", None)
       end |}.

Definition host_login_refused : Host :=
  {| host_Stat := fun _ name => Some (PathError "stat" name ENOENT);
     host_Glob := no_glob;
     host_CombinedOutput := fun _ _ arg =>
       match arg !! 6%nat with
       | Some "--login" => ("iscsiadm: login failed", Some (ExitError 24))
       | _ => ("", None)
       end |}.

(** The session is gone already: logout fails. *)
Definition host_no_session : Host :=
  {| host_Stat := fun _ _ => None;
     host_Glob := no_glob;
     host_CombinedOutput := fun _ _ arg =>
       match arg !! 6%nat with
       | Some "--logout" => ("iscsiadm: No matching sessions found", Some (ExitError 21))
       | _ => ("", None)
       end |}.

(** blkid sees a partition table and no filesystem. *)
Definition host_partitioned : Host :=
  {| host_Stat := fun _ _ => None;
     host_Glob := no_glob;
     host_CombinedOutput := fun _ name _ =>
       if String.eqb name "blkid"
       then ("/dev/sdb: PTUUID=" +:+ quote +:+ "9f3a" +:+ quote
             +:+ " PTTYPE=" +:+ quote +:+ "dos" +:+ quote, None)
       else ("", None) |}.

(** blkid goes through and prints nothing; mkfs goes through. *)
Definition host_silent_blkid : Host :=
  {| host_Stat := fun _ _ => None;
     host_Glob := no_glob;
     host_CombinedOutput := quiet_exec |}.

(** The initiator name file holds the given names, one per line. *)
Definition initiator_file (iqns : list string) : string :=
  strings_Join (map (fun iqn => "InitiatorName=" +:+ iqn) iqns) newline.

Definition host_initiators (iqns : list string) : Host :=
  {| host_Stat := fun _ _ => None;
     host_Glob := no_glob;
     host_CombinedOutput := fun _ _ _ => (initiator_file iqns, None) |}.

(** A control plane that is down: every call fails. *)
Definition client_down : Client :=
  {| client_CreateVolume := fun _ _ => (None, Some (errorString "connection refused"));
     client_DeleteVolume := fun _ _ => Some (errorString "connection refused");
     client_CreateVolumeAttachment := fun _ _ =>
       (None, Some (errorString "connection refused"));
     client_DeleteVolumeAttachment := fun _ _ => Some (errorString "connection refused") |}.

(** The controller after "inst-1" was created and bound on [client_ok "vol-1"]. *)
Definition bound : State :=
  snd (Bind (fun _ => client_ok "vol-1") "inst-1" "binding-1" bind_plain provisioned).

(** The controller after that binding was undone. *)
Definition unbound : State :=
  snd (UnBind (fun _ => client_ok "vol-1") "inst-1" "binding-1" "svc" "plan" bound).

Definition req_float_capacity : CreateServiceInstanceRequest :=
  {| csi_Parameters :=
       <["capacity" := VFloat64 "1"]> {[ "name" := VString "data" ]} |}.

Definition req_sized : CreateServiceInstanceRequest :=
  {| csi_Parameters :=
       <["capacity" := VInt64 2]> {[ "name" := VString "data" ]} |}.

Definition gold : ProfileSpec :=
  {| prf_Id := "p-1"; prf_Name := "gold"; prf_Description := "ssd";
     prf_Extra := {[ "iops" := VInt64 5000 ]} |}.

Definition silver : ProfileSpec :=
  {| prf_Id := "p-2"; prf_Name := "silver"; prf_Description := "hdd"; prf_Extra := ∅ |}.

(** The initiator name file is missing: cat fails. *)
Definition host_no_file : Host :=
  {| host_Stat := fun _ _ => None;
     host_Glob := no_glob;
     host_CombinedOutput := fun _ name _ =>
       if String.eqb name "cat"
       then ("cat: /etc/iscsi/initiatorname.iscsi: No such file or directory",
             Some (ExitError 1))
       else ("", None) |}.

(** Interface addresses, with the address kept as its text: the loopback
    interface, a unix socket address and an ethernet interface. *)
Definition text_IsLoopback (ip : string) : bool := strings_HasPrefix ip "127.".

Definition addresses : list (Addr string) :=
  [IPNet string "127.0.0.1" [255; 0; 0; 0]%Z;
   OtherAddr string "unix" "/run/x.sock";
   IPNet string "10.0.0.5" [255; 255; 255; 0]%Z;
   IPNet string "192.168.1.7" [255; 255; 255; 0]%Z].

(** The control plane lists two profiles. *)
Definition two_profiles : string -> list Call -> list (option ProfileSpec) * option error :=
  fun _ _ => (map Some [gold; silver], None).

End Scenario.

(* ===================================================================== *)
(** * Properties of package iscsi *)
(* ===================================================================== *)

Section PathPolling.

Import iscsi.

Lemma probe_of_stat (deviceTransport devicePath : string) (err : option error) :
  String.eqb deviceTransport ISCSITranslateTCP = true ->
  probe_of deviceTransport devicePath (EvStat devicePath err).
Proof. intros Ht. unfold probe_of. rewrite Ht. eauto. Qed.

Lemma probe_of_glob (deviceTransport devicePath : string) fpath (err : option error) :
  String.eqb deviceTransport ISCSITranslateTCP = false ->
  probe_of deviceTransport devicePath (EvGlob devicePath fpath err).
Proof. intros Ht. unfold probe_of. rewrite Ht. eauto. Qed.

Hint Resolve probe_of_stat probe_of_glob : core.

Variable host : Host.

Lemma waitForPathToExist_loop_spec (maxRetries : Z) (devicePath deviceTransport : string) :
  forall (remaining : nat) (i : Z) (h : list Event),
    (0 <= i)%Z ->
    remaining = Z.to_nat (maxRetries - i) ->
    (1 <= remaining)%nat ->
    exists (failed : list Event) (last : Event),
      waitForPathToExist_loop remaining i maxRetries devicePath deviceTransport
        (os_Stat host) (filepath_Glob host) h
      = (poll_result devicePath last, last :: retried failed ++ h)
      /\ Forall (fun ev => classify ev = PNotFound) failed
      /\ Forall (probe_of deviceTransport devicePath) (last :: failed)
      /\ (length failed < remaining)%nat
      /\ (classify last = PNotFound -> S (length failed) = remaining).
Proof.
  induction remaining as [|r IH]; intros i h Hi Hrem Hpos; [lia|].
  cbn [waitForPathToExist_loop].
  unfold mbind, M_bind, bind, mret, M_ret, ret.
  destruct (String.eqb deviceTransport ISCSITranslateTCP) eqn:Ht.
  - unfold os_Stat at 1.
    destruct (host_Stat host h devicePath) as [e|] eqn:Hs.
    + destruct (os_IsNotExist e) eqn:He; cbn [negb].
      * destruct (i =? maxRetries - 1)%Z eqn:Hlast.
        -- exists [], (EvStat devicePath (Some e)).
           unfold poll_result; cbn; rewrite He.
           repeat split; eauto; lia.
        -- unfold time_Sleep at 1.
           destruct (IH (i + 1)%Z
                       (EvSleep time_Second :: EvStat devicePath (Some e) :: h))
             as (failed & last & Hrun & Hnf & Hpr & Hlen & Hend); [lia..|].
           exists (failed ++ [EvStat devicePath (Some e)]), last.
           rewrite Hrun. unfold retried. rewrite flat_map_app, <- app_assoc.
           inversion Hpr; subst.
           repeat split; auto.
           ++ apply Forall_app; split; auto.
              constructor; auto. cbn. now rewrite He.
           ++ constructor; auto. apply Forall_app; split; eauto.
           ++ rewrite length_app; cbn; lia.
           ++ intros Hc. rewrite length_app; cbn. specialize (Hend Hc). lia.
      * exists [], (EvStat devicePath (Some e)).
        unfold poll_result; cbn; rewrite He.
        repeat split; eauto; try lia. discriminate.
    + exists [], (EvStat devicePath None).
      repeat split; eauto; try lia. discriminate.
  - unfold filepath_Glob at 1.
    destruct (host_Glob host h devicePath) as [fpath gerr] eqn:Hg; cbn [fst snd].
    destruct fpath as [|[|q l]].
    + cbn [os_IsNotExist negb].
      destruct (i =? maxRetries - 1)%Z eqn:Hlast.
      * exists [], (EvGlob devicePath nil_slice gerr).
        apply Z.eqb_eq in Hlast.
        repeat split; eauto; cbn; lia.
      * unfold time_Sleep at 1.
        destruct (IH (i + 1)%Z
                    (EvSleep time_Second :: EvGlob devicePath nil_slice gerr :: h))
          as (failed & last & Hrun & Hnf & Hpr & Hlen & Hend); [lia..|].
        exists (failed ++ [EvGlob devicePath nil_slice gerr]), last.
        rewrite Hrun. unfold retried. rewrite flat_map_app, <- app_assoc.
        inversion Hpr; subst.
        repeat split; auto.
        -- apply Forall_app; split; auto.
        -- constructor; auto. apply Forall_app; split; eauto.
        -- rewrite length_app; cbn; lia.
        -- intros Hc. rewrite length_app; cbn. specialize (Hend Hc). lia.
    + exists [], (EvGlob devicePath (mk_slice []) gerr).
      repeat split; eauto; try lia. discriminate.
    + exists [], (EvGlob devicePath (mk_slice (q :: l)) gerr).
      repeat split; eauto; try lia. discriminate.
Qed.

Lemma waitForPathToExist_spec (maxRetries : Z) (devicePath deviceTransport : string)
    (h : list Event) :
  (1 <= maxRetries)%Z ->
  exists (failed : list Event) (last : Event),
    waitForPathToExist host (Some devicePath) maxRetries deviceTransport h
    = (through_pointer (poll_result devicePath last), last :: retried failed ++ h)
    /\ Forall (fun ev => classify ev = PNotFound) failed
    /\ Forall (probe_of deviceTransport devicePath) (last :: failed)
    /\ (Z.of_nat (length failed) < maxRetries)%Z
    /\ (classify last = PNotFound -> (Z.of_nat (length failed) + 1 = maxRetries)%Z).
Proof.
  intros Hmax.
  destruct (waitForPathToExist_loop_spec maxRetries devicePath deviceTransport
              (Z.to_nat maxRetries) 0%Z h)
    as (failed & last & Hrun & Hnf & Hpr & Hlen & Hend); [lia | f_equal; lia | lia |].
  exists failed, last.
  unfold waitForPathToExist, waitForPathToExistInternal.
  unfold mbind, M_bind, bind. rewrite Hrun.
  repeat split; auto; try lia.
  - unfold poll_result. destruct (classify last); reflexivity.
  - intros Hc. specialize (Hend Hc). lia.
Qed.

Lemma waitForPathToExist_nonpositive (maxRetries : Z) (devicePath deviceTransport : string)
    (h : list Event) :
  (maxRetries <= 0)%Z ->
  waitForPathToExist host (Some devicePath) maxRetries deviceTransport h
  = (Ret (false, Some devicePath), h).
Proof.
  intros Hmax. unfold waitForPathToExist, waitForPathToExistInternal.
  replace (Z.to_nat maxRetries) with 0%nat by lia. reflexivity.
Qed.

Lemma classify_retried (failed : list Event) (ev : Event) :
  Forall (fun ev => classify ev = PNotFound) failed ->
  In ev (retried failed) ->
  classify ev = PNotFound \/ classify ev = PNone.
Proof.
  unfold retried. intros Hnf Hin. apply in_flat_map in Hin.
  destruct Hin as (x & Hx & [<- | [<- | []]]).
  - now right.
  - left. rewrite Forall_forall in Hnf. apply Hnf. now apply list_elem_of_In.
Qed.

(** C4.  With at least one attempt allowed, the poll is a run of probes of
    the device path in which every probe but the last answered "does not
    exist" and was followed by the one-second sleep, and the last probe ends
    the poll with no sleep after it.  The poll succeeds exactly when that
    last probe reports existence, so it succeeds on the first attempt that
    does; the number of sleeps stays below the number of attempts allowed,
    and a last probe that still answers "does not exist" is the final
    attempt. *)
Theorem waitForPath_first_existing_attempt
    (maxRetries : Z) (devicePath deviceTransport : string) (h : list Event) :
  (1 <= maxRetries)%Z ->
  exists (failed : list Event) (last : Event) (out : Outcome (bool * option string)),
    waitForPathToExist host (Some devicePath) maxRetries deviceTransport h
    = (out, last :: retried failed ++ h)
    /\ Forall (fun ev => classify ev = PNotFound) failed
    /\ Forall (probe_of deviceTransport devicePath) (last :: failed)
    /\ (classify last = PExists ->
        out = Ret (true, Some (resolved devicePath last)))
    /\ (forall p, out = Ret (true, p) -> classify last = PExists)
    /\ (Z.of_nat (length failed) < maxRetries)%Z
    /\ (classify last = PNotFound ->
        out = Ret (false, Some devicePath)
        /\ (Z.of_nat (length failed) + 1 = maxRetries)%Z).
Proof.
  intros Hmax.
  destruct (waitForPathToExist_spec maxRetries devicePath deviceTransport h Hmax)
    as (failed & last & Hrun & Hnf & Hpr & Hlen & Hend).
  exists failed, last, (through_pointer (poll_result devicePath last)).
  split; [exact Hrun|]. split; [exact Hnf|]. split; [exact Hpr|].
  split; [|split; [|split; [exact Hlen|]]].
  - intros Hc. unfold poll_result. now rewrite Hc.
  - intros p. unfold poll_result.
    destruct (classify last); cbn; congruence.
  - intros Hc. split; [|now apply Hend].
    unfold poll_result. now rewrite Hc.
Qed.

(** C5.  A probe that fails with anything but "does not exist" ends the
    poll on the spot: it is the most recent event of the run (no further
    attempt, no sleep after it) and the answer is failure, the path
    unchanged. *)
Theorem waitForPath_other_error_stops
    (maxRetries : Z) (devicePath deviceTransport : string) (h : list Event)
    (out : Outcome (bool * option string)) (new : list Event) (ev : Event) :
  waitForPathToExist host (Some devicePath) maxRetries deviceTransport h
    = (out, new ++ h) ->
  In ev new ->
  classify ev = POtherError ->
  out = Ret (false, Some devicePath) /\ exists earlier, new = ev :: earlier.
Proof.
  intros Hrun Hin Hc.
  destruct (Z_lt_le_dec maxRetries 1) as [Hle | Hge].
  - rewrite waitForPathToExist_nonpositive in Hrun by lia.
    inversion Hrun as [[Hout Hh]].
    assert (new = []) as ->.
    { apply (app_inv_tail h). now rewrite <- Hh. }
    destruct Hin.
  - destruct (waitForPathToExist_spec maxRetries devicePath deviceTransport h Hge)
      as (failed & last & Hrun' & Hnf & _).
    rewrite Hrun' in Hrun. inversion Hrun as [[Hout Hh]].
    assert (new = last :: retried failed) as ->.
    { apply (app_inv_tail h). now rewrite <- Hh. }
    destruct Hin as [-> | Hin].
    + split; [|eauto]. unfold poll_result. now rewrite Hc.
    + destruct (classify_retried failed ev Hnf Hin); congruence.
Qed.

End PathPolling.


Section ConnectProtocol.

Import iscsi.

Variable mapstructure_Decode : gmap string value -> IscsiConnectorInfo.
Variable host : Host.

Lemma waitForPathToExist_once (devicePath : string) (h : list Event) :
  waitForPathToExist host (Some devicePath) 1 ISCSITranslateTCP h
  = (Ret (match host_Stat host h devicePath with None => true | Some _ => false end,
          Some devicePath),
     EvStat devicePath (host_Stat host h devicePath) :: h).
Proof.
  unfold waitForPathToExist, waitForPathToExistInternal.
  change (Z.to_nat 1) with 1%nat. cbn [waitForPathToExist_loop].
  change (String.eqb ISCSITranslateTCP ISCSITranslateTCP) with true.
  unfold mbind, M_bind, bind, os_Stat. cbn.
  destruct (host_Stat host h devicePath) as [e|]; [|reflexivity].
  destruct (os_IsNotExist e); reflexivity.
Qed.

Lemma waitForPathToExist_tcp (maxRetries : Z) (devicePath : string) (h : list Event) :
  (1 <= maxRetries)%Z ->
  exists (failed : list Event) (err : option error),
    waitForPathToExist host (Some devicePath) maxRetries ISCSITranslateTCP h
    = (Ret (match err with None => true | Some _ => false end, Some devicePath),
       EvStat devicePath err :: retried failed ++ h)
    /\ Forall (fun ev => classify ev = PNotFound) failed
    /\ Forall (fun ev => exists err, ev = EvStat devicePath err) failed
    /\ (Z.of_nat (length failed) < maxRetries)%Z
    /\ (classify (EvStat devicePath err) = PNotFound ->
        (Z.of_nat (length failed) + 1 = maxRetries)%Z).
Proof.
  intros Hmax.
  destruct (waitForPathToExist_spec host maxRetries devicePath ISCSITranslateTCP h Hmax)
    as (failed & last & Hrun & Hnf & Hpr & Hlen & Hend).
  unfold probe_of in Hpr.
  change (String.eqb ISCSITranslateTCP ISCSITranslateTCP) with true in Hpr.
  inversion Hpr as [|? ? [err ->] Hfailed]; subst.
  exists failed, err. rewrite Hrun.
  repeat split; auto.
  unfold poll_result. destruct err as [e|]; [|reflexivity].
  cbn. destruct (os_IsNotExist e); reflexivity.
Qed.

(** Case on the answer of the host to the next command. *)
Ltac run_command o e :=
  match goal with
  | |- context [host_CombinedOutput ?host ?h ?name ?arg] =>
      destruct (host_CombinedOutput host h name arg) as [o [e|]]
  end.

Lemma Connect_run (connMap : gmap string value) (h : list Event) :
  exists out new,
    Connect mapstructure_Decode host connMap h = (out, new ++ h)
    /\ ConnectRun (mapstructure_Decode connMap) out new.
Proof.
  unfold Connect, ParseIscsiConnectInfo.
  set (conn := mapstructure_Decode connMap).
  fold (device_path conn).
  unfold mbind at 1. unfold M_bind at 1. unfold bind at 1.
  rewrite waitForPathToExist_once.
  destruct (host_Stat host h (device_path conn)) as [e0|] eqn:Hstat;
    cbn [negb default].
  2:{ exists (Ret (device_path conn, None)), [EvStat (device_path conn) None].
      split; [reflexivity | constructor]. }
  unfold Discovery, SetAuth, Login, execCmd, mbind, M_bind, bind, mret, M_ret,
    ret, log_Fatalf.
  fold (discovery_cmd (TgtPortal conn)).
  fold (login_cmd (TgtPortal conn) (TgtIQN conn)).
  fold (auth_username_cmd (TgtPortal conn) (TgtIQN conn) (AuthUser conn)).
  fold (auth_password_cmd (TgtPortal conn) (TgtIQN conn) (AuthPass conn)).
  cbv beta zeta. run_command o0 e; cbn [fst snd].
  { eexists _, [_; _]. split; [reflexivity | constructor]. }
  destruct (String.length (AuthMethod conn) =? 0)%nat eqn:Hauth;
    cbn [negb]; cbv beta iota.
  - (* no auth method *)
    run_command o e; cbn [fst snd]; cbv beta iota.
    + eexists _, (_ :: [] ++ [_; _]). split; [reflexivity|].
      apply run_login_failed. unfold auth_done. now rewrite Hauth.
    + unfold id.
      match goal with
      | |- context [waitForPathToExist host _ _ _ ?s] =>
          destruct (waitForPathToExist_tcp 10 (device_path conn) s)
            as (failed & err & Hrun & Hnf & Hpr & Hlen & Hend); [lia|]
      end.
      rewrite Hrun.
      exists (connect_result conn (EvStat (device_path conn) err)).
      eexists (_ :: retried failed ++ _ :: [] ++ [_; _]).
      split.
      * cbn [app]. rewrite <- app_assoc. cbn [app].
        unfold connect_result.
        destruct err as [e1|]; cbn; [destruct (os_IsNotExist e1)|]; reflexivity.
      * apply run_polled; auto; try lia.
        -- unfold auth_done. now rewrite Hauth.
        -- constructor; eauto.
        -- intros Hc. specialize (Hend Hc). lia.
  - (* auth method given *)
    run_command o1 e; cbn [fst snd]; cbv beta iota.
    { eexists _, [_; _; _]. split; [reflexivity | now constructor]. }
    run_command o2 e; cbn [fst snd]; cbv beta iota.
    { eexists _, [_; _; _; _]. split; [reflexivity | now constructor]. }
    run_command o e; cbn [fst snd]; cbv beta iota.
    + eexists _, (_ :: [_; _] ++ [_; _]). split; [reflexivity|].
      apply run_login_failed. unfold auth_done. rewrite Hauth. eauto.
    + unfold id.
      match goal with
      | |- context [waitForPathToExist host _ _ _ ?s] =>
          destruct (waitForPathToExist_tcp 10 (device_path conn) s)
            as (failed & err & Hrun & Hnf & Hpr & Hlen & Hend); [lia|]
      end.
      rewrite Hrun.
      exists (connect_result conn (EvStat (device_path conn) err)).
      eexists (_ :: retried failed ++ _ :: [_; _] ++ [_; _]).
      split.
      * cbn [app]. rewrite <- app_assoc. cbn [app].
        unfold connect_result.
        destruct err as [e1|]; cbn; [destruct (os_IsNotExist e1)|]; reflexivity.
      * apply run_polled; auto; try lia.
        -- unfold auth_done. rewrite Hauth. eauto.
        -- constructor; eauto.
        -- intros Hc. specialize (Hend Hc). lia.
Qed.

Lemma Connect_run_inv (connMap : gmap string value) (h : list Event)
    (out : Outcome (string * option error)) (new : list Event) :
  Connect mapstructure_Decode host connMap h = (out, new ++ h) ->
  ConnectRun (mapstructure_Decode connMap) out new.
Proof.
  intros Hrun.
  destruct (Connect_run connMap h) as (out' & new' & Hrun' & Hshape).
  rewrite Hrun' in Hrun. inversion Hrun as [[Hout Hh]].
  apply app_inv_tail in Hh. now subst.
Qed.

Lemma in_retried (failed : list Event) (ev : Event) :
  In ev (retried failed) -> ev = EvSleep time_Second \/ In ev failed.
Proof.
  unfold retried. intros Hin. apply in_flat_map in Hin.
  destruct Hin as (x & Hx & [<- | [<- | []]]); auto.
Qed.

Lemma in_auth_done (conn : IscsiConnectorInfo) (auth : list Event) (ev : Event) :
  auth_done conn auth ->
  In ev auth ->
  (String.length (AuthMethod conn) =? 0)%nat = false /\
  exists o,
    ev = EvExec "iscsiadm"
           (auth_password_cmd (TgtPortal conn) (TgtIQN conn) (AuthPass conn)) o None
    \/ ev = EvExec "iscsiadm"
              (auth_username_cmd (TgtPortal conn) (TgtIQN conn) (AuthUser conn)) o None.
Proof.
  unfold auth_done. intros Hauth Hin.
  destruct (String.length (AuthMethod conn) =? 0)%nat.
  - subst. destruct Hin.
  - split; [reflexivity|].
    destruct Hauth as (o1 & o2 & ->).
    destruct Hin as [<- | [<- | []]]; eauto.
Qed.

(** Every event of a poll is a sleep or a probe of the polled path. *)
Lemma in_poll (p : string) (failed rest : list Event) (last ev : Event) :
  Forall (fun ev => exists err, ev = EvStat p err) (last :: failed) ->
  In ev (last :: retried failed ++ rest) ->
  (ev = EvSleep time_Second \/ exists err, ev = EvStat p err) \/ In ev rest.
Proof.
  intros Hpr [<- | Hin].
  - left; right. now inversion Hpr.
  - apply in_app_or in Hin. destruct Hin as [Hin | Hin]; [left | now right].
    apply in_retried in Hin. destruct Hin as [-> | Hin]; [now left|].
    right. inversion Hpr as [|? ? _ Hfailed]; subst.
    rewrite Forall_forall in Hfailed. apply Hfailed. now apply list_elem_of_In.
Qed.

(** Split membership in the events of a run into its stages. *)
Ltac in_run H :=
  repeat match type of H with
    | In _ (_ ++ _) => apply in_app_or in H; destruct H as [H | H]
    | In _ (_ :: _) => destruct H as [H | H]
    | In _ [] => destruct H
    end.

(** C6.  When the computed device path exists at the initial probe, Connect
    returns that path and no error, and the one stat of that path is all it
    asked of the host: no discovery, no auth update, no login. *)
Theorem Connect_path_already_there (connMap : gmap string value) (h : list Event) :
  host_Stat host h (device_path (mapstructure_Decode connMap)) = None ->
  Connect mapstructure_Decode host connMap h
  = (Ret (device_path (mapstructure_Decode connMap), None),
     [EvStat (device_path (mapstructure_Decode connMap)) None] ++ h).
Proof.
  intros Hstat. unfold Connect, ParseIscsiConnectInfo.
  fold (device_path (mapstructure_Decode connMap)).
  unfold mbind at 1. unfold M_bind at 1. unfold bind at 1.
  rewrite waitForPathToExist_once, Hstat. reflexivity.
Qed.

(** C2, as the code has it.  In a call of Connect in which one of the two
    auth updates (session username, session password) was run and failed,
    the descriptor has an auth method and the process ends there
    ([log.Fatalf] in SetAuth: the message is logged and the process exits
    with status 1): the failed update is the last thing run, no login was
    attempted, and Connect does not return, so no error reaches the
    caller. *)
Theorem Connect_auth_failure_aborts (connMap : gmap string value) (h : list Event)
    (out : Outcome (string * option error)) (new : list Event)
    (arg : list string) (o : string) (e : error) :
  let conn := mapstructure_Decode connMap in
  Connect mapstructure_Decode host connMap h = (out, new ++ h) ->
  arg = auth_username_cmd (TgtPortal conn) (TgtIQN conn) (AuthUser conn)
  \/ arg = auth_password_cmd (TgtPortal conn) (TgtIQN conn) (AuthPass conn) ->
  In (EvExec "iscsiadm" arg o (Some e)) new ->
  AuthMethod conn <> ""
  /\ (out = Fatal "Received error on set income username: %v, %v"
      \/ out = Fatal "Received error on set income password: %v, %v")
  /\ (exists earlier, new = EvExec "iscsiadm" arg o (Some e) :: earlier)
  /\ (forall o' e',
        ~ In (EvExec "iscsiadm" (login_cmd (TgtPortal conn) (TgtIQN conn)) o' e') new)
  /\ (forall devicePath err, out <> Ret (devicePath, err)).
Proof.
  intros conn Hrun Harg Hin.
  apply Connect_run_inv in Hrun. fold conn in Hrun.
  assert (Hmethod : (String.length (AuthMethod conn) =? 0)%nat = false ->
                    AuthMethod conn <> "").
  { intros Hlen Heq. rewrite Heq in Hlen. discriminate. }
  inversion Hrun as
    [ | e0 o0 e1 | e0 o0 o1 e1 Hauth | e0 o0 o1 o2 e1 Hauth
      | e0 o0 auth o1 e1 Hauth | e0 o0 auth o1 failed last Hauth Hnf Hpr Hlen Hend ];
    subst out new.
  - in_run Hin; discriminate.
  - in_run Hin; destruct Harg; subst arg; discriminate.
  - in_run Hin; try (destruct Harg; subst arg; discriminate).
    inversion Hin; subst.
    split; [auto|]. split; [auto|]. split; [eauto|]. split; [|discriminate].
    intros o' e' Hlogin. in_run Hlogin; discriminate.
  - in_run Hin; try (destruct Harg; subst arg; discriminate).
    inversion Hin; subst.
    split; [auto|]. split; [auto|]. split; [eauto|]. split; [|discriminate].
    intros o' e' Hlogin. in_run Hlogin; discriminate.
  - in_run Hin; try (destruct Harg; subst arg; discriminate).
    apply (in_auth_done conn) in Hin; auto.
    destruct Hin as (_ & o' & [Hin | Hin]); discriminate.
  - apply (in_poll (device_path conn)) in Hin; auto.
    destruct Hin as [[Hin | [err Hin]] | Hin]; try discriminate.
    in_run Hin; try (destruct Harg; subst arg; discriminate).
    apply (in_auth_done conn) in Hin; auto.
    destruct Hin as (_ & o' & [Hin | Hin]); discriminate.
Qed.

(** Connect hands back no error of a command: the only error it ever
    returns is the timeout. *)
Lemma Connect_returns_only_timeout (connMap : gmap string value) (h h' : list Event)
    (p : string) (e : error) :
  Connect mapstructure_Decode host connMap h = (Ret (p, Some e), h') ->
  p = "" /\ e = timeout_error.
Proof.
  intros Hrun.
  destruct (Connect_run connMap h) as (out & new & Hrun' & Hshape).
  rewrite Hrun' in Hrun. inversion Hrun as [[Hout Hh]]. subst out.
  inversion Hshape as
    [ | | | | | e0 o0 auth o1 failed last Hauth Hnf Hpr Hlen Hend Hres ].
  unfold connect_result in Hres.
  destruct (classify last); inversion Hres; auto.
Qed.

(** C7.  In a call of Connect in which the login was run and went through
    and no probe of the run found the device path (neither the initial one
    nor any of the poll after the login), Connect returns the timeout error
    and an empty path.  Every command of the run went through and was one of
    discovery, auth update and login, so the error is not the error of a
    command and neither a logout nor a node delete was run. *)
Theorem Connect_timeout_keeps_session (connMap : gmap string value) (h : list Event)
    (out : Outcome (string * option error)) (new : list Event) (o : string) :
  let conn := mapstructure_Decode connMap in
  Connect mapstructure_Decode host connMap h = (out, new ++ h) ->
  In (EvExec "iscsiadm" (login_cmd (TgtPortal conn) (TgtIQN conn)) o None) new ->
  (forall name, ~ In (EvStat name None) new) ->
  out = Ret ("", Some timeout_error)
  /\ (forall name arg o' e',
        In (EvExec name arg o' e') new ->
        e' = None /\ name = "iscsiadm" /\ connect_cmd conn arg
        /\ arg <> logout_cmd (TgtPortal conn) (TgtIQN conn)
        /\ arg <> delete_cmd (TgtIQN conn)).
Proof.
  intros conn Hrun Hlogin Hnever.
  apply Connect_run_inv in Hrun. fold conn in Hrun.
  inversion Hrun as
    [ | e0 o0 e1 | e0 o0 o1 e1 Hauth | e0 o0 o1 o2 e1 Hauth
      | e0 o0 auth o1 e1 Hauth | e0 o0 auth o1 failed last Hauth Hnf Hpr Hlen Hend ];
    subst out new.
  - in_run Hlogin; discriminate.
  - in_run Hlogin; discriminate.
  - in_run Hlogin; discriminate.
  - in_run Hlogin; discriminate.
  - in_run Hlogin; try discriminate.
    apply (in_auth_done conn) in Hlogin; auto.
    destruct Hlogin as (_ & o' & [Hin | Hin]); discriminate.
  - split.
    + unfold connect_result.
      inversion Hpr as [|? ? [[e1|] ->] _]; subst.
      * cbn. destruct (os_IsNotExist e1); reflexivity.
      * exfalso. apply (Hnever (device_path conn)). now left.
    + intros name arg o' e' Hin.
      apply (in_poll (device_path conn)) in Hin; auto.
      destruct Hin as [[Hin | [err Hin]] | Hin]; try discriminate.
      unfold connect_cmd.
      in_run Hin.
      * inversion Hin; subst. repeat split; auto; discriminate.
      * apply (in_auth_done conn) in Hin; auto.
        destruct Hin as (_ & o2 & [Hin | Hin]); inversion Hin; subst;
          repeat split; auto; discriminate.
      * inversion Hin; subst. repeat split; auto; discriminate.
      * discriminate.
Qed.

End ConnectProtocol.

Section VolumePreparation.

Import iscsi.

Variable host : Host.

(** The range loop of GetFSType asks nothing of the host. *)
Lemma GetFSType_range_history (fields : list string) :
  forall (fsType : string) (h : list Event),
    snd (GetFSType_range fields fsType h) = h.
Proof.
  induction fields as [|v fields IH]; intros fsType h; cbn [GetFSType_range].
  - reflexivity.
  - destruct (strings_Contains v "TYPE="); [|apply IH].
    unfold mbind, M_bind, bind, index1.
    destruct (strings_Split v "=" !! 1%nat); cbn; [apply IH | reflexivity].
Qed.

(** GetFSType runs blkid on the device and nothing else. *)
Lemma GetFSType_history (device : string) (h : list Event) :
  snd (GetFSType host device h)
  = EvExec "blkid" [device]
      (host_CombinedOutput host h "blkid" [device]).1
      (host_CombinedOutput host h "blkid" [device]).2 :: h.
Proof.
  unfold GetFSType, execCmd, mbind, M_bind, bind. cbv beta zeta.
  destruct (host_CombinedOutput host h "blkid" [device]) as [res [e|]]; cbn [fst snd].
  - reflexivity.
  - destruct (strings_Contains res "TYPE="); [|reflexivity].
    apply GetFSType_range_history.
Qed.

Lemma GetFSType_probe_failure (device : string) (h : list Event) (res : string) (e : error) :
  host_CombinedOutput host h "blkid" [device] = (res, Some e) ->
  GetFSType host device h = (Ret "", EvExec "blkid" [device] res (Some e) :: h).
Proof.
  intros Hblkid.
  unfold GetFSType, execCmd, mbind, M_bind, bind. cbv beta zeta.
  now rewrite Hblkid.
Qed.

Lemma Contains_HasPrefix (s sub : string) :
  strings_HasPrefix s sub = true -> strings_Contains s sub = true.
Proof. intros H. destruct s; cbn [strings_Contains]; now rewrite H. Qed.

Lemma Contains_suffix_of_prefix (a b : string) :
  forall s, strings_HasPrefix s (a +:+ b) = true -> strings_Contains s b = true.
Proof.
  induction a as [|x a IH]; intros s H; cbn in H.
  - now apply Contains_HasPrefix.
  - destruct s as [|c s]; [discriminate|].
    apply andb_true_iff in H. destruct H as [_ H].
    cbn [strings_Contains]. rewrite (IH s H). apply orb_true_r.
Qed.

Lemma Contains_suffix (a b : string) :
  forall s, strings_Contains s (a +:+ b) = true -> strings_Contains s b = true.
Proof.
  induction s as [|c s IH]; cbn [strings_Contains]; intros H.
  - rewrite orb_false_r in H. now apply (Contains_suffix_of_prefix a b "") in H.
  - apply orb_true_iff in H. destruct H as [H | H].
    + now apply (Contains_suffix_of_prefix a b (String c s)) in H.
    + rewrite (IH H). apply orb_true_r.
Qed.

Lemma split_from_nonempty (sep : string) (s : string) :
  forall (skip : nat) (cur : string), (1 <= length (split_from sep skip cur s))%nat.
Proof.
  induction s as [|c s IH]; intros skip cur; cbn [split_from].
  - cbn. lia.
  - destruct skip; [|apply IH].
    destruct (strings_HasPrefix (String c s) sep); [cbn; lia | apply IH].
Qed.

(** A string with an "=" in it splits into two pieces at least, so the
    [[1]] of GetFSType is in range. *)
Lemma Split_at_equals (s : string) :
  strings_Contains s "=" = true ->
  forall cur, (2 <= length (split_from "=" 0 cur s))%nat.
Proof.
  induction s as [|c s IH]; cbn [strings_Contains]; intros H cur.
  - discriminate.
  - cbn [split_from].
    destruct (strings_HasPrefix (String c s) "=") eqn:Hp.
    + cbn [length]. pose proof (split_from_nonempty "=" s (String.length "=" - 1) "").
      lia.
    + cbn [orb] in H. now apply IH.
Qed.

Lemma GetFSType_range_returns (fields : list string) :
  forall (fsType : string) (h : list Event),
    exists cur, GetFSType_range fields fsType h = (Ret cur, h).
Proof.
  induction fields as [|v fields IH]; intros fsType h; cbn [GetFSType_range].
  - now exists fsType.
  - destruct (strings_Contains v "TYPE=") eqn:Hv; [|apply IH].
    apply (Contains_suffix "TYPE" "=") in Hv.
    pose proof (Split_at_equals v Hv "") as Hlen.
    unfold mbind, M_bind, bind, index1, strings_Split.
    destruct (split_from "=" 0 "" v) as [|x [|y l]]; cbn in Hlen; try lia.
    cbn. apply IH.
Qed.

(** GetFSType always returns: it neither ends the process nor panics. *)
Lemma GetFSType_returns (device : string) (h : list Event) :
  exists cur,
    GetFSType host device h
    = (Ret cur,
       EvExec "blkid" [device]
         (host_CombinedOutput host h "blkid" [device]).1
         (host_CombinedOutput host h "blkid" [device]).2 :: h).
Proof.
  unfold GetFSType, execCmd, mbind, M_bind, bind. cbv beta zeta.
  destruct (host_CombinedOutput host h "blkid" [device]) as [res [e|]]; cbn [fst snd].
  - now exists "".
  - destruct (strings_Contains res "TYPE="); [|now exists ""].
    apply GetFSType_range_returns.
Qed.

(** C8.  Format is idempotent and tolerant of a failed inspection.
    (1) When GetFSType reports a non-empty type for the device, Format
        returns no error whatever [fstype] was asked for, and the blkid of
        the inspection is the only command run: no mkfs.
    (2) When the blkid of the inspection fails, Format goes on as for a
        device without signature: it runs [mkfs -t fstype -F device], with
        ext4 for an empty [fstype], and returns no error when mkfs goes
        through. *)
Theorem Format_idempotent (device fstype : string) (h : list Event) :
  (forall (curFSType : string) (h1 : list Event),
     GetFSType host device h = (Ret curFSType, h1) ->
     curFSType <> "" ->
     Format host device fstype h = (Ret None, h1)
     /\ exists res err, h1 = EvExec "blkid" [device] res err :: h)
  /\
  (forall (res : string) (e : error),
     host_CombinedOutput host h "blkid" [device] = (res, Some e) ->
     let h1 := EvExec "blkid" [device] res (Some e) :: h in
     let fs := if String.eqb fstype "" then "ext4" else fstype in
     let mkfs := host_CombinedOutput host h1 "mkfs" ["-t"; fs; "-F"; device] in
     Format host device fstype h
     = (match mkfs.2 with
        | Some _ => Fatal "failed to Format: %v"
        | None => Ret None
        end,
        EvExec "mkfs" ["-t"; fs; "-F"; device] mkfs.1 mkfs.2 :: h1)).
Proof.
  split.
  - intros curFSType h1 Hprobe Hcur.
    split.
    + unfold Format, mbind, M_bind, bind. rewrite Hprobe.
      destruct (String.eqb_spec curFSType ""); [contradiction | reflexivity].
    + pose proof (GetFSType_history device h) as Hh.
      rewrite Hprobe in Hh. cbn [snd] in Hh. eauto.
  - intros res e Hblkid h1 fs mkfs.
    unfold Format, mbind, M_bind, bind.
    rewrite (GetFSType_probe_failure device h res e Hblkid).
    change (String.eqb "" "") with true. cbv iota.
    unfold execCmd. cbv beta zeta. fold fs. fold h1. fold mkfs.
    destruct mkfs as [o [e'|]]; reflexivity.
Qed.

(** C9, as the code has it.  Mount runs [mkdir -p mountpoint] first.  When
    that fails the process ends on the spot ([log.Fatalf]): no mount is
    attempted and Mount does not return.  When it goes through, the mount is
    attempted; then Mount returns, with no error, exactly when the mount went
    through, and a failed mount ends the process as well. *)
Theorem Mount_stops_at_failed_mkdir (device mountpoint : string) (h : list Event) :
  let mkdir := host_CombinedOutput host h "mkdir" ["-p"; mountpoint] in
  let h1 := EvExec "mkdir" ["-p"; mountpoint] mkdir.1 mkdir.2 :: h in
  let mount := host_CombinedOutput host h1 "mount" [device; mountpoint] in
  Mount host device mountpoint h
  = match mkdir.2 with
    | Some _ => (Fatal "failed to mkdir: %v", h1)
    | None =>
        (match mount.2 with
         | Some _ => Fatal "failed to mount: %v"
         | None => Ret None
         end,
         EvExec "mount" [device; mountpoint] mount.1 mount.2 :: h1)
    end.
Proof.
  intros mkdir h1 mount.
  unfold Mount, execCmd, mbind, M_bind, bind, mret, M_ret, ret. cbv beta zeta.
  fold mkdir. fold h1.
  destruct mkdir as [o1 [e1|]] eqn:Hmkdir; cbn [fst snd] in *; [reflexivity|].
  fold mount. destruct mount as [o2 [e2|]]; reflexivity.
Qed.

End VolumePreparation.

(* ===================================================================== *)
(** * Properties of package controller *)
(* ===================================================================== *)

Section Registry.

Import model brokerapi controller.

Variable GetClient : string -> Client.

Create HintDb steady.

Lemma steady_mret {S A} (a : A) : steady (mret a : M S A).
Proof. intros s. left. now exists a. Qed.

Lemma steady_panic {S A} (msg : string) : steady (panic msg : M S A).
Proof. intros s. right. now exists msg. Qed.

Lemma steady_assert_string {S} (x : value) : steady (assert_string x : M S string).
Proof. destruct x; first [apply steady_mret | apply steady_panic]. Qed.

Lemma steady_assert_int64 {S} (x : value) : steady (assert_int64 x : M S Z).
Proof. destruct x; first [apply steady_mret | apply steady_panic]. Qed.

Lemma steady_deref {A} (p : option A) : steady (deref p).
Proof. destruct p; first [apply steady_mret | apply steady_panic]. Qed.

Lemma steady_map_assign (m : option (gmap string string)) (k v : string) :
  steady (map_assign m k v).
Proof. destruct m; first [apply steady_mret | apply steady_panic]. Qed.

Lemma steady_get_instanceMap : steady get_instanceMap.
Proof. intros s. left. now eexists. Qed.

Lemma steady_bind {S A B} (m : M S A) (k : A -> M S B) :
  steady m -> (forall a, steady (k a)) -> steady (m ≫= k).
Proof.
  intros Hm Hk s. unfold mbind, M_bind, bind.
  destruct (Hm s) as [[a ->] | [msg ->]]; [apply Hk | right; eauto].
Qed.

Lemma steady_option {S A B} (o : option A) (f : A -> M S B) (g : M S B) :
  (forall a, steady (f a)) -> steady g ->
  steady (match o with Some a => f a | None => g end).
Proof. destruct o; auto. Qed.

Hint Resolve steady_mret steady_panic steady_assert_string steady_assert_int64
  steady_deref steady_map_assign steady_get_instanceMap steady_bind
  steady_option : steady.

(** A steady step in front: either it returns and the rest runs from the
    same state, or the whole stops there with a panic. *)
Lemma bind_steady_inv {S A B} (m : M S A) (k : A -> M S B) (s s' : S) (out : Outcome B) :
  steady m ->
  (m ≫= k) s = (out, s') ->
  (exists a, m s = (Ret a, s) /\ k a s = (out, s'))
  \/ (s' = s /\ exists msg, out = Panic msg).
Proof.
  intros Hm. unfold mbind, M_bind, bind.
  destruct (Hm s) as [[a ->] | [msg ->]]; intros Hrun.
  - left. eauto.
  - right. inversion Hrun. eauto.
Qed.

Lemma cons_neq_self {A} (x : A) (l : list A) : l <> x :: l.
Proof.
  intros H. apply (f_equal length) in H. cbn in H. lia.
Qed.

(** C3, as the code has it.  When a call of CreateServiceInstance got a
    volume and no error from the client, the registry afterwards holds, under
    the given id, a new instance named by the id whose credential set is the
    volume id and the image reference "OPENSDS:<name>:<id>", every other
    entry is as before, and the call returns the empty response and no
    error: the credential set is stored, not returned. *)
Theorem CreateServiceInstance_stores_instance
    (instanceID : string) (req : option CreateServiceInstanceRequest)
    (s s' : State) (spec vol : VolumeSpec)
    (out : Outcome (option CreateServiceInstanceResponse * option error)) :
  CreateServiceInstance GetClient instanceID req s = (out, s') ->
  calls s' = CallCreateVolume (Endpoint (ctrl s)) spec (Some vol) None :: calls s ->
  out = Ret (Some {| DashboardURL := ""; Operation := "" |}, None)
  /\ instanceMap (ctrl s')
     = <[instanceID :=
           {| Name := instanceID;
              Credential :=
                <["image" := VString ("OPENSDS:" +:+ GetName vol +:+ ":" +:+ GetId vol)]>
                  (<["volumeId" := VString (GetId vol)]> ∅) |}]>
         (instanceMap (ctrl s))
  /\ Endpoint (ctrl s') = Endpoint (ctrl s).
Proof.
  intros Hrun Hcall. unfold CreateServiceInstance in Hrun.
  repeat
    (apply bind_steady_inv in Hrun; [|auto 10 with steady];
     destruct Hrun as [(? & _ & Hrun) | (-> & _)];
     [|now apply cons_neq_self in Hcall]).
  unfold mbind, M_bind, bind, CreateVolume in Hrun. cbv beta zeta in Hrun.
  destruct (client_CreateVolume _ _ _) as [v [e|]]; cbn [fst snd] in Hrun.
  - inversion Hrun; subst. cbn in Hcall. inversion Hcall.
  - destruct v as [vol0|]; cbn in Hrun; inversion Hrun; subst; cbn in Hcall;
      inversion Hcall; subst.
    cbn. auto.
Qed.

Lemma bind_steady_panics {S A B} (m : M S A) (k : A -> M S B) (s : S) :
  steady m ->
  (forall a, exists msg, k a s = (Panic msg, s)) ->
  exists msg, (m ≫= k) s = (Panic msg, s).
Proof.
  intros Hm Hk. unfold mbind, M_bind, bind.
  destruct (Hm s) as [[a ->] | [msg ->]]; eauto.
Qed.

(** Writing a pass-through entry into the nil metadata map of a new spec
    cannot go through, whatever is written. *)
Lemma nil_metadata_panics {B} (lvInterface : value)
    (k : option (gmap string string) -> Broker B) (s : State) :
  exists msg,
    ((lv ← assert_string lvInterface; map_assign None "lvPath" lv) ≫= k) s
    = (Panic msg, s).
Proof.
  unfold mbind, M_bind, bind. destruct lvInterface; cbn; eauto.
Qed.

(** C10.  A parameters map with the key "lvPath" makes CreateServiceInstance
    panic before the client is asked and with the registry as it was,
    whatever else the map holds; when the parameters have the dynamic types
    the code asserts, the panic is the assignment into the nil metadata map
    of the new spec.  The same holds for Bind, through the parameters of the
    binding request, once it has found the instance and its volume id. *)
Theorem lvPath_parameter_panics :
  (forall (instanceID : string) (req : CreateServiceInstanceRequest) (s : State),
     is_Some (csi_Parameters req !! "lvPath") ->
     (exists msg,
        CreateServiceInstance GetClient instanceID (Some req) s = (Panic msg, s))
     /\ (well_typed (csi_Parameters req) ->
         CreateServiceInstance GetClient instanceID (Some req) s
         = (Panic "assignment to entry in nil map", s)))
  /\
  (forall (instanceID bindingID : string) (req : BindingRequest) (s : State)
          (instance : openSDSServiceInstance) (volInterface : value),
     instanceMap (ctrl s) !! instanceID = Some instance ->
     Credential instance !! "volumeId" = Some volInterface ->
     is_Some (br_Parameters req !! "lvPath") ->
     (exists msg, Bind GetClient instanceID bindingID (Some req) s = (Panic msg, s))
     /\ (forall volID lv,
           volInterface = VString volID ->
           br_Parameters req !! "lvPath" = Some (VString lv) ->
           Bind GetClient instanceID bindingID (Some req) s
           = (Panic "assignment to entry in nil map", s))).
Proof.
  split.
  - intros instanceID req s [lvInterface Hlv]. split.
    + unfold CreateServiceInstance. cbn [deref].
      unfold mbind at 1. unfold M_bind at 1. unfold bind at 1.
      unfold mret at 1. unfold M_ret at 1. unfold ret at 1. cbv beta iota.
      rewrite Hlv.
      do 3 (apply bind_steady_panics; [auto 10 with steady | intros ?]).
      apply nil_metadata_panics.
    + intros (Hname & Hdesc & Hcap & Hlvt).
      destruct (Hlvt _ Hlv) as [lv ->].
      unfold CreateServiceInstance. cbn [deref].
      unfold mbind, M_bind, bind, mret, M_ret, ret. rewrite Hlv.
      destruct (csi_Parameters req !! "name") as [v|];
        [destruct (Hname v eq_refl) as [? ->]|];
        (destruct (csi_Parameters req !! "description") as [v'|];
         [destruct (Hdesc v' eq_refl) as [? ->]|]);
        (destruct (csi_Parameters req !! "capacity") as [v''|];
         [destruct (Hcap v'' eq_refl) as [? ->]|]);
        reflexivity.
  - intros instanceID bindingID req s instance volInterface Hinst Hvol [lvInterface Hlv].
    split.
    + unfold Bind, get_instanceMap, mbind, M_bind, bind. rewrite Hinst, Hvol.
      destruct volInterface; cbn; eauto; rewrite Hlv;
        destruct lvInterface; cbn; eauto.
    + intros volID lv -> Hlv'.
      unfold Bind, get_instanceMap, mbind, M_bind, bind. rewrite Hinst, Hvol.
      cbn. rewrite Hlv'. reflexivity.
Qed.

Lemma Bind_success (instanceID bindingID : string) (req : option BindingRequest)
    (s s1 : State) (resp : CreateServiceBindingResponse) :
  Bind GetClient instanceID bindingID req s = (Ret (Some resp, None), s1) ->
  exists instance volInterface atc,
    instanceMap (ctrl s) !! instanceID = Some instance
    /\ Credential instance !! "volumeId" = Some volInterface
    /\ Credentials resp
       = <["connectionInfo" := VConnectionInfo (va_ConnectionInfo atc)]>
           (<["attachmentId" := VString (atc_GetId atc)]> (Credential instance))
    /\ instanceMap (ctrl s1)
       = <[instanceID := {| Name := Name instance; Credential := Credentials resp |}]>
           (instanceMap (ctrl s)).
Proof.
  unfold Bind, get_instanceMap. unfold mbind at 1. unfold M_bind at 1.
  unfold bind at 1. intros Hrun.
  destruct (instanceMap (ctrl s) !! instanceID) as [instance|]; [|discriminate].
  destruct (Credential instance !! "volumeId") as [volInterface|] eqn:Hvol;
    [|discriminate].
  exists instance, volInterface.
  repeat
    (apply bind_steady_inv in Hrun; [|auto 10 with steady];
     destruct Hrun as [(? & _ & Hrun) | (_ & ? & ?)]; [|discriminate]).
  unfold mbind, M_bind, bind, CreateVolumeAttachment in Hrun. cbv beta zeta in Hrun.
  destruct (client_CreateVolumeAttachment _ _ _) as [a [e|]]; cbn [fst snd] in Hrun;
    [discriminate|].
  destruct a as [atc|]; cbn in Hrun; [|discriminate].
  exists atc. inversion Hrun; subst. cbn. auto.
Qed.

Lemma UnBind_success (instanceID bindingID serviceID planID : string) (s s' : State) :
  UnBind GetClient instanceID bindingID serviceID planID s = (Ret None, s') ->
  exists instance,
    instanceMap (ctrl s) !! instanceID = Some instance
    /\ is_Some (Credential instance !! "attachmentId")
    /\ instanceMap (ctrl s')
       = <[instanceID := {| Name := Name instance; Credential := ∅ |}]>
           (instanceMap (ctrl s)).
Proof.
  unfold UnBind, get_instanceMap. unfold mbind at 1. unfold M_bind at 1.
  unfold bind at 1. intros Hrun.
  destruct (instanceMap (ctrl s) !! instanceID) as [instance|]; [|discriminate].
  destruct (Credential instance !! "attachmentId") as [atcInterface|] eqn:Hatc;
    [|discriminate].
  exists instance. split; [reflexivity|]. split; [eauto|].
  apply bind_steady_inv in Hrun; [|auto with steady].
  destruct Hrun as [(? & _ & Hrun) | (_ & ? & ?)]; [|discriminate].
  unfold mbind, M_bind, bind, DeleteVolumeAttachment in Hrun. cbv beta zeta in Hrun.
  destruct (client_DeleteVolumeAttachment _ _ _) as [e|]; cbn in Hrun;
    inversion Hrun; subst. reflexivity.
Qed.

(** After an UnBind that went through, the instance is still registered but
    its credential set is empty: the attachment id and the connection info
    are gone, and so are the volume id and the image reference. *)
Lemma UnBind_empties_credential
    (instanceID bindingID serviceID planID : string) (s s' : State) :
  UnBind GetClient instanceID bindingID serviceID planID s = (Ret None, s') ->
  exists instance,
    instanceMap (ctrl s') !! instanceID = Some instance
    /\ Credential instance = ∅
    /\ Credential instance !! "volumeId" = None.
Proof.
  intros Hrun. apply UnBind_success in Hrun.
  destruct Hrun as (instance & _ & _ & ->).
  eexists. rewrite lookup_insert_eq. split; [reflexivity|]. cbn.
  split; [reflexivity | apply lookup_empty].
Qed.

(** An instance without volume id can be neither removed nor bound, and the
    client is not asked. *)
Lemma no_volume_id_is_stuck (instanceID : string) (s : State)
    (instance : openSDSServiceInstance) :
  instanceMap (ctrl s) !! instanceID = Some instance ->
  Credential instance !! "volumeId" = None ->
  (forall serviceID planID acceptsIncomplete,
     RemoveServiceInstance GetClient instanceID serviceID planID acceptsIncomplete s
     = (Ret (None, Some (errorString "Volume id not provided in credential info!")), s))
  /\ (forall bindingID req,
        Bind GetClient instanceID bindingID req s
        = (Ret (None, Some (errorString "Volume id not provided in credential info!")), s)).
Proof.
  intros Hinst Hvol. split; intros.
  - unfold RemoveServiceInstance, get_instanceMap, mbind, M_bind, bind.
    now rewrite Hinst, Hvol.
  - unfold Bind, get_instanceMap, mbind, M_bind, bind.
    now rewrite Hinst, Hvol.
Qed.

(** Bind and then UnBind, both going through: the instance had a volume id
    before and has none after, and no attachment key either. *)
Lemma Bind_then_UnBind_drops_volume_id
    (instanceID bindingID serviceID planID : string) (req : option BindingRequest)
    (s s1 s2 : State) (resp : CreateServiceBindingResponse) :
  Bind GetClient instanceID bindingID req s = (Ret (Some resp, None), s1) ->
  UnBind GetClient instanceID bindingID serviceID planID s1 = (Ret None, s2) ->
  (exists instance, instanceMap (ctrl s) !! instanceID = Some instance
                    /\ is_Some (Credential instance !! "volumeId"))
  /\ (exists instance, instanceMap (ctrl s2) !! instanceID = Some instance
                       /\ Credential instance !! "volumeId" = None
                       /\ Credential instance !! "attachmentId" = None
                       /\ Credential instance !! "connectionInfo" = None).
Proof.
  intros Hbind Hunbind.
  apply Bind_success in Hbind.
  destruct Hbind as (instance & volInterface & atc & Hinst & Hvol & _ & _).
  split; [eauto|].
  apply UnBind_empties_credential in Hunbind.
  destruct Hunbind as (instance2 & Hinst2 & Hempty & _).
  exists instance2. rewrite Hempty.
  repeat split; [exact Hinst2 | apply lookup_empty..].
Qed.

End Registry.


(* ===================================================================== *)
(** * The code at work *)
(* ===================================================================== *)

Section Runs.

Import iscsi model brokerapi controller Scenario.

Example Itoa_zero : strconv_Itoa 0 = "0".
Proof. reflexivity. Qed.

Example Itoa_negative : strconv_Itoa (-12) = "-12".
Proof. reflexivity. Qed.

Example Split_at_sign : strings_Split "TYPE=ext4" "=" = ["TYPE"; "ext4"].
Proof. reflexivity. Qed.

Example Split_long_separator : strings_Split "a==b=" "==" = ["a"; "b="].
Proof. reflexivity. Qed.

(** The device path of the example of the specification. *)
Example device_path_example :
  device_path conn_plain
  = "/dev/disk/by-path/ip-10.0.0.1:3260-iscsi-iqn.2017-01.demo:vol1-lun-0".
Proof. reflexivity. Qed.

Example GetFSType_xfs :
  fst (GetFSType host_formatted "/dev/sdb" []) = Ret "xfs".
Proof. vm_compute. reflexivity. Qed.

(** C1, on the code.  Create an instance, bind it, unbind it (all three go
    through): the credential set of the instance is empty afterwards, so the
    volume id is gone with the attachment keys, and both
    RemoveServiceInstance and a second Bind are then turned down for want
    of a volume id. *)
Theorem UnBind_after_Bind_loses_volume_id :
  fst (bind_unbind_remove (fun _ => client_ok "vol-1"))
  = Ret (None, None, Some ∅,
         (None, Some (errorString "Volume id not provided in credential info!")),
         (None, Some (errorString "Volume id not provided in credential info!"))).
Proof. vm_compute. reflexivity. Qed.

(** C2 does not hold as stated: with an auth method, when the update of
    the session username fails, and likewise when the update of the session
    password fails, Connect returns nothing, so it returns no error: the
    process ends in SetAuth, after the failed update, and Connect, which
    drops the result of SetAuth, is not what stops the login. *)
Lemma Connect_failed_auth_returns_no_error :
  Connect (fun _ => conn_chap) host_bad_username ∅ []
  = (Fatal "Received error on set income username: %v, %v",
     [EvExec "iscsiadm"
        (auth_username_cmd "10.0.0.1:3260" "iqn.2017-01.demo:vol1" "user")
        "iscsiadm: no records found" (Some (ExitError 21));
      EvExec "iscsiadm" (discovery_cmd "10.0.0.1:3260") "" None;
      EvStat (device_path conn_chap) (Some (PathError "stat" (device_path conn_chap) ENOENT))])
  /\ Connect (fun _ => conn_chap) host_bad_password ∅ []
     = (Fatal "Received error on set income password: %v, %v",
        [EvExec "iscsiadm"
           (auth_password_cmd "10.0.0.1:3260" "iqn.2017-01.demo:vol1" "secret")
           "iscsiadm: no records found" (Some (ExitError 21));
         EvExec "iscsiadm"
           (auth_username_cmd "10.0.0.1:3260" "iqn.2017-01.demo:vol1" "user") "" None;
         EvExec "iscsiadm" (discovery_cmd "10.0.0.1:3260") "" None;
         EvStat (device_path conn_chap)
           (Some (PathError "stat" (device_path conn_chap) ENOENT))])
  /\ (forall devicePath e,
        fst (Connect (fun _ => conn_chap) host_bad_username ∅ [])
        <> Ret (devicePath, Some e))
  /\ (forall devicePath e,
        fst (Connect (fun _ => conn_chap) host_bad_password ∅ [])
        <> Ret (devicePath, Some e)).
Proof.
  vm_compute. repeat split; try reflexivity; discriminate.
Qed.

(** C3 does not hold as stated: two calls that differ in the volume the
    client created store different credential sets and return the same
    response, the empty one; the credential set is not what is returned. *)
Lemma CreateServiceInstance_returns_no_credential :
  let r1 := CreateServiceInstance (fun _ => client_ok "vol-1") "inst-1" (req_named "data") fresh in
  let r2 := CreateServiceInstance (fun _ => client_ok "vol-2") "inst-1" (req_named "data") fresh in
  r1.1 = Ret (Some {| DashboardURL := ""; Operation := "" |}, None)
  /\ r2.1 = r1.1
  /\ Credential <$> (instanceMap (ctrl r1.2) !! "inst-1")
     = Some (<["image" := VString "OPENSDS:data:vol-1"]>
               (<["volumeId" := VString "vol-1"]> ∅))
  /\ Credential <$> (instanceMap (ctrl r2.2) !! "inst-1")
     = Some (<["image" := VString "OPENSDS:data:vol-2"]>
               (<["volumeId" := VString "vol-2"]> ∅))
  /\ Credential <$> (instanceMap (ctrl r1.2) !! "inst-1")
     <> Credential <$> (instanceMap (ctrl r2.2) !! "inst-1").
Proof.
  vm_compute. repeat split; try reflexivity. discriminate.
Qed.

(** C9 does not hold as stated: when mkdir fails, the process ends there;
    mkdir is the only command that was run, the mount was not attempted and
    Mount returned nothing. *)
Lemma Mount_failed_mkdir_no_mount :
  Mount host_readonly_root "/dev/sdb" "/mnt/vol" []
  = (Fatal "failed to mkdir: %v",
     [EvExec "mkdir" ["-p"; "/mnt/vol"]
        "mkdir: cannot create directory: Read-only file system"
        (Some (ExitError 1))]).
Proof. vm_compute. reflexivity. Qed.

(** ** The theorems at work on the scenarios *)

Lemma waitForPath_first_existing_attempt_witness :
  (1 <= 5)%Z /\
  exists (failed : list Event) (last : Event) (out : Outcome (bool * option string)),
    waitForPathToExist host_slow_device (Some "/dev/sdx") 5 ISCSITranslateTCP []
    = (out, last :: retried failed ++ [])
    /\ Forall (fun ev => classify ev = PNotFound) failed
    /\ Forall (probe_of ISCSITranslateTCP "/dev/sdx") (last :: failed)
    /\ (classify last = PExists ->
        out = Ret (true, Some (resolved "/dev/sdx" last)))
    /\ (forall p, out = Ret (true, p) -> classify last = PExists)
    /\ (Z.of_nat (length failed) < 5)%Z
    /\ (classify last = PNotFound ->
        out = Ret (false, Some "/dev/sdx")
        /\ (Z.of_nat (length failed) + 1 = 5)%Z).
Proof.
  split; [lia|].
  apply (waitForPath_first_existing_attempt host_slow_device 5 "/dev/sdx"
           ISCSITranslateTCP []). lia.
Defined.

Lemma waitForPath_other_error_stops_witness :
  let run := waitForPathToExist host_denied (Some "/dev/sdx") 5 ISCSITranslateTCP [] in
  let refused := EvStat "/dev/sdx" (Some (PathError "stat" "/dev/sdx" 13)) in
  run = (run.1, run.2 ++ [])
  /\ In refused run.2
  /\ classify refused = POtherError
  /\ run.1 = Ret (false, Some "/dev/sdx")
  /\ exists earlier, run.2 = refused :: earlier.
Proof.
  intros run refused.
  assert (Hrun : waitForPathToExist host_denied (Some "/dev/sdx") 5 ISCSITranslateTCP []
                 = (run.1, run.2 ++ []))
    by (vm_compute; reflexivity).
  assert (Hin : In refused run.2) by (vm_compute; auto).
  assert (Hc : classify refused = POtherError) by reflexivity.
  split; [exact Hrun|]. split; [exact Hin|]. split; [exact Hc|].
  exact (waitForPath_other_error_stops host_denied 5 "/dev/sdx" ISCSITranslateTCP []
           run.1 run.2 refused Hrun Hin Hc).
Defined.

Lemma Connect_path_already_there_witness :
  host_Stat host_device_present [] (device_path conn_plain) = None
  /\ Connect (fun _ => conn_plain) host_device_present ∅ []
     = (Ret (device_path conn_plain, None), [EvStat (device_path conn_plain) None] ++ []).
Proof.
  split; [reflexivity|].
  apply (Connect_path_already_there (fun _ => conn_plain) host_device_present ∅ []).
  reflexivity.
Defined.

Lemma Connect_auth_failure_aborts_witness :
  let run := Connect (fun _ => conn_chap) host_bad_password ∅ [] in
  let arg := auth_password_cmd "10.0.0.1:3260" "iqn.2017-01.demo:vol1" "secret" in
  let failure := EvExec "iscsiadm" arg "iscsiadm: no records found" (Some (ExitError 21)) in
  In failure run.2
  /\ AuthMethod conn_chap <> ""
  /\ (run.1 = Fatal "Received error on set income username: %v, %v"
      \/ run.1 = Fatal "Received error on set income password: %v, %v")
  /\ (exists earlier, run.2 = failure :: earlier)
  /\ (forall o' e',
        ~ In (EvExec "iscsiadm" (login_cmd "10.0.0.1:3260" "iqn.2017-01.demo:vol1") o' e')
            run.2)
  /\ (forall devicePath err, run.1 <> Ret (devicePath, err)).
Proof.
  intros run arg failure.
  assert (Hrun : Connect (fun _ => conn_chap) host_bad_password ∅ [] = (run.1, run.2 ++ []))
    by (vm_compute; reflexivity).
  assert (Hin : In failure run.2) by (vm_compute; auto).
  split; [exact Hin|].
  apply (Connect_auth_failure_aborts (fun _ => conn_chap) host_bad_password ∅ []
           run.1 run.2 arg "iscsiadm: no records found" (ExitError 21) Hrun);
    [right; reflexivity | exact Hin].
Defined.

Lemma Connect_timeout_keeps_session_witness :
  let run := Connect (fun _ => conn_plain) host_no_device ∅ [] in
  In (EvExec "iscsiadm" (login_cmd "10.0.0.1:3260" "iqn.2017-01.demo:vol1") "" None) run.2
  /\ (forall name, ~ In (EvStat name None) run.2)
  /\ run.1 = Ret ("", Some timeout_error)
  /\ (forall name arg o' e',
        In (EvExec name arg o' e') run.2 ->
        e' = None /\ name = "iscsiadm" /\ connect_cmd conn_plain arg
        /\ arg <> logout_cmd "10.0.0.1:3260" "iqn.2017-01.demo:vol1"
        /\ arg <> delete_cmd "iqn.2017-01.demo:vol1").
Proof.
  intros run.
  assert (Hrun : Connect (fun _ => conn_plain) host_no_device ∅ [] = (run.1, run.2 ++ []))
    by (vm_compute; reflexivity).
  assert (Hlogin : In (EvExec "iscsiadm"
                         (login_cmd "10.0.0.1:3260" "iqn.2017-01.demo:vol1") "" None) run.2)
    by (vm_compute; tauto).
  assert (Hnever : forall name, ~ In (EvStat name None) run.2).
  { intros name Hin. vm_compute in Hin.
    repeat (destruct Hin as [Hin | Hin]; [discriminate|]). exact Hin. }
  split; [exact Hlogin|]. split; [exact Hnever|].
  exact (Connect_timeout_keeps_session (fun _ => conn_plain) host_no_device ∅ []
           run.1 run.2 "" Hrun Hlogin Hnever).
Defined.

Lemma Format_idempotent_witness :
  Format host_formatted "/dev/sdb" "ext4" []
  = (Ret None,
     [EvExec "blkid" ["/dev/sdb"]
        ("/dev/sdb: UUID=" +:+ quote +:+ "6d1e" +:+ quote
         +:+ " TYPE=" +:+ quote +:+ "xfs" +:+ quote) None])
  /\ Format host_blank_disk "/dev/sdb" "" []
     = (Ret None,
        [EvExec "mkfs" ["-t"; "ext4"; "-F"; "/dev/sdb"] "" None;
         EvExec "blkid" ["/dev/sdb"] "" (Some (ExitError 2))]).
Proof.
  split.
  - destruct (Format_idempotent host_formatted "/dev/sdb" "ext4" []) as [Hsigned _].
    apply (Hsigned "xfs"); [vm_compute; reflexivity | discriminate].
  - destruct (Format_idempotent host_blank_disk "/dev/sdb" "" []) as [_ Hprobe].
    exact (Hprobe "" (ExitError 2) eq_refl).
Defined.

Lemma CreateServiceInstance_stores_instance_witness :
  let run := CreateServiceInstance (fun _ => client_ok "vol-1") "inst-1" (req_named "data") fresh in
  let spec := {| vs_Id := ""; vs_Name := "data"; vs_Description := ""; vs_Size := 0;
                 vs_Metadata := None |} in
  let vol := {| vs_Id := "vol-1"; vs_Name := "data"; vs_Description := ""; vs_Size := 0;
                vs_Metadata := None |} in
  calls run.2 = CallCreateVolume (Endpoint (ctrl fresh)) spec (Some vol) None :: calls fresh
  /\ run.1 = Ret (Some {| DashboardURL := ""; Operation := "" |}, None)
  /\ instanceMap (ctrl run.2)
     = <["inst-1" :=
           {| Name := "inst-1";
              Credential :=
                <["image" := VString ("OPENSDS:" +:+ GetName vol +:+ ":" +:+ GetId vol)]>
                  (<["volumeId" := VString (GetId vol)]> ∅) |}]>
         (instanceMap (ctrl fresh))
  /\ Endpoint (ctrl run.2) = Endpoint (ctrl fresh).
Proof.
  intros run spec vol.
  assert (Hcall : calls run.2
                  = CallCreateVolume (Endpoint (ctrl fresh)) spec (Some vol) None
                    :: calls fresh) by (vm_compute; reflexivity).
  split; [exact Hcall|].
  apply (CreateServiceInstance_stores_instance (fun _ => client_ok "vol-1") "inst-1"
           (req_named "data") fresh run.2 spec vol run.1);
    [vm_compute; reflexivity | exact Hcall].
Defined.

Lemma lvPath_parameter_panics_witness :
  CreateServiceInstance (fun _ => client_ok "vol-1") "inst-2" (Some req_with_lvPath) fresh
  = (Panic "assignment to entry in nil map", fresh)
  /\ Bind (fun _ => client_ok "vol-1") "inst-1" "binding-1" (Some bind_with_lvPath) provisioned
     = (Panic "assignment to entry in nil map", provisioned).
Proof.
  destruct (lvPath_parameter_panics (fun _ => client_ok "vol-1")) as [Hcreate Hbind].
  split.
  - destruct (Hcreate "inst-2" req_with_lvPath fresh) as [_ Hnil].
    + exists (VString "/dev/vg0/lv0"). vm_compute. reflexivity.
    + apply Hnil.
      repeat split; intros v Hv; vm_compute in Hv; inversion Hv; eauto.
  - destruct (Hbind "inst-1" "binding-1" bind_with_lvPath provisioned
                {| Name := "inst-1";
                   Credential := <["image" := VString "OPENSDS:data:vol-1"]>
                                   (<["volumeId" := VString "vol-1"]> ∅) |}
                (VString "vol-1"))
      as [_ Hnil].
    + vm_compute. reflexivity.
    + vm_compute. reflexivity.
    + exists (VString "/dev/vg0/lv0"). vm_compute. reflexivity.
    + apply (Hnil "vol-1" "/dev/vg0/lv0"); [reflexivity | vm_compute; reflexivity].
Defined.

End Runs.


(* ===================================================================== *)
(** * More of package iscsi *)
(* ===================================================================== *)

Section PollingEdges.

Import iscsi.

Variable osStat : statFunc.
Variable filepathGlob : globFunc.

(** X1.  With a nil pointer, or with no attempt allowed ([maxRetries] zero
    or negative), the poll answers false at once: neither the stat nor the
    glob function is called, nothing is slept, the path is left alone. *)
Theorem waitForPath_nothing_to_try (deviceTransport : string) (h : list Event) :
  (forall maxRetries,
     waitForPathToExistInternal None maxRetries deviceTransport osStat filepathGlob h
     = (Ret (false, None), h))
  /\ (forall devicePath maxRetries,
        (maxRetries <= 0)%Z ->
        waitForPathToExistInternal (Some devicePath) maxRetries deviceTransport
          osStat filepathGlob h
        = (Ret (false, Some devicePath), h)).
Proof.
  split; [reflexivity|].
  intros devicePath maxRetries Hmax. unfold waitForPathToExistInternal.
  replace (Z.to_nat maxRetries) with 0%nat by lia. reflexivity.
Qed.

(** X2.  On a transport other than tcp, an attempt whose glob has matches
    ends the poll with success and leaves the first match in the pointer,
    however many matches there are and whatever error the glob gave. *)
Theorem waitForPath_glob_takes_first_match
    (devicePath deviceTransport first : string) (others : list string)
    (gerr : option error) (maxRetries : Z) (h h' : list Event) :
  (1 <= maxRetries)%Z ->
  String.eqb deviceTransport ISCSITranslateTCP = false ->
  filepathGlob devicePath h = (Ret (mk_slice (first :: others), gerr), h') ->
  waitForPathToExistInternal (Some devicePath) maxRetries deviceTransport
    osStat filepathGlob h
  = (Ret (true, Some first), h').
Proof.
  intros Hmax Ht Hglob. unfold waitForPathToExistInternal.
  destruct (Z.to_nat maxRetries) as [|r] eqn:Hr; [lia|].
  cbn [waitForPathToExist_loop]. rewrite Ht.
  unfold mbind, M_bind, bind. rewrite Hglob. reflexivity.
Qed.

(** X3.  On a transport other than tcp, a glob function that answers with
    a slice that is not nil and has no entry makes the poll panic in that
    attempt: the code indexes the first entry of every non-nil answer. *)
Theorem waitForPath_empty_glob_panics
    (devicePath deviceTransport : string) (gerr : option error)
    (maxRetries : Z) (h h' : list Event) :
  (1 <= maxRetries)%Z ->
  String.eqb deviceTransport ISCSITranslateTCP = false ->
  filepathGlob devicePath h = (Ret (mk_slice [], gerr), h') ->
  waitForPathToExistInternal (Some devicePath) maxRetries deviceTransport
    osStat filepathGlob h
  = (Panic "index out of range [0] with length 0", h').
Proof.
  intros Hmax Ht Hglob. unfold waitForPathToExistInternal.
  destruct (Z.to_nat maxRetries) as [|r] eqn:Hr; [lia|].
  cbn [waitForPathToExist_loop]. rewrite Ht.
  unfold mbind, M_bind, bind. rewrite Hglob. reflexivity.
Qed.

End PollingEdges.

Section SessionMore.

Import iscsi.

Variable mapstructure_Decode : gmap string value -> IscsiConnectorInfo.
Variable host : Host.

(** X4.  Disconnect runs the logout and then the delete of the node record.
    A failed logout ends the process before the delete is attempted, a
    failed delete ends it as well; Disconnect returns, with no error, only
    when both went through. *)
Theorem Disconnect_logout_then_delete (portal targetiqn : string) (h : list Event) :
  let logout := host_CombinedOutput host h "iscsiadm" (logout_cmd portal targetiqn) in
  let h1 := EvExec "iscsiadm" (logout_cmd portal targetiqn) logout.1 logout.2 :: h in
  let delete := host_CombinedOutput host h1 "iscsiadm" (delete_cmd targetiqn) in
  Disconnect host portal targetiqn h
  = match logout.2 with
    | Some _ => (Fatal "Received error on logout attempt", h1)
    | None =>
        (match delete.2 with
         | Some _ => Fatal "Received error on Delete attempt: %v"
         | None => Ret None
         end,
         EvExec "iscsiadm" (delete_cmd targetiqn) delete.1 delete.2 :: h1)
    end.
Proof.
  intros logout h1 delete.
  unfold Disconnect, Logout, Delete, execCmd, mbind, M_bind, bind, mret, M_ret, ret.
  cbv beta zeta.
  fold (logout_cmd portal targetiqn). fold (delete_cmd targetiqn).
  fold logout. fold h1.
  destruct logout as [o1 [e1|]] eqn:Hlogout; cbn [fst snd] in *; [reflexivity|].
  fold delete. destruct delete as [o2 [e2|]]; reflexivity.
Qed.

(** Split membership in the events of a run into its stages. *)
Ltac in_stage H :=
  repeat match type of H with
    | In _ (_ ++ _) => apply in_app_or in H; destruct H as [H | H]
    | In _ (_ :: _) => destruct H as [H | H]
    | In _ [] => destruct H
    end.

(** X5.  In a call of Connect in which the discovery was run and failed,
    the process ends there: the call consists of the initial probe, which
    did not find the path, and the failed discovery, and nothing else (no
    auth update, no login, no further probe). *)
Theorem Connect_discovery_failure_stops (connMap : gmap string value) (h : list Event)
    (out : Outcome (string * option error)) (new : list Event) (o : string) (e : error) :
  let conn := mapstructure_Decode connMap in
  Connect mapstructure_Decode host connMap h = (out, new ++ h) ->
  In (EvExec "iscsiadm" (discovery_cmd (TgtPortal conn)) o (Some e)) new ->
  out = Fatal "Error encountered in sendtargets: %v"
  /\ exists e0,
      new = [EvExec "iscsiadm" (discovery_cmd (TgtPortal conn)) o (Some e);
             EvStat (device_path conn) (Some e0)].
Proof.
  intros conn Hrun Hin.
  apply Connect_run_inv in Hrun. fold conn in Hrun.
  inversion Hrun as
    [ | e0 o0 e1 | e0 o0 o1 e1 Hauth | e0 o0 o1 o2 e1 Hauth
      | e0 o0 auth o1 e1 Hauth | e0 o0 auth o1 failed last Hauth Hnf Hpr Hlen Hend ];
    subst out new.
  - in_stage Hin; discriminate.
  - in_stage Hin; try discriminate. inversion Hin; subst. eauto.
  - in_stage Hin; discriminate.
  - in_stage Hin; discriminate.
  - in_stage Hin; try discriminate.
    apply (in_auth_done conn) in Hin; auto.
    destruct Hin as (_ & o' & [Hin | Hin]); discriminate.
  - apply (in_poll (device_path conn)) in Hin; auto.
    destruct Hin as [[Hin | [err Hin]] | Hin]; try discriminate.
    in_stage Hin; try discriminate.
    apply (in_auth_done conn) in Hin; auto.
    destruct Hin as (_ & o' & [Hin | Hin]); discriminate.
Qed.

(** X6.  In a call of Connect in which the login was run and failed, the
    process ends there: the failed login is the last thing run, so the device
    path is not polled after it; before it came the initial probe that did
    not find the path, the discovery and, with an auth method, the two auth
    updates, all of which went through. *)
Theorem Connect_login_failure_stops (connMap : gmap string value) (h : list Event)
    (out : Outcome (string * option error)) (new : list Event) (o : string) (e : error) :
  let conn := mapstructure_Decode connMap in
  Connect mapstructure_Decode host connMap h = (out, new ++ h) ->
  In (EvExec "iscsiadm" (login_cmd (TgtPortal conn) (TgtIQN conn)) o (Some e)) new ->
  out = Fatal "Received error on login attempt"
  /\ exists auth o0 e0,
      auth_done conn auth
      /\ new = EvExec "iscsiadm" (login_cmd (TgtPortal conn) (TgtIQN conn)) o (Some e)
               :: auth ++
               [EvExec "iscsiadm" (discovery_cmd (TgtPortal conn)) o0 None;
                EvStat (device_path conn) (Some e0)].
Proof.
  intros conn Hrun Hin.
  apply Connect_run_inv in Hrun. fold conn in Hrun.
  inversion Hrun as
    [ | e0 o0 e1 | e0 o0 o1 e1 Hauth | e0 o0 o1 o2 e1 Hauth
      | e0 o0 auth o1 e1 Hauth | e0 o0 auth o1 failed last Hauth Hnf Hpr Hlen Hend ];
    subst out new.
  - in_stage Hin; discriminate.
  - in_stage Hin; discriminate.
  - in_stage Hin; discriminate.
  - in_stage Hin; discriminate.
  - in_stage Hin; try discriminate.
    + inversion Hin; subst. split; [reflexivity|]. exists auth, o0, e0. auto.
    + apply (in_auth_done conn) in Hin; auto.
      destruct Hin as (_ & o' & [Hin | Hin]); discriminate.
  - apply (in_poll (device_path conn)) in Hin; auto.
    destruct Hin as [[Hin | [err Hin]] | Hin]; try discriminate.
    in_stage Hin; try discriminate.
    apply (in_auth_done conn) in Hin; auto.
    destruct Hin as (_ & o' & [Hin | Hin]); discriminate.
Qed.

(** X7.  Connect has two ways to return.  It returns the computed device
    path and no error, and then the last thing it did was a stat of that path
    that found it; or it returns the empty path and the timeout error, and
    then the last thing it did was a stat of that path that failed.  No error
    of a command is ever returned. *)
Theorem Connect_return_values (connMap : gmap string value) (h : list Event)
    (new : list Event) (p : string) (err : option error) :
  let conn := mapstructure_Decode connMap in
  Connect mapstructure_Decode host connMap h = (Ret (p, err), new ++ h) ->
  (p = device_path conn /\ err = None
   /\ exists earlier, new = EvStat (device_path conn) None :: earlier)
  \/ (p = "" /\ err = Some timeout_error
      /\ exists e earlier, new = EvStat (device_path conn) (Some e) :: earlier).
Proof.
  intros conn Hrun.
  apply Connect_run_inv in Hrun. fold conn in Hrun.
  inversion Hrun as
    [ | | | | | e0 o0 auth o1 failed last Hauth Hnf Hpr Hlen Hend Hres ].
  - left. eauto.
  - inversion Hpr as [|? ? [[e1|] ->] _]; subst.
    + right. unfold connect_result in Hres. cbn in Hres.
      destruct (os_IsNotExist e1); inversion Hres; subst; eauto.
    + left. unfold connect_result in Hres. cbn in Hres.
      inversion Hres; subst. eauto.
Qed.

Lemma count_events_cons (f : Event -> bool) (ev : Event) (evs : list Event) :
  count_events f (ev :: evs) = ((if f ev then 1 else 0) + count_events f evs)%nat.
Proof.
  unfold count_events. rewrite filter_cons.
  destruct (decide (f ev = true)) as [-> | Hf]; [reflexivity|].
  destruct (f ev); [congruence | reflexivity].
Qed.

Lemma count_events_nil (f : Event -> bool) : count_events f [] = 0%nat.
Proof. reflexivity. Qed.

Lemma count_events_app (f : Event -> bool) (evs1 evs2 : list Event) :
  count_events f (evs1 ++ evs2) = (count_events f evs1 + count_events f evs2)%nat.
Proof. unfold count_events. now rewrite filter_app, length_app. Qed.

Lemma count_events_retried (p : string) (failed : list Event) :
  Forall (fun ev => exists err, ev = EvStat p err) failed ->
  count_events is_stat (retried failed) = length failed
  /\ count_events is_sleep (retried failed) = length failed
  /\ count_events is_exec (retried failed) = 0%nat.
Proof.
  induction 1 as [|ev failed [err ->] _ (IH1 & IH2 & IH3)];
    [now rewrite !count_events_nil|].
  cbn [retried flat_map app]. fold (retried failed).
  rewrite !count_events_cons, IH1, IH2, IH3. cbn. auto.
Qed.

Lemma count_events_auth (conn : IscsiConnectorInfo) (auth : list Event) :
  auth_done conn auth ->
  count_events is_stat auth = 0%nat
  /\ count_events is_sleep auth = 0%nat
  /\ (count_events is_exec auth <= 2)%nat.
Proof.
  unfold auth_done.
  destruct (String.length (AuthMethod conn) =? 0)%nat.
  - intros ->. rewrite !count_events_nil. lia.
  - intros (o1 & o2 & ->).
    rewrite !count_events_cons, !count_events_nil. cbn. lia.
Qed.

(** X8.  A call of Connect is bounded: it stats at most eleven times (once
    before and at most ten times after the login), sleeps at most nine
    times, one second each, runs at most four commands, and never panics. *)
Theorem Connect_bounded (connMap : gmap string value) (h : list Event)
    (out : Outcome (string * option error)) (new : list Event) :
  Connect mapstructure_Decode host connMap h = (out, new ++ h) ->
  (count_events is_stat new <= 11)%nat
  /\ (count_events is_sleep new <= 9)%nat
  /\ (count_events is_exec new <= 4)%nat
  /\ (forall d, In (EvSleep d) new -> d = time_Second)
  /\ (forall msg, out <> Panic msg).
Proof.
  intros Hrun.
  apply Connect_run_inv in Hrun.
  set (conn := mapstructure_Decode connMap) in *.
  inversion Hrun as
    [ | e0 o0 e1 | e0 o0 o1 e1 Hauth | e0 o0 o1 o2 e1 Hauth
      | e0 o0 auth o1 e1 Hauth | e0 o0 auth o1 failed last Hauth Hnf Hpr Hlen Hend ];
    subst out new.
  1-4: (split; [|split; [|split; [|split]]];
        [ rewrite !count_events_cons, !count_events_nil; cbn; lia ..
        | intros d Hin; in_stage Hin; discriminate
        | discriminate ]).
  - destruct (count_events_auth conn auth Hauth) as (Ha1 & Ha2 & Ha3).
    split; [|split; [|split; [|split]]].
    1-3: rewrite !count_events_cons, !count_events_app, !count_events_cons,
           !count_events_nil, ?Ha1, ?Ha2; cbn; lia.
    + intros d Hin. in_stage Hin; try discriminate.
      apply (in_auth_done conn) in Hin; auto.
      destruct Hin as (_ & o' & [Hin | Hin]); discriminate.
    + discriminate.
  - destruct (count_events_auth conn auth Hauth) as (Ha1 & Ha2 & Ha3).
    inversion Hpr as [|? ? [err ->] Hfailed]; subst.
    destruct (count_events_retried (device_path conn) failed Hfailed)
      as (Hr1 & Hr2 & Hr3).
    split; [|split; [|split; [|split]]].
    1-3: rewrite !count_events_cons, !count_events_app, !count_events_cons,
           !count_events_app, !count_events_cons, !count_events_nil,
           ?Ha1, ?Ha2, ?Hr1, ?Hr2, ?Hr3; cbn; lia.
    + intros d Hin.
      apply (in_poll (device_path conn)) in Hin; auto.
      destruct Hin as [[Hin | [err' Hin]] | Hin]; try discriminate.
      * now inversion Hin.
      * in_stage Hin; try discriminate.
        apply (in_auth_done conn) in Hin; auto.
        destruct Hin as (_ & o' & [Hin | Hin]); discriminate.
    + intros msg. unfold connect_result.
      destruct (classify (EvStat (device_path conn) err)); discriminate.
Qed.

(** X9.  For a descriptor without auth method, Connect runs no auth update:
    every command of the call is the discovery or the login. *)
Theorem Connect_without_auth_method (connMap : gmap string value) (h : list Event)
    (out : Outcome (string * option error)) (new : list Event)
    (name : string) (arg : list string) (o : string) (e : option error) :
  let conn := mapstructure_Decode connMap in
  AuthMethod conn = "" ->
  Connect mapstructure_Decode host connMap h = (out, new ++ h) ->
  In (EvExec name arg o e) new ->
  name = "iscsiadm"
  /\ (arg = discovery_cmd (TgtPortal conn)
      \/ arg = login_cmd (TgtPortal conn) (TgtIQN conn)).
Proof.
  intros conn Hmethod Hrun Hin.
  apply Connect_run_inv in Hrun. fold conn in Hrun.
  assert (Hnone : forall auth ev, auth_done conn auth -> ~ In ev auth).
  { intros auth ev Hauth Hev. apply (in_auth_done conn) in Hev; auto.
    destruct Hev as [Hlen _]. rewrite Hmethod in Hlen. discriminate. }
  inversion Hrun as
    [ | e0 o0 e1 | e0 o0 o1 e1 Hauth | e0 o0 o1 o2 e1 Hauth
      | e0 o0 auth o1 e1 Hauth | e0 o0 auth o1 failed last Hauth Hnf Hpr Hlen Hend ];
    subst out new.
  - in_stage Hin; discriminate.
  - in_stage Hin; try discriminate. inversion Hin; subst. auto.
  - rewrite Hmethod in Hauth. discriminate.
  - rewrite Hmethod in Hauth. discriminate.
  - in_stage Hin; try discriminate.
    + inversion Hin; subst. auto.
    + now apply Hnone in Hin.
    + inversion Hin; subst. auto.
  - apply (in_poll (device_path conn)) in Hin; auto.
    destruct Hin as [[Hin | [err Hin]] | Hin]; try discriminate.
    in_stage Hin; try discriminate.
    + inversion Hin; subst. auto.
    + now apply Hnone in Hin.
    + inversion Hin; subst. auto.
Qed.

End SessionMore.

Section VolumeMore.

Import iscsi.

Variable host : Host.

Lemma HasPrefix_app_l (sub : string) :
  forall a b, strings_HasPrefix a sub = true -> strings_HasPrefix (a +:+ b) sub = true.
Proof.
  induction sub as [|p sub IH]; intros a b H;
    [destruct (a +:+ b); reflexivity|].
  destruct a as [|c a]; [discriminate|].
  cbn [strings_HasPrefix String.append] in *.
  apply andb_true_iff in H. destruct H as [Hc H].
  change (String c a +:+ b) with (String c (a +:+ b)). cbn [strings_HasPrefix].
  now rewrite Hc, (IH a b H).
Qed.

Lemma Contains_app_l (sub : string) :
  forall a b, strings_Contains a sub = true -> strings_Contains (a +:+ b) sub = true.
Proof.
  induction a as [|c a IH]; intros b H.
  - cbn in H. rewrite orb_false_r in H.
    apply Contains_HasPrefix. now apply (HasPrefix_app_l sub "" b).
  - cbn [strings_Contains] in H. apply orb_true_iff in H.
    change (String c a +:+ b) with (String c (a +:+ b)). cbn [strings_Contains].
    destruct H as [H | H].
    + apply (HasPrefix_app_l sub (String c a) b) in H.
      change (String c a +:+ b) with (String c (a +:+ b)) in H. now rewrite H.
    + rewrite (IH b H). apply orb_true_r.
Qed.

Lemma Contains_app_r (sub : string) :
  forall a b, strings_Contains b sub = true -> strings_Contains (a +:+ b) sub = true.
Proof.
  induction a as [|c a IH]; intros b H; [exact H|].
  change (String c a +:+ b) with (String c (a +:+ b)). cbn [strings_Contains].
  rewrite (IH b H). apply orb_true_r.
Qed.

Lemma append_assoc (a b c : string) : (a +:+ b) +:+ c = a +:+ (b +:+ c).
Proof.
  induction a as [|x a IH]; [reflexivity|].
  change (String x ((a +:+ b) +:+ c) = String x (a +:+ (b +:+ c))). now f_equal.
Qed.

Lemma append_nil_r (a : string) : a +:+ "" = a.
Proof.
  induction a as [|x a IH]; [reflexivity|].
  change (String x (a +:+ "") = String x a). now f_equal.
Qed.

(** A piece cut at a one-byte separator is a part of the string. *)
Lemma Contains_piece (sep : ascii) (sub v : string) :
  strings_Contains v sub = true ->
  forall s cur,
    In v (split_from (String sep "") 0 cur s) ->
    strings_Contains (cur +:+ s) sub = true.
Proof.
  intros Hv. induction s as [|c s IH]; intros cur Hin; cbn [split_from] in Hin.
  - destruct Hin as [<- | []]. now rewrite append_nil_r.
  - destruct (strings_HasPrefix (String c s) (String sep "")).
    + cbn [String.length Nat.sub] in Hin. destruct Hin as [<- | Hin].
      * now apply Contains_app_l.
      * apply Contains_app_r.
        change (String c s) with (String c "" +:+ s). apply Contains_app_r.
        exact (IH "" Hin).
    + specialize (IH _ Hin). now rewrite append_assoc in IH.
Qed.

Lemma GetFSType_range_no_match (fields : list string) (fsType : string) (h : list Event) :
  Forall (fun w => strings_Contains w "TYPE=" = false) fields ->
  GetFSType_range fields fsType h = (Ret fsType, h).
Proof.
  induction 1 as [|w fields Hw _ IH]; cbn [GetFSType_range]; [reflexivity|].
  now rewrite Hw.
Qed.

(** In the range loop of GetFSType the last field with "TYPE=" in it
    decides. *)
Lemma GetFSType_range_last (v : string) (after : list string) (h : list Event) :
  strings_Contains v "TYPE=" = true ->
  Forall (fun w => strings_Contains w "TYPE=" = false) after ->
  exists x,
    after_equals v = Some x
    /\ forall before fsType,
        GetFSType_range (before ++ v :: after) fsType h
        = (Ret (strings_ReplaceAll x quote ""), h).
Proof.
  intros Hv Hafter.
  pose proof (Split_at_equals v (Contains_suffix "TYPE" "=" v Hv) "") as Hlen.
  unfold after_equals, strings_Split.
  destruct (split_from "=" 0 "" v) as [|x0 [|x l]] eqn:Hsplit; cbn in Hlen; try lia.
  exists x. split; [reflexivity|].
  induction before as [|w before IH]; intros fsType; cbn [app GetFSType_range].
  - rewrite Hv. unfold mbind, M_bind, bind, index1, strings_Split.
    rewrite Hsplit. cbn. apply GetFSType_range_no_match, Hafter.
  - destruct (strings_Contains w "TYPE=") eqn:Hw; [|apply IH].
    pose proof (Split_at_equals w (Contains_suffix "TYPE" "=" w Hw) "") as Hlenw.
    unfold mbind, M_bind, bind, index1, strings_Split.
    destruct (split_from "=" 0 "" w) as [|y0 [|y l']]; cbn in Hlenw; try lia.
    cbn. apply IH.
Qed.

(** X10.  GetFSType always returns, having run blkid on the device and
    nothing else: it neither ends the process nor panics (the [[1]] it takes
    of a field with "TYPE=" is always in range).  The type is empty when
    blkid failed or printed no "TYPE=". *)
Theorem GetFSType_always_returns (device : string) (h : list Event) :
  let blkid := host_CombinedOutput host h "blkid" [device] in
  exists curFSType,
    GetFSType host device h
    = (Ret curFSType, EvExec "blkid" [device] blkid.1 blkid.2 :: h)
    /\ (blkid.2 <> None \/ strings_Contains blkid.1 "TYPE=" = false ->
        curFSType = "").
Proof.
  intros blkid.
  destruct (GetFSType_returns host device h) as [cur Hcur]. fold blkid in Hcur.
  exists cur. split; [exact Hcur|].
  unfold GetFSType, execCmd, mbind, M_bind, bind in Hcur. cbv beta zeta in Hcur.
  fold blkid in Hcur.
  destruct blkid as [res [e|]]; cbn [fst snd] in *.
  - intros _. now inversion Hcur.
  - intros [Hnone | Hno]; [congruence|]. rewrite Hno in Hcur. now inversion Hcur.
Qed.

(** X11.  When blkid goes through, the last of the space-separated fields
    of its output that has "TYPE=" in it decides the type GetFSType reports:
    it is what stands between the first and the second "=" of that field,
    with the double quotes taken out.  The field need not be the TYPE field:
    a PTTYPE or SEC_TYPE field counts as well. *)
Theorem GetFSType_last_TYPE_field (device res v : string) (before after : list string)
    (h : list Event) :
  host_CombinedOutput host h "blkid" [device] = (res, None) ->
  strings_Split res " " = before ++ v :: after ->
  strings_Contains v "TYPE=" = true ->
  Forall (fun w => strings_Contains w "TYPE=" = false) after ->
  exists x,
    after_equals v = Some x
    /\ GetFSType host device h
       = (Ret (strings_ReplaceAll x quote ""), EvExec "blkid" [device] res None :: h).
Proof.
  intros Hblkid Hsplit Hv Hafter.
  destruct (GetFSType_range_last v after (EvExec "blkid" [device] res None :: h) Hv Hafter)
    as (x & Hx & Hrange).
  exists x. split; [exact Hx|].
  unfold GetFSType, execCmd, mbind, M_bind, bind. cbv beta zeta.
  rewrite Hblkid. cbn [fst snd].
  assert (Hres : strings_Contains res "TYPE=" = true).
  { change res with ("" +:+ res). apply (Contains_piece " "%char "TYPE=" v Hv).
    unfold strings_Split in Hsplit. rewrite Hsplit.
    apply in_or_app. right. now left. }
  rewrite Hres, Hsplit. apply Hrange.
Qed.

(** X12.  When blkid goes through and its output has no "TYPE=" in it,
    Format creates the filesystem: it runs [mkfs -t fstype -F device], with
    ext4 for an empty [fstype]; it returns no error when mkfs goes through,
    and a failed mkfs ends the process. *)
Theorem Format_unsigned_device (device fstype res : string) (h : list Event) :
  host_CombinedOutput host h "blkid" [device] = (res, None) ->
  strings_Contains res "TYPE=" = false ->
  let h1 := EvExec "blkid" [device] res None :: h in
  let fs := if String.eqb fstype "" then "ext4" else fstype in
  let mkfs := host_CombinedOutput host h1 "mkfs" ["-t"; fs; "-F"; device] in
  Format host device fstype h
  = (match mkfs.2 with
     | Some _ => Fatal "failed to Format: %v"
     | None => Ret None
     end,
     EvExec "mkfs" ["-t"; fs; "-F"; device] mkfs.1 mkfs.2 :: h1).
Proof.
  intros Hblkid Hno h1 fs mkfs.
  unfold Format, GetFSType, execCmd, mbind, M_bind, bind. cbv beta zeta.
  rewrite Hblkid. cbn [fst snd]. rewrite Hno.
  unfold mret, M_ret, ret. change (String.eqb "" "") with true. cbv iota beta.
  fold fs. fold h1. fold mkfs.
  destruct mkfs as [o [e'|]]; reflexivity.
Qed.

Lemma run_events {A} (o out : Outcome A) (evs new h : list Event) :
  (o, evs ++ h) = (out, new ++ h) -> out = o /\ new = evs.
Proof.
  intros H. inversion H as [[Hout Hh]]. apply app_inv_tail in Hh. auto.
Qed.

Ltac next_command o e :=
  match goal with
  | |- context [host_CombinedOutput ?host ?h ?name ?arg] =>
      destruct (host_CombinedOutput host h name arg) as [o [e|]];
      cbn [fst snd]; cbv beta iota
  end.

Ltac in_list H :=
  repeat match type of H with
    | In _ (_ :: _) => destruct H as [H | H]
    | In _ [] => destruct H
    end.

(** X13.  FormatAndMount returns only after a mount that went through,
    which came right after a mkdir that went through, and then it returns no
    error; it never panics.  Every failing command other than the blkid of
    the inspection ends the process on the spot; in particular nothing is
    created or mounted after a failed mkfs. *)
Theorem FormatAndMount_returns_after_mount
    (device fstype mountpoint : string) (h : list Event)
    (out : Outcome (option error)) (new : list Event) :
  FormatAndMount host device fstype mountpoint h = (out, new ++ h) ->
  (forall err, out = Ret err ->
     err = None
     /\ exists o1 o2 earlier,
         new = EvExec "mount" [device; mountpoint] o2 None
               :: EvExec "mkdir" ["-p"; mountpoint] o1 None :: earlier)
  /\ (forall msg, out <> Panic msg)
  /\ (forall name arg o e,
        In (EvExec name arg o (Some e)) new ->
        name <> "blkid" ->
        (exists msg, out = Fatal msg)
        /\ exists earlier, new = EvExec name arg o (Some e) :: earlier).
Proof.
  destruct (GetFSType_returns host device h) as [cur Hcur].
  unfold FormatAndMount, Format, Mount.
  unfold mbind, M_bind. unfold bind at 1 2.
  rewrite Hcur.
  destruct (host_CombinedOutput host h "blkid" [device]) as [res berr].
  cbn [fst snd].
  unfold execCmd, bind, mret, M_ret, ret, log_Fatalf.
  cbv beta zeta.
  destruct (String.eqb cur "").
  - next_command o e.
    { intros Hrun. apply (run_events _ _ [_; _]) in Hrun. destruct Hrun as [-> ->].
      split; [discriminate|]. split; [discriminate|].
      intros name arg o' e' Hin Hname.
      in_list Hin; inversion Hin; subst; try congruence. eauto. }
    next_command o1 e.
    { intros Hrun. apply (run_events _ _ [_; _; _]) in Hrun. destruct Hrun as [-> ->].
      split; [discriminate|]. split; [discriminate|].
      intros name arg o' e' Hin Hname.
      in_list Hin; inversion Hin; subst; try congruence. eauto. }
    next_command o2 e.
    { intros Hrun. apply (run_events _ _ [_; _; _; _]) in Hrun. destruct Hrun as [-> ->].
      split; [discriminate|]. split; [discriminate|].
      intros name arg o' e' Hin Hname.
      in_list Hin; inversion Hin; subst; try congruence. eauto. }
    intros Hrun. apply (run_events _ _ [_; _; _; _]) in Hrun. destruct Hrun as [-> ->].
    split; [|split; [discriminate|]].
    + intros err Herr. inversion Herr. eauto.
    + intros name arg o' e' Hin Hname.
      in_list Hin; inversion Hin; subst; congruence.
  - next_command o1 e.
    { intros Hrun. apply (run_events _ _ [_; _]) in Hrun. destruct Hrun as [-> ->].
      split; [discriminate|]. split; [discriminate|].
      intros name arg o' e' Hin Hname.
      in_list Hin; inversion Hin; subst; try congruence. eauto. }
    next_command o2 e.
    { intros Hrun. apply (run_events _ _ [_; _; _]) in Hrun. destruct Hrun as [-> ->].
      split; [discriminate|]. split; [discriminate|].
      intros name arg o' e' Hin Hname.
      in_list Hin; inversion Hin; subst; try congruence. eauto. }
    intros Hrun. apply (run_events _ _ [_; _; _]) in Hrun. destruct Hrun as [-> ->].
    split; [|split; [discriminate|]].
    + intros err Herr. inversion Herr. eauto.
    + intros name arg o' e' Hin Hname.
      in_list Hin; inversion Hin; subst; congruence.
Qed.

End VolumeMore.

Section InitiatorAndHost.

Import iscsi Scenario.

Variable host : Host.

Lemma GetInitiator_range_returns (lines : list string) :
  forall (iqns : list string) (h : list Event),
    exists iqns', GetInitiator_range lines iqns h = (Ret iqns', h).
Proof.
  induction lines as [|l lines IH]; intros iqns h; cbn [GetInitiator_range].
  - now exists iqns.
  - destruct (strings_Contains l "InitiatorName=") eqn:Hl; [|apply IH].
    apply (Contains_suffix "InitiatorName" "=") in Hl.
    pose proof (Split_at_equals l Hl "") as Hlen.
    unfold mbind, M_bind, bind, index1, strings_Split.
    destruct (split_from "=" 0 "" l) as [|x [|y rest]]; cbn in Hlen; try lia.
    cbn. apply IH.
Qed.

(** X14.  GetInitiator always returns a slice that is not nil and no error,
    having run one cat of the initiator name file: it neither ends the
    process nor panics, and when the cat fails (the file is missing, say)
    the slice is empty. *)
Theorem GetInitiator_always_returns (h : list Event) :
  let cat := host_CombinedOutput host h "cat" ["/etc/iscsi/initiatorname.iscsi"] in
  exists iqns,
    GetInitiator host h
    = (Ret (mk_slice iqns, None),
       EvExec "cat" ["/etc/iscsi/initiatorname.iscsi"] cat.1 cat.2 :: h)
    /\ (cat.2 <> None -> iqns = []).
Proof.
  intros cat.
  unfold GetInitiator, execCmd, mbind, M_bind, bind. cbv beta zeta. fold cat.
  destruct cat as [res [e|]]; cbn [fst snd].
  - exists []. split; [reflexivity | auto].
  - destruct (GetInitiator_range_returns (strings_Split res newline) []
                (EvExec "cat" ["/etc/iscsi/initiatorname.iscsi"] res None :: h))
      as [iqns Hiqns].
    exists iqns. rewrite Hiqns. split; [reflexivity | congruence].
Qed.

(** Cutting at a byte that is not there gives the one piece. *)
Lemma split_from_absent (sep : ascii) :
  forall x cur,
    strings_Contains x (String sep "") = false ->
    split_from (String sep "") 0 cur x = [cur +:+ x].
Proof.
  induction x as [|c x IH]; intros cur Hx; cbn [split_from].
  - now rewrite append_nil_r.
  - cbn [strings_Contains] in Hx. apply orb_false_iff in Hx. destruct Hx as [Hp Hx].
    rewrite Hp, (IH _ Hx), append_assoc. reflexivity.
Qed.

Lemma split_from_first (sep : ascii) (rest : string) :
  forall x cur,
    strings_Contains x (String sep "") = false ->
    split_from (String sep "") 0 cur (x +:+ String sep rest)
    = (cur +:+ x) :: split_from (String sep "") 0 "" rest.
Proof.
  induction x as [|c x IH]; intros cur Hx.
  - change ("" +:+ String sep rest) with (String sep rest). cbn [split_from].
    cbn [strings_HasPrefix]. rewrite Ascii.eqb_refl. cbn [andb].
    destruct rest; now rewrite append_nil_r.
  - cbn [strings_Contains] in Hx. apply orb_false_iff in Hx. destruct Hx as [Hp Hx].
    change (String c x +:+ String sep rest) with (String c (x +:+ String sep rest)).
    cbn [split_from].
    assert (Hp' : strings_HasPrefix (String c (x +:+ String sep rest)) (String sep "")
                  = false).
    { cbn [strings_HasPrefix] in *.
      destruct (Ascii.eqb c sep); [|reflexivity].
      cbn [andb] in Hp. destruct x; discriminate. }
    rewrite Hp', (IH _ Hx), append_assoc. reflexivity.
Qed.

(** Cutting a joined list at the separator gives the list back, when the
    separator is one byte that no element holds. *)
Lemma Split_Join (sep : ascii) (x : string) (xs : list string) :
  Forall (fun y => strings_Contains y (String sep "") = false) (x :: xs) ->
  strings_Split (strings_Join (x :: xs) (String sep "")) (String sep "") = x :: xs.
Proof.
  unfold strings_Split. revert x.
  induction xs as [|y xs IH]; intros x Hall; inversion Hall as [|? ? Hx Hrest]; subst.
  - cbn [strings_Join]. now rewrite split_from_absent.
  - change (strings_Join (x :: y :: xs) (String sep ""))
      with (x +:+ String sep "" +:+ strings_Join (y :: xs) (String sep "")).
    change (String sep "" +:+ strings_Join (y :: xs) (String sep ""))
      with (String sep (strings_Join (y :: xs) (String sep ""))).
    rewrite split_from_first by exact Hx.
    now rewrite (IH y Hrest).
Qed.

Lemma Contains_byte_app (sep : ascii) (a b : string) :
  strings_Contains a (String sep "") = false ->
  strings_Contains b (String sep "") = false ->
  strings_Contains (a +:+ b) (String sep "") = false.
Proof.
  intros Ha Hb. induction a as [|c a IH]; [exact Hb|].
  change (String c a +:+ b) with (String c (a +:+ b)).
  cbn [strings_Contains] in *. apply orb_false_iff in Ha. destruct Ha as [Hp Ha].
  rewrite (IH Ha), orb_false_r.
  cbn [strings_HasPrefix] in *. destruct (Ascii.eqb c sep); [|reflexivity].
  cbn [andb] in Hp. destruct a; discriminate.
Qed.

Lemma GetInitiator_range_names (iqns : list string) (h : list Event) :
  Forall (fun iqn => strings_Contains iqn "=" = false) iqns ->
  forall acc,
    GetInitiator_range (map (fun iqn => "InitiatorName=" +:+ iqn) iqns) acc h
    = (Ret (acc ++ iqns), h).
Proof.
  induction 1 as [|iqn iqns Hiqn _ IH]; intros acc; cbn [map GetInitiator_range].
  - now rewrite app_nil_r.
  - rewrite (Contains_app_l "InitiatorName=" "InitiatorName=" iqn eq_refl).
    unfold mbind, M_bind, bind, index1, strings_Split.
    change ("InitiatorName=" +:+ iqn) with ("InitiatorName" +:+ String "="%char iqn).
    rewrite (split_from_first "="%char iqn "InitiatorName" "" eq_refl).
    rewrite (split_from_absent "="%char iqn "" Hiqn).
    cbn. rewrite IH, <- app_assoc. reflexivity.
Qed.

(** X15.  GetInitiator reads back what the file says: when the file
    consists of the lines "InitiatorName=<iqn>", one per name, in which no
    name holds an "=" or a line break, GetInitiator returns exactly these
    names, in the order of the file. *)
Theorem GetInitiator_reads_names (iqns : list string) (h : list Event) :
  Forall (fun iqn => strings_Contains iqn "=" = false
                     /\ strings_Contains iqn newline = false) iqns ->
  host_CombinedOutput host h "cat" ["/etc/iscsi/initiatorname.iscsi"]
  = (initiator_file iqns, None) ->
  GetInitiator host h
  = (Ret (mk_slice iqns, None),
     EvExec "cat" ["/etc/iscsi/initiatorname.iscsi"] (initiator_file iqns) None :: h).
Proof.
  intros Hall Hcat.
  unfold GetInitiator, execCmd, mbind, M_bind, bind. cbv beta zeta.
  rewrite Hcat. cbn [fst snd].
  destruct iqns as [|iqn iqns]; [reflexivity|].
  unfold initiator_file, newline. cbn [map].
  rewrite Split_Join.
  - change (?f iqn :: map ?g iqns) with (map g (iqn :: iqns)).
    rewrite GetInitiator_range_names; [reflexivity|].
    eapply Forall_impl; [exact Hall|]. now intros ? [? _].
  - change (?f iqn :: map ?g iqns) with (map g (iqn :: iqns)).
    apply Forall_map. eapply Forall_impl; [exact Hall|].
    intros y [_ Hy]. cbn beta. apply Contains_byte_app; [reflexivity | exact Hy].
Qed.

Variable IP : Type.
Variable IsLoopback : IP -> bool.
Variable IP_String : IP -> string.

(** X16.  GetHostIp answers "127.0.0.1" when the interface addresses cannot
    be read; otherwise it answers with the first address that is an IPNet
    and not a loopback address, passing over every loopback IPNet and every
    address of another kind, and with "127.0.0.1" when there is none. *)
Theorem GetHostIp_first_non_loopback (addrs : list (Addr IP)) :
  (forall e, GetHostIp IP IsLoopback IP_String (addrs, Some e) = "127.0.0.1")
  /\ ((exists before ip mask after,
         addrs = before ++ IPNet IP ip mask :: after
         /\ IsLoopback ip = false
         /\ (forall ip' mask', In (IPNet IP ip' mask') before -> IsLoopback ip' = true)
         /\ GetHostIp IP IsLoopback IP_String (addrs, None) = IP_String ip)
      \/ ((forall ip mask, In (IPNet IP ip mask) addrs -> IsLoopback ip = true)
          /\ GetHostIp IP IsLoopback IP_String (addrs, None) = "127.0.0.1")).
Proof.
  split; [reflexivity|].
  cbn [GetHostIp].
  induction addrs as [|[ip mask | network address] addrs IH]; cbn [GetHostIp_range].
  - right. split; [intros ? ? []| reflexivity].
  - destruct (IsLoopback ip) eqn:Hip; cbn [negb].
    + destruct IH as [(before & ip0 & mask0 & after & -> & Hip0 & Hbefore & Hres)
                     | [Hall Hres]].
      * left. exists (IPNet IP ip mask :: before), ip0, mask0, after.
        split; [reflexivity|]. split; [exact Hip0|]. split; [|exact Hres].
        intros ip' mask' [Heq | Hin]; [inversion Heq; now subst | eauto].
      * right. split; [|exact Hres].
        intros ip' mask' [Heq | Hin]; [inversion Heq; now subst | eauto].
    + left. exists [], ip, mask, addrs.
      split; [reflexivity|]. split; [exact Hip|]. split; [intros ? ? []|reflexivity].
  - destruct IH as [(before & ip0 & mask0 & after & -> & Hip0 & Hbefore & Hres)
                   | [Hall Hres]].
    + left. exists (OtherAddr IP network address :: before), ip0, mask0, after.
      split; [reflexivity|]. split; [exact Hip0|]. split; [|exact Hres].
      intros ip' mask' [Heq | Hin]; [discriminate | eauto].
    + right. split; [|exact Hres].
      intros ip' mask' [Heq | Hin]; [discriminate | eauto].
Qed.

End InitiatorAndHost.


(* ===================================================================== *)
(** * More of package controller *)
(* ===================================================================== *)

Section RegistryMore.

Import model brokerapi controller.

Variable GetClient : string -> Client.

Create HintDb registry.

Hint Resolve steady_mret steady_panic steady_assert_string steady_assert_int64
  steady_deref steady_map_assign steady_get_instanceMap steady_bind
  steady_option : registry.

Lemma call_step_refl (id : string) (s : State) : call_step id s s.
Proof. repeat split; [now left | now left]. Qed.

Hint Resolve call_step_refl : registry.

Lemma CreateServiceInstance_step (instanceID : string)
    (req : option CreateServiceInstanceRequest) (s s' : State)
    (out : Outcome (option CreateServiceInstanceResponse * option error)) :
  CreateServiceInstance GetClient instanceID req s = (out, s') ->
  call_step instanceID s s'.
Proof.
  intros Hrun. unfold CreateServiceInstance in Hrun.
  repeat
    (apply bind_steady_inv in Hrun; [|auto 10 with registry];
     destruct Hrun as [(? & _ & Hrun) | (-> & _)]; [|auto with registry]).
  unfold mbind, M_bind, bind, CreateVolume in Hrun. cbv beta zeta in Hrun.
  destruct (client_CreateVolume _ _ _) as [v [e|]]; cbn [fst snd] in Hrun.
  - inversion Hrun; subst. repeat split; cbn; [right; eauto | now left].
  - destruct v as [vol|]; cbn in Hrun; inversion Hrun; subst.
    + repeat split; cbn; [right; eauto |].
      right; right. eexists. split; [reflexivity|]. now left.
    + repeat split; cbn; [right; eauto | now left].
Qed.

Lemma RemoveServiceInstance_step (instanceID serviceID planID : string)
    (acceptsIncomplete : bool) (s s' : State)
    (out : Outcome (option DeleteServiceInstanceResponse * option error)) :
  RemoveServiceInstance GetClient instanceID serviceID planID acceptsIncomplete s
  = (out, s') ->
  call_step instanceID s s'.
Proof.
  unfold RemoveServiceInstance, get_instanceMap. unfold mbind at 1.
  unfold M_bind at 1. unfold bind at 1. intros Hrun.
  destruct (instanceMap (ctrl s) !! instanceID) as [instance|];
    [|inversion Hrun; auto with registry].
  destruct (Credential instance !! "volumeId") as [volInterface|];
    [|inversion Hrun; auto with registry].
  apply bind_steady_inv in Hrun; [|auto with registry].
  destruct Hrun as [(? & _ & Hrun) | (-> & _)]; [|auto with registry].
  unfold mbind, M_bind, bind, DeleteVolume in Hrun. cbv beta zeta in Hrun.
  destruct (client_DeleteVolume _ _ _) as [e|]; cbn in Hrun; inversion Hrun; subst.
  - repeat split; cbn; [right; eauto | now left].
  - repeat split; cbn; [right; eauto | right; now left].
Qed.

Lemma Bind_step (instanceID bindingID : string) (req : option BindingRequest)
    (s s' : State) (out : Outcome (option CreateServiceBindingResponse * option error)) :
  Bind GetClient instanceID bindingID req s = (out, s') ->
  call_step instanceID s s'.
Proof.
  unfold Bind, get_instanceMap. unfold mbind at 1.
  unfold M_bind at 1. unfold bind at 1. intros Hrun.
  destruct (instanceMap (ctrl s) !! instanceID) as [instance|] eqn:Hinst;
    [|inversion Hrun; auto with registry].
  destruct (Credential instance !! "volumeId") as [volInterface|];
    [|inversion Hrun; auto with registry].
  repeat
    (apply bind_steady_inv in Hrun; [|auto 10 with registry];
     destruct Hrun as [(? & _ & Hrun) | (-> & _)]; [|auto with registry]).
  unfold mbind, M_bind, bind, CreateVolumeAttachment in Hrun. cbv beta zeta in Hrun.
  destruct (client_CreateVolumeAttachment _ _ _) as [a [e|]]; cbn [fst snd] in Hrun.
  - inversion Hrun; subst. repeat split; cbn; [right; eauto | now left].
  - destruct a as [atc|]; cbn in Hrun; inversion Hrun; subst.
    + repeat split; cbn; [right; eauto |].
      right; right. eexists. split; [reflexivity|]. right. eauto.
    + repeat split; cbn; [right; eauto | now left].
Qed.

Lemma UnBind_step (instanceID bindingID serviceID planID : string)
    (s s' : State) (out : Outcome (option error)) :
  UnBind GetClient instanceID bindingID serviceID planID s = (out, s') ->
  call_step instanceID s s'.
Proof.
  unfold UnBind, get_instanceMap. unfold mbind at 1.
  unfold M_bind at 1. unfold bind at 1. intros Hrun.
  destruct (instanceMap (ctrl s) !! instanceID) as [instance|] eqn:Hinst;
    [|inversion Hrun; auto with registry].
  destruct (Credential instance !! "attachmentId") as [atcInterface|];
    [|inversion Hrun; auto with registry].
  apply bind_steady_inv in Hrun; [|auto with registry].
  destruct Hrun as [(? & _ & Hrun) | (-> & _)]; [|auto with registry].
  unfold mbind, M_bind, bind, DeleteVolumeAttachment in Hrun. cbv beta zeta in Hrun.
  destruct (client_DeleteVolumeAttachment _ _ _) as [e|]; cbn in Hrun;
    inversion Hrun; subst.
  - repeat split; cbn; [right; eauto | now left].
  - repeat split; cbn; [right; eauto |].
    right; right. eexists. split; [reflexivity|]. right. eauto.
Qed.

Lemma registry_step_frame (id id' : string) (m m' : gmap string openSDSServiceInstance) :
  registry_step id m m' -> id' <> id -> m' !! id' = m !! id'.
Proof.
  intros [-> | [-> | (instance' & -> & _)]] Hne.
  - reflexivity.
  - now apply lookup_delete_ne.
  - now apply lookup_insert_ne.
Qed.

Lemma registry_step_names (id : string) (m m' : gmap string openSDSServiceInstance) :
  registry_step id m m' -> names_match m -> names_match m'.
Proof.
  intros [-> | [-> | (instance' & -> & Hname)]] Hm id' instance Hlook.
  - eauto.
  - destruct (decide (id' = id)) as [-> | Hne].
    + rewrite lookup_delete_eq in Hlook. discriminate.
    + rewrite lookup_delete_ne in Hlook by auto. eauto.
  - destruct (decide (id' = id)) as [-> | Hne].
    + rewrite lookup_insert_eq in Hlook. inversion Hlook; subst.
      destruct Hname as [Hname | (old & Hold & Hname)]; [exact Hname|].
      rewrite Hname. eauto.
    + rewrite lookup_insert_ne in Hlook by auto. eauto.
Qed.

(** X17.  A call about one instance id leaves the rest alone: after
    CreateServiceInstance, RemoveServiceInstance, Bind or UnBind, however
    the call ended, the entry of every other id is what it was, the endpoint
    is the same, and the client was called once at most. *)
Theorem calls_touch_one_instance (instanceID : string) (s s' : State) :
  (exists req out, CreateServiceInstance GetClient instanceID req s = (out, s'))
  \/ (exists serviceID planID acceptsIncomplete out,
        RemoveServiceInstance GetClient instanceID serviceID planID acceptsIncomplete s
        = (out, s'))
  \/ (exists bindingID req out, Bind GetClient instanceID bindingID req s = (out, s'))
  \/ (exists bindingID serviceID planID out,
        UnBind GetClient instanceID bindingID serviceID planID s = (out, s')) ->
  (forall other, other <> instanceID ->
     instanceMap (ctrl s') !! other = instanceMap (ctrl s) !! other)
  /\ Endpoint (ctrl s') = Endpoint (ctrl s)
  /\ (calls s' = calls s \/ exists c, calls s' = c :: calls s).
Proof.
  intros Hcall.
  assert (Hstep : call_step instanceID s s').
  { destruct Hcall as [(? & ? & H) | [(? & ? & ? & ? & H) | [(? & ? & ? & H) | (? & ? & ? & ? & H)]]];
      eauto using CreateServiceInstance_step, RemoveServiceInstance_step,
        Bind_step, UnBind_step. }
  destruct Hstep as (Hedp & Hcalls & Hreg).
  split; [|split; assumption].
  intros other Hne. now apply (registry_step_frame instanceID).
Qed.

(** X18.  Every instance is registered under its own name: this holds in
    the registry of a new controller and is kept by CreateServiceInstance,
    RemoveServiceInstance, Bind and UnBind, however the call ends. *)
Theorem names_match_kept (instanceID : string) (s s' : State) :
  (forall edp, names_match (instanceMap (CreateController edp)))
  /\ ((exists req out, CreateServiceInstance GetClient instanceID req s = (out, s'))
      \/ (exists serviceID planID acceptsIncomplete out,
            RemoveServiceInstance GetClient instanceID serviceID planID acceptsIncomplete s
            = (out, s'))
      \/ (exists bindingID req out, Bind GetClient instanceID bindingID req s = (out, s'))
      \/ (exists bindingID serviceID planID out,
            UnBind GetClient instanceID bindingID serviceID planID s = (out, s')) ->
      names_match (instanceMap (ctrl s)) ->
      names_match (instanceMap (ctrl s'))).
Proof.
  split.
  - intros edp id instance Hlook. cbn in Hlook. now rewrite lookup_empty in Hlook.
  - intros Hcall.
    assert (Hstep : call_step instanceID s s').
    { destruct Hcall as [(? & ? & H) | [(? & ? & ? & ? & H) | [(? & ? & ? & H) | (? & ? & ? & ? & H)]]];
        eauto using CreateServiceInstance_step, RemoveServiceInstance_step,
          Bind_step, UnBind_step. }
    destruct Hstep as (_ & _ & Hreg).
    now apply (registry_step_names instanceID).
Qed.

(** X19.  For an id that is not registered, RemoveServiceInstance, Bind
    and UnBind each return the error "No such instance <id> exited!" and
    nothing else happens: the client is not called and the registry is as
    it was. *)
Theorem unknown_instance_refused (instanceID : string) (s : State) :
  instanceMap (ctrl s) !! instanceID = None ->
  let err := errorString ("No such instance " +:+ instanceID +:+ " exited!") in
  (forall serviceID planID acceptsIncomplete,
     RemoveServiceInstance GetClient instanceID serviceID planID acceptsIncomplete s
     = (Ret (None, Some err), s))
  /\ (forall bindingID req,
        Bind GetClient instanceID bindingID req s = (Ret (None, Some err), s))
  /\ (forall bindingID serviceID planID,
        UnBind GetClient instanceID bindingID serviceID planID s = (Ret (Some err), s)).
Proof.
  intros Hnone err. repeat split; intros.
  - unfold RemoveServiceInstance, get_instanceMap, mbind, M_bind, bind.
    now rewrite Hnone.
  - unfold Bind, get_instanceMap, mbind, M_bind, bind. now rewrite Hnone.
  - unfold UnBind, get_instanceMap, mbind, M_bind, bind. now rewrite Hnone.
Qed.

Lemma UnBind_not_bound (instanceID bindingID serviceID planID : string) (s : State)
    (instance : openSDSServiceInstance) :
  instanceMap (ctrl s) !! instanceID = Some instance ->
  Credential instance !! "attachmentId" = None ->
  UnBind GetClient instanceID bindingID serviceID planID s
  = (Ret (Some (errorString "Volume attachment id not provided in credential info!")), s).
Proof.
  intros Hinst Hatc.
  unfold UnBind, get_instanceMap, mbind, M_bind, bind. now rewrite Hinst, Hatc.
Qed.

Lemma CreateServiceInstance_success (instanceID : string)
    (req : option CreateServiceInstanceRequest) (s s' : State)
    (resp : option CreateServiceInstanceResponse) :
  CreateServiceInstance GetClient instanceID req s = (Ret (resp, None), s') ->
  exists spec vol,
    calls s' = CallCreateVolume (Endpoint (ctrl s)) spec (Some vol) None :: calls s
    /\ Endpoint (ctrl s') = Endpoint (ctrl s)
    /\ instanceMap (ctrl s')
       = <[instanceID :=
             {| Name := instanceID;
                Credential :=
                  <["image" := VString ("OPENSDS:" +:+ GetName vol +:+ ":" +:+ GetId vol)]>
                    (<["volumeId" := VString (GetId vol)]> ∅) |}]>
           (instanceMap (ctrl s)).
Proof.
  intros Hrun. unfold CreateServiceInstance in Hrun.
  repeat
    (apply bind_steady_inv in Hrun; [|auto 10 with registry];
     destruct Hrun as [(? & _ & Hrun) | (_ & ? & ?)]; [|discriminate]).
  unfold mbind, M_bind, bind, CreateVolume in Hrun. cbv beta zeta in Hrun.
  destruct (client_CreateVolume _ _ _) as [v [e|]]; cbn [fst snd] in Hrun;
    [discriminate|].
  destruct v as [vol|]; cbn in Hrun; [|discriminate].
  inversion Hrun; subst. cbn. eauto.
Qed.

(** X20.  An instance that is not bound cannot be unbound: right after a
    CreateServiceInstance that went through, and again right after an UnBind
    that went through, UnBind returns the error "Volume attachment id not
    provided in credential info!" without calling the client and without
    changing the registry. *)
Theorem UnBind_needs_a_binding (instanceID bindingID serviceID planID : string)
    (s s' : State) :
  (exists req resp,
     CreateServiceInstance GetClient instanceID req s = (Ret (resp, None), s'))
  \/ (exists bindingID' serviceID' planID',
        UnBind GetClient instanceID bindingID' serviceID' planID' s = (Ret None, s')) ->
  UnBind GetClient instanceID bindingID serviceID planID s'
  = (Ret (Some (errorString "Volume attachment id not provided in credential info!")), s').
Proof.
  intros [(req & resp & Hcreate) | (b & sv & pl & Hunbind)].
  - apply CreateServiceInstance_success in Hcreate.
    destruct Hcreate as (spec & vol & _ & _ & Hmap).
    eapply UnBind_not_bound.
    + rewrite Hmap. apply lookup_insert_eq.
    + cbn. rewrite lookup_insert_ne by discriminate.
      rewrite lookup_insert_ne by discriminate. apply lookup_empty.
  - apply UnBind_empties_credential in Hunbind.
    destruct Hunbind as (instance & Hinst & Hempty & _).
    eapply UnBind_not_bound; [exact Hinst|]. rewrite Hempty. apply lookup_empty.
Qed.

(** X21.  When the client fails to create the volume, CreateServiceInstance
    returns no response and the error of the client as it is, and the
    controller is unchanged: nothing is registered. *)
Theorem CreateServiceInstance_client_failure
    (instanceID : string) (req : option CreateServiceInstanceRequest)
    (s s' : State) (spec : VolumeSpec) (vol : option VolumeSpec) (e : error)
    (out : Outcome (option CreateServiceInstanceResponse * option error)) :
  CreateServiceInstance GetClient instanceID req s = (out, s') ->
  calls s' = CallCreateVolume (Endpoint (ctrl s)) spec vol (Some e) :: calls s ->
  out = Ret (None, Some e) /\ ctrl s' = ctrl s.
Proof.
  intros Hrun Hcall. unfold CreateServiceInstance in Hrun.
  repeat
    (apply bind_steady_inv in Hrun; [|auto 10 with registry];
     destruct Hrun as [(? & _ & Hrun) | (-> & _)];
     [|now apply cons_neq_self in Hcall]).
  unfold mbind, M_bind, bind, CreateVolume in Hrun. cbv beta zeta in Hrun.
  destruct (client_CreateVolume _ _ _) as [v [e'|]]; cbn [fst snd] in Hrun.
  - inversion Hrun; subst. cbn in Hcall. inversion Hcall; subst. auto.
  - destruct v as [vol0|]; cbn in Hrun; inversion Hrun; subst; cbn in Hcall;
      inversion Hcall.
Qed.

(** X22.  RemoveServiceInstance on an instance that has its volume id asks
    the client to delete that volume.  When the client does, the instance is
    taken out of the registry and the empty response is returned; when the
    client fails, its error is returned as it is and the instance stays
    registered. *)
Theorem RemoveServiceInstance_deletes_volume
    (instanceID serviceID planID : string) (acceptsIncomplete : bool) (s : State)
    (instance : openSDSServiceInstance) (volID : string) :
  instanceMap (ctrl s) !! instanceID = Some instance ->
  Credential instance !! "volumeId" = Some (VString volID) ->
  let edp := Endpoint (ctrl s) in
  let err := client_DeleteVolume (GetClient edp) (calls s) volID in
  let called := CallDeleteVolume edp volID err :: calls s in
  RemoveServiceInstance GetClient instanceID serviceID planID acceptsIncomplete s
  = match err with
    | Some e => (Ret (None, Some e), {| ctrl := ctrl s; calls := called |})
    | None =>
        (Ret (Some {| dsi_Operation := "" |}, None),
         {| ctrl := {| Endpoint := edp;
                       instanceMap := delete instanceID (instanceMap (ctrl s)) |};
            calls := called |})
    end.
Proof.
  intros Hinst Hvol edp err called.
  unfold RemoveServiceInstance, get_instanceMap, mbind, M_bind, bind.
  rewrite Hinst, Hvol. cbn. unfold DeleteVolume. cbv beta zeta.
  fold edp. fold err. fold called.
  destruct err as [e|]; reflexivity.
Qed.

(** X23.  CreateServiceInstance and then RemoveServiceInstance of the same
    id, both going through: the id is not registered afterwards, every other
    entry is as before the two calls, and the client was asked to create a
    volume and then to delete the volume it had created, in that order and
    nothing else. *)
Theorem Create_then_Remove (instanceID serviceID planID : string)
    (acceptsIncomplete : bool) (req : option CreateServiceInstanceRequest)
    (s s1 s2 : State) (resp : option CreateServiceInstanceResponse)
    (resp' : option DeleteServiceInstanceResponse) :
  CreateServiceInstance GetClient instanceID req s = (Ret (resp, None), s1) ->
  RemoveServiceInstance GetClient instanceID serviceID planID acceptsIncomplete s1
  = (Ret (resp', None), s2) ->
  instanceMap (ctrl s2) !! instanceID = None
  /\ instanceMap (ctrl s2) = delete instanceID (instanceMap (ctrl s))
  /\ exists spec vol,
      calls s2 = CallDeleteVolume (Endpoint (ctrl s)) (GetId vol) None
                 :: CallCreateVolume (Endpoint (ctrl s)) spec (Some vol) None
                 :: calls s.
Proof.
  intros Hcreate Hremove.
  apply CreateServiceInstance_success in Hcreate.
  destruct Hcreate as (spec & vol & Hcalls & Hedp & Hmap).
  unfold RemoveServiceInstance, get_instanceMap, mbind, M_bind, bind in Hremove.
  rewrite Hmap, lookup_insert_eq in Hremove. cbn [Credential] in Hremove.
  rewrite lookup_insert_ne, lookup_insert_eq in Hremove by discriminate.
  cbn in Hremove. unfold DeleteVolume in Hremove. cbv beta zeta in Hremove.
  destruct (client_DeleteVolume (GetClient (Endpoint (ctrl s1))) (calls s1) (GetId vol))
    as [e|] eqn:Hdel; cbn in Hremove; inversion Hremove; subst.
  cbn. rewrite Hmap, delete_insert_eq.
  split; [apply lookup_delete_eq|]. split; [reflexivity|].
  exists spec, vol. now rewrite Hcalls, Hedp.
Qed.

Lemma assert_string_returns {S} (x : value) (s s' : S) (v : string) :
  assert_string x s = (Ret v, s') -> x = VString v.
Proof. destruct x; cbn; intros H; inversion H; reflexivity. Qed.

(** X24.  A Bind that went through found the instance with its volume id,
    asked the client for an attachment of that volume, and returns the
    credential set of the instance with two keys set: "attachmentId" is the
    id of the new attachment and "connectionInfo" its connection info.  Every
    other key is as before, so the volume id stays, and the registry holds
    for the instance exactly the credential set that was returned. *)
Theorem Bind_augments_credentials (instanceID bindingID : string)
    (req : option BindingRequest) (s s1 : State) (resp : CreateServiceBindingResponse) :
  Bind GetClient instanceID bindingID req s = (Ret (Some resp, None), s1) ->
  exists instance volID spec atc,
    instanceMap (ctrl s) !! instanceID = Some instance
    /\ Credential instance !! "volumeId" = Some (VString volID)
    /\ calls s1
       = CallCreateVolumeAttachment (Endpoint (ctrl s)) spec (Some atc) None :: calls s
    /\ va_VolumeId spec = volID
    /\ Credentials resp !! "attachmentId" = Some (VString (atc_GetId atc))
    /\ Credentials resp !! "connectionInfo"
       = Some (VConnectionInfo (va_ConnectionInfo atc))
    /\ (forall k, k <> "attachmentId" -> k <> "connectionInfo" ->
          Credentials resp !! k = Credential instance !! k)
    /\ instanceMap (ctrl s1) !! instanceID
       = Some {| Name := Name instance; Credential := Credentials resp |}.
Proof.
  unfold Bind, get_instanceMap. unfold mbind at 1. unfold M_bind at 1.
  unfold bind at 1. intros Hrun.
  destruct (instanceMap (ctrl s) !! instanceID) as [instance|] eqn:Hinst;
    [|discriminate].
  destruct (Credential instance !! "volumeId") as [volInterface|] eqn:Hvol;
    [|discriminate].
  apply bind_steady_inv in Hrun; [|auto 10 with registry].
  destruct Hrun as [(volID & HvolID & Hrun) | (_ & ? & ?)]; [|discriminate].
  apply assert_string_returns in HvolID. subst volInterface.
  repeat
    (apply bind_steady_inv in Hrun; [|auto 10 with registry];
     destruct Hrun as [(? & _ & Hrun) | (_ & ? & ?)]; [|discriminate]).
  unfold mbind, M_bind, bind, CreateVolumeAttachment in Hrun. cbv beta zeta in Hrun.
  destruct (client_CreateVolumeAttachment _ _ _) as [a [e|]]; cbn [fst snd] in Hrun;
    [discriminate|].
  destruct a as [atc|]; cbn in Hrun; [|discriminate].
  inversion Hrun; subst. cbn.
  eexists instance, volID, _, atc.
  split; [reflexivity|]. split; [exact Hvol|]. split; [reflexivity|].
  split; [reflexivity|].
  split; [rewrite lookup_insert_ne by discriminate; apply lookup_insert_eq|].
  split; [apply lookup_insert_eq|].
  split; [|apply lookup_insert_eq].
  intros k Hk1 Hk2. now rewrite !lookup_insert_ne by congruence.
Qed.

(** X25.  An UnBind that follows a Bind that went through asks the client
    to delete the attachment that the Bind created, whatever binding id,
    service id and plan id it is called with, and returns what the client
    answers. *)
Theorem UnBind_deletes_the_attachment (instanceID bindingID : string)
    (req : option BindingRequest) (s s1 s2 : State)
    (resp : CreateServiceBindingResponse)
    (bindingID' serviceID planID : string) (out : Outcome (option error)) :
  Bind GetClient instanceID bindingID req s = (Ret (Some resp, None), s1) ->
  UnBind GetClient instanceID bindingID' serviceID planID s1 = (out, s2) ->
  exists atcID err,
    Credentials resp !! "attachmentId" = Some (VString atcID)
    /\ calls s2 = CallDeleteVolumeAttachment (Endpoint (ctrl s1)) atcID err :: calls s1
    /\ out = Ret err.
Proof.
  intros Hbind Hunbind.
  apply Bind_success in Hbind.
  destruct Hbind as (instance & volInterface & atc & _ & _ & Hcred & Hmap).
  exists (atc_GetId atc).
  assert (Hatc : Credentials resp !! "attachmentId" = Some (VString (atc_GetId atc))).
  { rewrite Hcred. rewrite lookup_insert_ne by discriminate. apply lookup_insert_eq. }
  unfold UnBind, get_instanceMap, mbind, M_bind, bind in Hunbind.
  rewrite Hmap, lookup_insert_eq in Hunbind. cbn [Credential] in Hunbind.
  rewrite Hatc in Hunbind. cbn in Hunbind.
  unfold DeleteVolumeAttachment in Hunbind. cbv beta zeta in Hunbind.
  destruct (client_DeleteVolumeAttachment (GetClient (Endpoint (ctrl s1))) (calls s1)
              (atc_GetId atc)) as [e|]; cbn in Hunbind; inversion Hunbind; subst;
    eexists; cbn; eauto.
Qed.

(** X26.  Bind does not look at an earlier binding.  For a registered
    instance with its volume id and a binding request without "lvPath", when
    the client makes the attachment the Bind goes through, bound already or
    not: the attachment id and the connection info of the new attachment
    take the place of whatever the two keys held. *)
Theorem Bind_accepted (instanceID bindingID : string) (req : BindingRequest)
    (s : State) (instance : openSDSServiceInstance) (volID : string)
    (atc : VolumeAttachmentSpec) :
  instanceMap (ctrl s) !! instanceID = Some instance ->
  Credential instance !! "volumeId" = Some (VString volID) ->
  br_Parameters req !! "lvPath" = None ->
  client_CreateVolumeAttachment (GetClient (Endpoint (ctrl s))) (calls s)
    (attachment_spec volID) = (Some atc, None) ->
  let cred := <["connectionInfo" := VConnectionInfo (va_ConnectionInfo atc)]>
                (<["attachmentId" := VString (atc_GetId atc)]> (Credential instance)) in
  Bind GetClient instanceID bindingID (Some req) s
  = (Ret (Some {| Credentials := cred |}, None),
     {| ctrl := {| Endpoint := Endpoint (ctrl s);
                   instanceMap :=
                     <[instanceID := {| Name := Name instance; Credential := cred |}]>
                       (instanceMap (ctrl s)) |};
        calls := CallCreateVolumeAttachment (Endpoint (ctrl s)) (attachment_spec volID)
                   (Some atc) None :: calls s |}).
Proof.
  intros Hinst Hvol Hlv Hclient cred.
  unfold Bind, get_instanceMap, mbind, M_bind, bind. rewrite Hinst, Hvol.
  cbn. rewrite Hlv. cbn. unfold CreateVolumeAttachment. cbv beta zeta.
  fold (attachment_spec volID). rewrite Hclient. reflexivity.
Qed.

(** X27.  A "capacity" parameter of any dynamic type but int64 (the float64
    of a decoded JSON number, an int, a string) makes CreateServiceInstance
    panic before the client is asked, the registry as it was; with "name"
    and "description" absent or strings, the panic is the failed assertion
    to int64. *)
Theorem capacity_must_be_int64 (instanceID : string) (req : CreateServiceInstanceRequest)
    (s : State) (capInterface : value) :
  csi_Parameters req !! "capacity" = Some capInterface ->
  (forall i, capInterface <> VInt64 i) ->
  (exists msg,
     CreateServiceInstance GetClient instanceID (Some req) s = (Panic msg, s))
  /\ ((forall v, csi_Parameters req !! "name" = Some v -> exists n, v = VString n) ->
      (forall v, csi_Parameters req !! "description" = Some v -> exists d, v = VString d) ->
      CreateServiceInstance GetClient instanceID (Some req) s
      = (Panic "interface conversion: interface {} is not int64", s)).
Proof.
  intros Hcap Hnot.
  assert (Hpanic : forall k : Z -> Broker (option CreateServiceInstanceResponse * option error),
            (assert_int64 capInterface ≫= k) s
            = (Panic "interface conversion: interface {} is not int64", s)).
  { intros k. unfold mbind, M_bind, bind.
    destruct capInterface; try reflexivity. now destruct (Hnot i). }
  split.
  - unfold CreateServiceInstance. cbn [deref].
    unfold mbind at 1. unfold M_bind at 1. unfold bind at 1.
    unfold mret at 1. unfold M_ret at 1. unfold ret at 1. cbv beta iota.
    rewrite Hcap.
    do 2 (apply bind_steady_panics; [auto 10 with registry | intros ?]).
    eexists. apply Hpanic.
  - intros Hname Hdesc.
    unfold CreateServiceInstance. cbn [deref].
    unfold mbind at 1 2 3. unfold M_bind at 1 2 3. unfold bind at 1 2 3.
    unfold mret at 1. unfold M_ret at 1. unfold ret at 1. cbv beta iota.
    rewrite Hcap.
    destruct (csi_Parameters req !! "name") as [v|];
      [destruct (Hname v eq_refl) as [? ->]|];
      (destruct (csi_Parameters req !! "description") as [v'|];
       [destruct (Hdesc v' eq_refl) as [? ->]|]);
      cbn; apply Hpanic.
Qed.

(** X29.  CreateServiceInstance takes any id, registered or not.  With
    parameters of the asserted dynamic types and no "lvPath", when the client
    creates the volume for the spec made of name, description and capacity,
    the call goes through: the instance with the volume id and the image
    reference is put under the id, in the place of whatever was there, and
    the empty response is returned. *)
Theorem CreateServiceInstance_accepted (instanceID : string)
    (req : CreateServiceInstanceRequest) (s : State) (vol : VolumeSpec) :
  well_typed (csi_Parameters req) ->
  csi_Parameters req !! "lvPath" = None ->
  client_CreateVolume (GetClient (Endpoint (ctrl s))) (calls s)
    (spec_of_parameters (csi_Parameters req)) = (Some vol, None) ->
  CreateServiceInstance GetClient instanceID (Some req) s
  = (Ret (Some {| DashboardURL := ""; Operation := "" |}, None),
     {| ctrl :=
          {| Endpoint := Endpoint (ctrl s);
             instanceMap :=
               <[instanceID :=
                   {| Name := instanceID;
                      Credential :=
                        <["image" := VString ("OPENSDS:" +:+ GetName vol +:+ ":" +:+ GetId vol)]>
                          (<["volumeId" := VString (GetId vol)]> ∅) |}]>
                 (instanceMap (ctrl s)) |};
        calls := CallCreateVolume (Endpoint (ctrl s))
                   (spec_of_parameters (csi_Parameters req)) (Some vol) None
                 :: calls s |}).
Proof.
  intros (Hname & Hdesc & Hcap & _) Hlv Hclient.
  unfold CreateServiceInstance, spec_of_parameters in *. cbn [deref].
  unfold mbind, M_bind, bind, mret, M_ret, ret, CreateVolume, get_instanceMap,
    set_instanceMap.
  cbv beta zeta. rewrite Hlv.
  destruct (csi_Parameters req !! "name") as [v|];
    [destruct (Hname v eq_refl) as [? ->]|];
    (destruct (csi_Parameters req !! "description") as [v'|];
     [destruct (Hdesc v' eq_refl) as [? ->]|]);
    (destruct (csi_Parameters req !! "capacity") as [v''|];
     [destruct (Hcap v'' eq_refl) as [? ->]|]);
    cbn in *; rewrite Hclient; reflexivity.
Qed.

Section CatalogMore.

Variable ListProfiles : string -> list Call -> list (option ProfileSpec) * option error.

Lemma Catalog_range_plans (prfs : list ProfileSpec) (s : State) :
  forall plans,
    Catalog_range (map Some prfs) plans s = (Ret (plans ++ map plan_of prfs), s).
Proof.
  induction prfs as [|prf prfs IH]; intros plans; cbn [map Catalog_range].
  - now rewrite app_nil_r.
  - unfold mbind, M_bind, bind. cbn. rewrite IH, <- app_assoc. reflexivity.
Qed.

(** X28.  Catalog leaves the controller as it is.  When the client cannot
    list the profiles, Catalog returns no catalog and the error of the client
    as it is.  Otherwise it returns one service, "opensds-service", bindable,
    with one plan per profile in the order of the profiles, each plan free
    and carrying the name, id, description and extra map of its profile. *)
Theorem Catalog_lists_profiles (s : State) :
  (forall prfs e,
     ListProfiles (Endpoint (ctrl s)) (calls s) = (prfs, Some e) ->
     controller.Catalog ListProfiles s = (Ret (None, Some e), s))
  /\ (forall prfs,
        ListProfiles (Endpoint (ctrl s)) (calls s) = (map Some prfs, None) ->
        controller.Catalog ListProfiles s
        = (Ret (Some {| Services :=
                          [ {| svc_Name := "opensds-service";
                               svc_ID := "4f6e6cf6-ffdd-425f-a2c7-3c9258ad2468";
                               svc_Description := "Policy based storage service";
                               svc_Plans := map plan_of prfs;
                               svc_Bindable := true |} ] |}, None), s)).
Proof.
  split.
  - intros prfs e Hlist. unfold controller.Catalog. now rewrite Hlist.
  - intros prfs Hlist. unfold controller.Catalog. rewrite Hlist.
    unfold mbind, M_bind, bind. now rewrite Catalog_range_plans.
Qed.

End CatalogMore.

End RegistryMore.


(* ===================================================================== *)
(** * More of the code at work *)
(* ===================================================================== *)

Section MoreRuns.

Import iscsi model brokerapi controller Scenario.

Lemma waitForPath_nothing_to_try_witness :
  (0 <= 0)%Z
  /\ waitForPathToExistInternal (Some "/dev/sdx") 0 ISCSITranslateTCP
       (os_Stat host_no_device) (filepath_Glob host_no_device) []
     = (Ret (false, Some "/dev/sdx"), []).
Proof.
  split; [lia|].
  destruct (waitForPath_nothing_to_try (os_Stat host_no_device)
              (filepath_Glob host_no_device) ISCSITranslateTCP []) as [_ Hzero].
  apply Hzero. lia.
Defined.

Lemma waitForPath_glob_takes_first_match_witness :
  waitForPathToExistInternal (Some "/dev/disk/by-path/pci-*-ip-10.0.0.1:3260-iscsi-iqn-lun-0")
    3 "iser" (os_Stat host_two_links) (filepath_Glob host_two_links) []
  = (Ret (true,
          Some "/dev/disk/by-path/pci-0000:00:03.0-ip-10.0.0.1:3260-iscsi-iqn-lun-0"),
     [EvGlob "/dev/disk/by-path/pci-*-ip-10.0.0.1:3260-iscsi-iqn-lun-0"
        (mk_slice ["/dev/disk/by-path/pci-0000:00:03.0-ip-10.0.0.1:3260-iscsi-iqn-lun-0";
                   "/dev/disk/by-path/pci-0000:00:04.0-ip-10.0.0.1:3260-iscsi-iqn-lun-0"])
        None]).
Proof.
  apply (waitForPath_glob_takes_first_match (os_Stat host_two_links)
           (filepath_Glob host_two_links) _ "iser" _
           ["/dev/disk/by-path/pci-0000:00:04.0-ip-10.0.0.1:3260-iscsi-iqn-lun-0"]
           None 3 []);
    [lia | reflexivity | reflexivity].
Defined.

Lemma waitForPath_empty_glob_panics_witness :
  waitForPathToExistInternal (Some "/dev/disk/by-path/pci-*") 3 "iser"
    (os_Stat host_glob_empty) (filepath_Glob host_glob_empty) []
  = (Panic "index out of range [0] with length 0",
     [EvGlob "/dev/disk/by-path/pci-*" (mk_slice []) None]).
Proof.
  apply (waitForPath_empty_glob_panics (os_Stat host_glob_empty)
           (filepath_Glob host_glob_empty) _ "iser" None 3 []);
    [lia | reflexivity | reflexivity].
Defined.

Lemma Connect_discovery_failure_stops_witness :
  let run := Connect (fun _ => conn_chap) host_no_portal ∅ [] in
  let failure := EvExec "iscsiadm" (discovery_cmd "10.0.0.1:3260")
                   "iscsiadm: connection timed out" (Some (ExitError 4)) in
  In failure run.2
  /\ run.1 = Fatal "Error encountered in sendtargets: %v"
  /\ exists e0, run.2 = [failure; EvStat (device_path conn_chap) (Some e0)].
Proof.
  intros run failure.
  assert (Hrun : Connect (fun _ => conn_chap) host_no_portal ∅ [] = (run.1, run.2 ++ []))
    by (vm_compute; reflexivity).
  assert (Hin : In failure run.2) by (vm_compute; auto).
  split; [exact Hin|].
  exact (Connect_discovery_failure_stops (fun _ => conn_chap) host_no_portal ∅ []
           run.1 run.2 _ _ Hrun Hin).
Defined.

Lemma Connect_login_failure_stops_witness :
  let run := Connect (fun _ => conn_plain) host_login_refused ∅ [] in
  let failure := EvExec "iscsiadm" (login_cmd "10.0.0.1:3260" "iqn.2017-01.demo:vol1")
                   "iscsiadm: login failed" (Some (ExitError 24)) in
  In failure run.2
  /\ run.1 = Fatal "Received error on login attempt"
  /\ exists auth o0 e0,
      auth_done conn_plain auth
      /\ run.2 = failure :: auth ++
                 [EvExec "iscsiadm" (discovery_cmd "10.0.0.1:3260") o0 None;
                  EvStat (device_path conn_plain) (Some e0)].
Proof.
  intros run failure.
  assert (Hrun : Connect (fun _ => conn_plain) host_login_refused ∅ []
                 = (run.1, run.2 ++ [])) by (vm_compute; reflexivity).
  assert (Hin : In failure run.2) by (vm_compute; auto).
  split; [exact Hin|].
  exact (Connect_login_failure_stops (fun _ => conn_plain) host_login_refused ∅ []
           run.1 run.2 _ _ Hrun Hin).
Defined.

Lemma Connect_return_values_witness :
  let run := Connect (fun _ => conn_plain) host_no_device ∅ [] in
  run = (Ret ("", Some timeout_error), run.2 ++ [])
  /\ (("" = device_path conn_plain /\ Some timeout_error = None
       /\ exists earlier, run.2 = EvStat (device_path conn_plain) None :: earlier)
      \/ ("" = "" /\ Some timeout_error = Some timeout_error
          /\ exists e earlier, run.2 = EvStat (device_path conn_plain) (Some e) :: earlier)).
Proof.
  intros run.
  assert (Hrun : Connect (fun _ => conn_plain) host_no_device ∅ []
                 = (Ret ("", Some timeout_error), run.2 ++ []))
    by (vm_compute; reflexivity).
  split; [exact Hrun|].
  exact (Connect_return_values (fun _ => conn_plain) host_no_device ∅ [] run.2
           "" (Some timeout_error) Hrun).
Defined.

Lemma Connect_bounded_witness :
  let run := Connect (fun _ => conn_chap) host_no_device ∅ [] in
  run = (run.1, run.2 ++ [])
  /\ (count_events is_stat run.2 <= 11)%nat
  /\ (count_events is_sleep run.2 <= 9)%nat
  /\ (count_events is_exec run.2 <= 4)%nat
  /\ (forall d, In (EvSleep d) run.2 -> d = time_Second)
  /\ (forall msg, run.1 <> Panic msg).
Proof.
  intros run.
  assert (Hrun : Connect (fun _ => conn_chap) host_no_device ∅ [] = (run.1, run.2 ++ []))
    by (vm_compute; reflexivity).
  split; [exact Hrun|].
  exact (Connect_bounded (fun _ => conn_chap) host_no_device ∅ [] run.1 run.2 Hrun).
Defined.

Lemma Connect_without_auth_method_witness :
  let run := Connect (fun _ => conn_plain) host_no_device ∅ [] in
  let login := EvExec "iscsiadm" (login_cmd "10.0.0.1:3260" "iqn.2017-01.demo:vol1") "" None in
  AuthMethod conn_plain = ""
  /\ In login run.2
  /\ "iscsiadm" = "iscsiadm"
  /\ (login_cmd "10.0.0.1:3260" "iqn.2017-01.demo:vol1" = discovery_cmd (TgtPortal conn_plain)
      \/ login_cmd "10.0.0.1:3260" "iqn.2017-01.demo:vol1"
         = login_cmd (TgtPortal conn_plain) (TgtIQN conn_plain)).
Proof.
  intros run login.
  assert (Hrun : Connect (fun _ => conn_plain) host_no_device ∅ [] = (run.1, run.2 ++ []))
    by (vm_compute; reflexivity).
  assert (Hin : In login run.2) by (vm_compute; tauto).
  split; [reflexivity|]. split; [exact Hin|].
  exact (Connect_without_auth_method (fun _ => conn_plain) host_no_device ∅ []
           run.1 run.2 _ _ _ _ eq_refl Hrun Hin).
Defined.

Lemma GetFSType_always_returns_witness :
  exists curFSType,
    GetFSType host_blank_disk "/dev/sdb" []
    = (Ret curFSType, [EvExec "blkid" ["/dev/sdb"] "" (Some (ExitError 2))])
    /\ (Some (ExitError 2) <> None \/ strings_Contains "" "TYPE=" = false ->
        curFSType = "").
Proof. exact (GetFSType_always_returns host_blank_disk "/dev/sdb" []). Defined.

Lemma GetFSType_last_TYPE_field_witness :
  let res := "/dev/sdb: PTUUID=" +:+ quote +:+ "9f3a" +:+ quote
             +:+ " PTTYPE=" +:+ quote +:+ "dos" +:+ quote in
  let v := "PTTYPE=" +:+ quote +:+ "dos" +:+ quote in
  strings_Split res " " = ["/dev/sdb:"; "PTUUID=" +:+ quote +:+ "9f3a" +:+ quote] ++ v :: []
  /\ strings_Contains v "TYPE=" = true
  /\ exists x,
      after_equals v = Some x
      /\ GetFSType host_partitioned "/dev/sdb" []
         = (Ret (strings_ReplaceAll x quote ""), [EvExec "blkid" ["/dev/sdb"] res None]).
Proof.
  intros res v.
  assert (Hsplit : strings_Split res " "
                   = ["/dev/sdb:"; "PTUUID=" +:+ quote +:+ "9f3a" +:+ quote] ++ v :: [])
    by (vm_compute; reflexivity).
  assert (Hv : strings_Contains v "TYPE=" = true) by (vm_compute; reflexivity).
  split; [exact Hsplit|]. split; [exact Hv|].
  apply (GetFSType_last_TYPE_field host_partitioned "/dev/sdb" res v
           ["/dev/sdb:"; "PTUUID=" +:+ quote +:+ "9f3a" +:+ quote] [] []);
    [vm_compute; reflexivity | exact Hsplit | exact Hv | constructor].
Defined.

Lemma Format_unsigned_device_witness :
  host_CombinedOutput host_silent_blkid [] "blkid" ["/dev/sdb"] = ("", None)
  /\ strings_Contains "" "TYPE=" = false
  /\ Format host_silent_blkid "/dev/sdb" "xfs" []
     = (Ret None,
        [EvExec "mkfs" ["-t"; "xfs"; "-F"; "/dev/sdb"] "" None;
         EvExec "blkid" ["/dev/sdb"] "" None]).
Proof.
  split; [reflexivity|]. split; [reflexivity|].
  exact (Format_unsigned_device host_silent_blkid "/dev/sdb" "xfs" "" []
           eq_refl eq_refl).
Defined.

Lemma FormatAndMount_returns_after_mount_witness :
  let run := FormatAndMount host_formatted "/dev/sdb" "ext4" "/mnt/vol" [] in
  run = (run.1, run.2 ++ [])
  /\ (forall err, run.1 = Ret err ->
        err = None
        /\ exists o1 o2 earlier,
            run.2 = EvExec "mount" ["/dev/sdb"; "/mnt/vol"] o2 None
                    :: EvExec "mkdir" ["-p"; "/mnt/vol"] o1 None :: earlier)
  /\ (forall msg, run.1 <> Panic msg)
  /\ (forall name arg o e,
        In (EvExec name arg o (Some e)) run.2 ->
        name <> "blkid" ->
        (exists msg, run.1 = Fatal msg)
        /\ exists earlier, run.2 = EvExec name arg o (Some e) :: earlier).
Proof.
  intros run.
  assert (Hrun : FormatAndMount host_formatted "/dev/sdb" "ext4" "/mnt/vol" []
                 = (run.1, run.2 ++ [])) by (vm_compute; reflexivity).
  split; [exact Hrun|].
  exact (FormatAndMount_returns_after_mount host_formatted "/dev/sdb" "ext4" "/mnt/vol"
           [] run.1 run.2 Hrun).
Defined.

Lemma GetInitiator_always_returns_witness :
  exists iqns,
    GetInitiator host_no_file []
    = (Ret (mk_slice iqns, None),
       [EvExec "cat" ["/etc/iscsi/initiatorname.iscsi"]
          "cat: /etc/iscsi/initiatorname.iscsi: No such file or directory"
          (Some (ExitError 1))])
    /\ (Some (ExitError 1) <> None -> iqns = []).
Proof. exact (GetInitiator_always_returns host_no_file []). Defined.

Lemma GetInitiator_reads_names_witness :
  let iqns := ["iqn.1993-08.org.debian:01:8d2f"; "iqn.2017-01.demo:init2"] in
  Forall (fun iqn => strings_Contains iqn "=" = false
                     /\ strings_Contains iqn newline = false) iqns
  /\ GetInitiator (host_initiators iqns) []
     = (Ret (mk_slice iqns, None),
        [EvExec "cat" ["/etc/iscsi/initiatorname.iscsi"] (initiator_file iqns) None]).
Proof.
  intros iqns.
  assert (Hall : Forall (fun iqn => strings_Contains iqn "=" = false
                                    /\ strings_Contains iqn newline = false) iqns)
    by (repeat constructor).
  split; [exact Hall|].
  exact (GetInitiator_reads_names (host_initiators iqns) iqns [] Hall eq_refl).
Defined.

Lemma GetHostIp_first_non_loopback_witness :
  (forall e, GetHostIp string text_IsLoopback id (addresses, Some e) = "127.0.0.1")
  /\ ((exists before ip mask after,
         addresses = before ++ IPNet string ip mask :: after
         /\ text_IsLoopback ip = false
         /\ (forall ip' mask', In (IPNet string ip' mask') before ->
               text_IsLoopback ip' = true)
         /\ GetHostIp string text_IsLoopback id (addresses, None) = id ip)
      \/ ((forall ip mask, In (IPNet string ip mask) addresses -> text_IsLoopback ip = true)
          /\ GetHostIp string text_IsLoopback id (addresses, None) = "127.0.0.1")).
Proof. exact (GetHostIp_first_non_loopback string text_IsLoopback id addresses). Defined.

(** A disk that has a partition table and no filesystem passes for
    formatted: the type read is "dos" and Format runs no mkfs. *)
Example partition_table_passes_for_filesystem :
  fst (GetFSType host_partitioned "/dev/sdb" []) = Ret "dos"
  /\ Format host_partitioned "/dev/sdb" "ext4" []
     = (Ret None, snd (GetFSType host_partitioned "/dev/sdb" [])).
Proof. vm_compute. split; reflexivity. Qed.

Lemma calls_touch_one_instance_witness :
  let s' := snd (CreateServiceInstance (fun _ => client_ok "vol-2") "inst-2"
                   (req_named "logs") provisioned) in
  (forall other, other <> "inst-2" ->
     instanceMap (ctrl s') !! other = instanceMap (ctrl provisioned) !! other)
  /\ Endpoint (ctrl s') = Endpoint (ctrl provisioned)
  /\ (calls s' = calls provisioned \/ exists c, calls s' = c :: calls provisioned).
Proof.
  intros s'.
  apply (calls_touch_one_instance (fun _ => client_ok "vol-2") "inst-2" provisioned s').
  left. exists (req_named "logs").
  eexists. unfold s'. apply surjective_pairing.
Defined.

Lemma names_match_kept_witness :
  names_match (instanceMap (ctrl fresh))
  /\ names_match (instanceMap (ctrl provisioned))
  /\ names_match (instanceMap (ctrl bound)).
Proof.
  assert (Hfresh : names_match (instanceMap (ctrl fresh))).
  { destruct (names_match_kept (fun _ => client_ok "vol-1") "inst-1" fresh fresh)
      as [Hnew _]. apply (Hnew "http://127.0.0.1:50040"). }
  assert (Hprovisioned : names_match (instanceMap (ctrl provisioned))).
  { destruct (names_match_kept (fun _ => client_ok "vol-1") "inst-1" fresh provisioned)
      as [_ Hkept].
    apply Hkept; [|exact Hfresh].
    left. exists (req_named "data"). eexists. apply surjective_pairing. }
  split; [exact Hfresh|]. split; [exact Hprovisioned|].
  destruct (names_match_kept (fun _ => client_ok "vol-1") "inst-1" provisioned bound)
    as [_ Hkept].
  apply Hkept; [|exact Hprovisioned].
  right; right; left. exists "binding-1", bind_plain. eexists. apply surjective_pairing.
Defined.

Lemma unknown_instance_refused_witness :
  instanceMap (ctrl fresh) !! "inst-9" = None
  /\ RemoveServiceInstance (fun _ => client_ok "vol-1") "inst-9" "svc" "plan" false fresh
     = (Ret (None, Some (errorString "No such instance inst-9 exited!")), fresh)
  /\ Bind (fun _ => client_ok "vol-1") "inst-9" "binding-1" bind_plain fresh
     = (Ret (None, Some (errorString "No such instance inst-9 exited!")), fresh)
  /\ UnBind (fun _ => client_ok "vol-1") "inst-9" "binding-1" "svc" "plan" fresh
     = (Ret (Some (errorString "No such instance inst-9 exited!")), fresh).
Proof.
  assert (Hnone : instanceMap (ctrl fresh) !! "inst-9" = None) by reflexivity.
  split; [exact Hnone|].
  destruct (unknown_instance_refused (fun _ => client_ok "vol-1") "inst-9" fresh Hnone)
    as (Hremove & Hbind & Hunbind).
  split; [apply Hremove|]. split; [apply Hbind | apply Hunbind].
Defined.

Lemma UnBind_needs_a_binding_witness :
  CreateServiceInstance (fun _ => client_ok "vol-1") "inst-1" (req_named "data") fresh
  = (Ret (Some {| DashboardURL := ""; Operation := "" |}, None), provisioned)
  /\ UnBind (fun _ => client_ok "vol-1") "inst-1" "binding-1" "svc" "plan" provisioned
     = (Ret (Some (errorString "Volume attachment id not provided in credential info!")),
        provisioned).
Proof.
  assert (Hcreate : CreateServiceInstance (fun _ => client_ok "vol-1") "inst-1"
                      (req_named "data") fresh
                    = (Ret (Some {| DashboardURL := ""; Operation := "" |}, None),
                       provisioned)) by (vm_compute; reflexivity).
  split; [exact Hcreate|].
  apply (UnBind_needs_a_binding (fun _ => client_ok "vol-1") "inst-1" "binding-1"
           "svc" "plan" fresh provisioned).
  left. eauto.
Defined.

Lemma CreateServiceInstance_client_failure_witness :
  let run := CreateServiceInstance (fun _ => client_down) "inst-1" (req_named "data") fresh in
  let spec := {| vs_Id := ""; vs_Name := "data"; vs_Description := ""; vs_Size := 0;
                 vs_Metadata := None |} in
  calls run.2 = CallCreateVolume (Endpoint (ctrl fresh)) spec None
                  (Some (errorString "connection refused")) :: calls fresh
  /\ run.1 = Ret (None, Some (errorString "connection refused"))
  /\ ctrl run.2 = ctrl fresh.
Proof.
  intros run spec.
  assert (Hcall : calls run.2
                  = CallCreateVolume (Endpoint (ctrl fresh)) spec None
                      (Some (errorString "connection refused")) :: calls fresh)
    by (vm_compute; reflexivity).
  split; [exact Hcall|].
  apply (CreateServiceInstance_client_failure (fun _ => client_down) "inst-1"
           (req_named "data") fresh run.2 spec None (errorString "connection refused")
           run.1); [apply surjective_pairing | exact Hcall].
Defined.

Lemma RemoveServiceInstance_deletes_volume_witness :
  let instance := {| Name := "inst-1";
                     Credential := <["image" := VString "OPENSDS:data:vol-1"]>
                                     (<["volumeId" := VString "vol-1"]> ∅) |} in
  instanceMap (ctrl provisioned) !! "inst-1" = Some instance
  /\ Credential instance !! "volumeId" = Some (VString "vol-1")
  /\ RemoveServiceInstance (fun _ => client_ok "vol-1") "inst-1" "svc" "plan" false
       provisioned
     = (Ret (Some {| dsi_Operation := "" |}, None),
        {| ctrl := {| Endpoint := Endpoint (ctrl provisioned);
                      instanceMap := delete "inst-1" (instanceMap (ctrl provisioned)) |};
           calls := CallDeleteVolume (Endpoint (ctrl provisioned)) "vol-1" None
                    :: calls provisioned |}).
Proof.
  intros instance.
  assert (Hinst : instanceMap (ctrl provisioned) !! "inst-1" = Some instance)
    by (vm_compute; reflexivity).
  assert (Hvol : Credential instance !! "volumeId" = Some (VString "vol-1"))
    by (vm_compute; reflexivity).
  split; [exact Hinst|]. split; [exact Hvol|].
  exact (RemoveServiceInstance_deletes_volume (fun _ => client_ok "vol-1") "inst-1"
           "svc" "plan" false provisioned instance "vol-1" Hinst Hvol).
Defined.

Lemma Create_then_Remove_witness :
  let s2 := snd (RemoveServiceInstance (fun _ => client_ok "vol-1") "inst-1" "svc" "plan"
                   false provisioned) in
  instanceMap (ctrl s2) !! "inst-1" = None
  /\ instanceMap (ctrl s2) = delete "inst-1" (instanceMap (ctrl fresh))
  /\ exists spec vol,
      calls s2 = CallDeleteVolume (Endpoint (ctrl fresh)) (GetId vol) None
                 :: CallCreateVolume (Endpoint (ctrl fresh)) spec (Some vol) None
                 :: calls fresh.
Proof.
  intros s2.
  apply (Create_then_Remove (fun _ => client_ok "vol-1") "inst-1" "svc" "plan" false
           (req_named "data") fresh provisioned s2
           (Some {| DashboardURL := ""; Operation := "" |})
           (Some {| dsi_Operation := "" |}));
    vm_compute; reflexivity.
Defined.

Lemma Bind_augments_credentials_witness :
  let resp :=
    {| Credentials :=
         <["connectionInfo" :=
             VConnectionInfo {| ci_DriverVolumeType := "iscsi";
                                ci_ConnectionData := [("targetPortal", "10.0.0.1:3260")] |}]>
           (<["attachmentId" := VString "atc-1"]>
              (<["image" := VString "OPENSDS:data:vol-1"]>
                 (<["volumeId" := VString "vol-1"]> ∅))) |} in
  Bind (fun _ => client_ok "vol-1") "inst-1" "binding-1" bind_plain provisioned
  = (Ret (Some resp, None), bound)
  /\ exists instance volID spec atc,
      instanceMap (ctrl provisioned) !! "inst-1" = Some instance
      /\ Credential instance !! "volumeId" = Some (VString volID)
      /\ calls bound
         = CallCreateVolumeAttachment (Endpoint (ctrl provisioned)) spec (Some atc) None
           :: calls provisioned
      /\ va_VolumeId spec = volID
      /\ Credentials resp !! "attachmentId" = Some (VString (atc_GetId atc))
      /\ Credentials resp !! "connectionInfo"
         = Some (VConnectionInfo (va_ConnectionInfo atc))
      /\ (forall k, k <> "attachmentId" -> k <> "connectionInfo" ->
            Credentials resp !! k = Credential instance !! k)
      /\ instanceMap (ctrl bound) !! "inst-1"
         = Some {| Name := Name instance; Credential := Credentials resp |}.
Proof.
  intros resp.
  assert (Hbind : Bind (fun _ => client_ok "vol-1") "inst-1" "binding-1" bind_plain
                    provisioned = (Ret (Some resp, None), bound))
    by (vm_compute; reflexivity).
  split; [exact Hbind|].
  exact (Bind_augments_credentials (fun _ => client_ok "vol-1") "inst-1" "binding-1"
           bind_plain provisioned bound resp Hbind).
Defined.

Lemma UnBind_deletes_the_attachment_witness :
  let run := UnBind (fun _ => client_ok "vol-1") "inst-1" "another-binding" "svc" "plan"
               bound in
  exists resp,
    Bind (fun _ => client_ok "vol-1") "inst-1" "binding-1" bind_plain provisioned
    = (Ret (Some resp, None), bound)
    /\ exists atcID err,
        Credentials resp !! "attachmentId" = Some (VString atcID)
        /\ calls run.2
           = CallDeleteVolumeAttachment (Endpoint (ctrl bound)) atcID err :: calls bound
        /\ run.1 = Ret err.
Proof.
  intros run.
  eexists.
  assert (Hbind : Bind (fun _ => client_ok "vol-1") "inst-1" "binding-1" bind_plain
                    provisioned = (Ret (Some _, None), bound))
    by (vm_compute; reflexivity).
  split; [exact Hbind|].
  apply (UnBind_deletes_the_attachment (fun _ => client_ok "vol-1") "inst-1" "binding-1"
           bind_plain provisioned bound run.2 _ "another-binding" "svc" "plan" run.1 Hbind).
  apply surjective_pairing.
Defined.

Lemma Bind_accepted_witness :
  let instance :=
    {| Name := "inst-1";
       Credential :=
         <["connectionInfo" :=
             VConnectionInfo {| ci_DriverVolumeType := "iscsi";
                                ci_ConnectionData := [("targetPortal", "10.0.0.1:3260")] |}]>
           (<["attachmentId" := VString "atc-1"]>
              (<["image" := VString "OPENSDS:data:vol-1"]>
                 (<["volumeId" := VString "vol-1"]> ∅))) |} in
  let atc :=
    {| va_Id := "atc-2"; va_VolumeId := "vol-1"; va_HostInfo := Some zero_HostInfo;
       va_Metadata := None; va_ConnectionInfo := zero_ConnectionInfo |} in
  let GetClient := fun _ : string =>
    {| client_CreateVolume := client_CreateVolume (client_ok "vol-1");
       client_DeleteVolume := client_DeleteVolume (client_ok "vol-1");
       client_CreateVolumeAttachment := fun _ _ => (Some atc, None);
       client_DeleteVolumeAttachment := client_DeleteVolumeAttachment (client_ok "vol-1") |} in
  let cred := <["connectionInfo" := VConnectionInfo (va_ConnectionInfo atc)]>
                (<["attachmentId" := VString "atc-2"]> (Credential instance)) in
  instanceMap (ctrl bound) !! "inst-1" = Some instance
  /\ Credential instance !! "attachmentId" = Some (VString "atc-1")
  /\ Bind GetClient "inst-1" "binding-2" (Some {| br_Parameters := ∅ |}) bound
     = (Ret (Some {| Credentials := cred |}, None),
        {| ctrl := {| Endpoint := Endpoint (ctrl bound);
                      instanceMap :=
                        <["inst-1" := {| Name := "inst-1"; Credential := cred |}]>
                          (instanceMap (ctrl bound)) |};
           calls := CallCreateVolumeAttachment (Endpoint (ctrl bound))
                      (attachment_spec "vol-1") (Some atc) None :: calls bound |}).
Proof.
  intros instance atc GetClient cred.
  assert (Hinst : instanceMap (ctrl bound) !! "inst-1" = Some instance)
    by (vm_compute; reflexivity).
  split; [exact Hinst|]. split; [vm_compute; reflexivity|].
  apply (Bind_accepted GetClient "inst-1" "binding-2" {| br_Parameters := ∅ |} bound
           instance "vol-1" atc Hinst); vm_compute; reflexivity.
Defined.

Lemma capacity_must_be_int64_witness :
  csi_Parameters req_float_capacity !! "capacity" = Some (VFloat64 "1")
  /\ CreateServiceInstance (fun _ => client_ok "vol-1") "inst-3" (Some req_float_capacity)
       fresh
     = (Panic "interface conversion: interface {} is not int64", fresh).
Proof.
  assert (Hcap : csi_Parameters req_float_capacity !! "capacity" = Some (VFloat64 "1"))
    by (vm_compute; reflexivity).
  split; [exact Hcap|].
  destruct (capacity_must_be_int64 (fun _ => client_ok "vol-1") "inst-3"
              req_float_capacity fresh (VFloat64 "1") Hcap) as [_ Hmsg];
    [discriminate|].
  apply Hmsg; intros v Hv; vm_compute in Hv; inversion Hv; eauto.
Defined.

Lemma Catalog_lists_profiles_witness :
  controller.Catalog two_profiles provisioned
  = (Ret (Some {| Services :=
                    [ {| svc_Name := "opensds-service";
                         svc_ID := "4f6e6cf6-ffdd-425f-a2c7-3c9258ad2468";
                         svc_Description := "Policy based storage service";
                         svc_Plans := map plan_of [gold; silver];
                         svc_Bindable := true |} ] |}, None), provisioned).
Proof.
  destruct (Catalog_lists_profiles two_profiles provisioned) as [_ Hlist].
  apply Hlist. reflexivity.
Defined.

Lemma CreateServiceInstance_accepted_witness :
  let vol := {| vs_Id := "vol-7"; vs_Name := "data"; vs_Description := ""; vs_Size := 2;
                vs_Metadata := None |} in
  well_typed (csi_Parameters req_sized)
  /\ is_Some (instanceMap (ctrl provisioned) !! "inst-1")
  /\ CreateServiceInstance (fun _ => client_ok "vol-7") "inst-1" (Some req_sized) provisioned
     = (Ret (Some {| DashboardURL := ""; Operation := "" |}, None),
        {| ctrl :=
             {| Endpoint := Endpoint (ctrl provisioned);
                instanceMap :=
                  <["inst-1" :=
                      {| Name := "inst-1";
                         Credential :=
                           <["image" := VString ("OPENSDS:" +:+ GetName vol +:+ ":" +:+ GetId vol)]>
                             (<["volumeId" := VString (GetId vol)]> ∅) |}]>
                    (instanceMap (ctrl provisioned)) |};
           calls := CallCreateVolume (Endpoint (ctrl provisioned))
                      (spec_of_parameters (csi_Parameters req_sized)) (Some vol) None
                    :: calls provisioned |}).
Proof.
  intros vol.
  assert (Htyped : well_typed (csi_Parameters req_sized))
    by (repeat split; intros v Hv; vm_compute in Hv; inversion Hv; eauto).
  split; [exact Htyped|]. split; [vm_compute; eauto|].
  apply (CreateServiceInstance_accepted (fun _ => client_ok "vol-7") "inst-1" req_sized
           provisioned vol Htyped); vm_compute; reflexivity.
Defined.

Lemma no_volume_id_is_stuck_witness :
  let instance := {| Name := "inst-1"; Credential := ∅ |} in
  instanceMap (ctrl unbound) !! "inst-1" = Some instance
  /\ Credential instance !! "volumeId" = None
  /\ RemoveServiceInstance (fun _ => client_ok "vol-1") "inst-1" "svc" "plan" false unbound
     = (Ret (None, Some (errorString "Volume id not provided in credential info!")),
        unbound)
  /\ Bind (fun _ => client_ok "vol-1") "inst-1" "binding-2" bind_plain unbound
     = (Ret (None, Some (errorString "Volume id not provided in credential info!")),
        unbound).
Proof.
  intros instance.
  assert (Hinst : instanceMap (ctrl unbound) !! "inst-1" = Some instance)
    by (vm_compute; reflexivity).
  assert (Hvol : Credential instance !! "volumeId" = None) by reflexivity.
  split; [exact Hinst|]. split; [exact Hvol|].
  destruct (no_volume_id_is_stuck (fun _ => client_ok "vol-1") "inst-1" unbound instance
              Hinst Hvol) as [Hremove Hbind].
  split; [apply Hremove | apply Hbind].
Defined.

End MoreRuns.
